(** * squash: the versioned scan-file parsers of [src/formats.py]

    A shallow embedding of [DataFormat_v1.parser] and [DataFormat_v2.parser]
    together with the properties of the pipeline they implement: header
    reading, waveform reading, statistical reduction, per-point pulse fits
    with their fallback ladder, and the per-channel calibration fit.

    Conventions of the embedding
    - an open file is the list of its remaining lines; [readline] at end of
      file returns the empty string, as Python does;
    - a Python exception is a value of [exn]; code that may raise returns a
      [result]; code that also reads the file lives in [IO];
    - float64 numbers are the binary64 numbers of the Standard Library's
      specification of IEEE 754 ([SpecFloat], precision 53, largest
      exponent 1024), with its round-to-nearest-even operations; decoded
      samples are integers and enter the tensor through [float_of_Z];
    - the numeric collaborators imported from [fitting], [numpy] and [scipy],
      the word splitter and the validation of a header line are fields of
      the record [collab]; the two line readers of [utils] are modelled as
      calls of [readline]. *)

From Stdlib Require Import List String Ascii ZArith Bool Arith Lia SpecFloat.
Import ListNotations.

Local Open Scope string_scope.
Local Open Scope list_scope.

(** ** Exceptions and results *)

Inductive exn : Type :=
| ValueError
| TypeError
| IndexError
| LinAlgError
| RuntimeError
| FileNotFoundError
| DataFormatError
| DataTypeError (version : string)
| DataParseError (data : string)
| OtherError (name : string).

(** The classes that appear in an [except] clause or in the error taxonomy. *)
Inductive exn_class : Type :=
| CValueError
| CLinAlgError
| CRuntimeError
| CDataFormatError
| CDataParseError.

(** [isinstance linalg_sub e c]: does [except c] catch [e]?  Whether
    [numpy.linalg.LinAlgError] derives from [ValueError] depends on the
    installed numpy, hence the flag. [DataTypeError] and [DataParseError]
    derive from [DataFormatError] (formats.py, lines 20-33). *)
Definition isinstance (linalg_sub : bool) (e : exn) (c : exn_class) : bool :=
  match c, e with
  | CValueError, ValueError => true
  | CValueError, LinAlgError => linalg_sub
  | CLinAlgError, LinAlgError => true
  | CRuntimeError, RuntimeError => true
  | CDataFormatError, DataFormatError => true
  | CDataFormatError, DataTypeError _ => true
  | CDataFormatError, DataParseError _ => true
  | CDataParseError, DataParseError _ => true
  | _, _ => false
  end.

Inductive result (A : Type) : Type :=
| Ok (a : A)
| Raise (e : exn).

Arguments Ok {A} a.
Arguments Raise {A} e.

Definition rbind {A B : Type} (m : result A) (k : A -> result B) : result B :=
  match m with
  | Ok a => k a
  | Raise e => Raise e
  end.

Notation "x <-- m ;; k" := (rbind m (fun x => k))
  (at level 61, m at next level, right associativity).

Fixpoint rmap {A B : Type} (f : A -> result B) (xs : list A) : result (list B) :=
  match xs with
  | [] => Ok []
  | x :: xs' => y <-- f x ;; ys <-- rmap f xs' ;; Ok (y :: ys)
  end.

(** [for x in xs: acc = body x acc], stopping at the first exception. *)
Fixpoint rfor {A S : Type} (xs : list A) (body : A -> S -> result S) (s : S)
  : result S :=
  match xs with
  | [] => Ok s
  | x :: xs' => s' <-- body x s ;; rfor xs' body s'
  end.

(** ** Open files *)

Definition stream : Type := list string.

(** A computation that reads from the open file [fp]: it returns a value or
    raises, and leaves the file at some position. *)
Definition IO (A : Type) : Type := stream -> result A * stream.

Definition ret {A : Type} (a : A) : IO A := fun fp => (Ok a, fp).

Definition throw {A : Type} (e : exn) : IO A := fun fp => (Raise e, fp).

Definition bind {A B : Type} (m : IO A) (k : A -> IO B) : IO B :=
  fun fp =>
    match m fp with
    | (Ok a, fp') => k a fp'
    | (Raise e, fp') => (Raise e, fp')
    end.

Definition lift {A : Type} (r : result A) : IO A := fun fp => (r, fp).

Notation "x <- m ; k" := (bind m (fun x => k))
  (at level 61, m at next level, right associativity).

Fixpoint for_each {A S : Type} (xs : list A) (body : A -> S -> IO S) (s : S)
  : IO S :=
  match xs with
  | [] => ret s
  | x :: xs' => s' <- body x s ; for_each xs' body s'
  end.

(** [fp.readline()]: the next line, or the empty string at end of file. *)
Definition readline : IO string :=
  fun fp =>
    match fp with
    | [] => (Ok "", [])
    | l :: fp' => (Ok l, fp')
    end.

(** [range(n)] for an integer [n]: empty when [n <= 0]. *)
Definition range (n : Z) : list nat := seq 0 (Z.to_nat n).

(** ** Python string operations used by the parsers *)

Definition is_space (c : ascii) : bool :=
  let n := nat_of_ascii c in
  (((9 <=? n) && (n <=? 13)) || ((28 <=? n) && (n <=? 32)))%nat.

Fixpoint lstrip (s : string) : string :=
  match s with
  | EmptyString => EmptyString
  | String c s' => if is_space c then lstrip s' else s
  end.

Fixpoint rstrip (s : string) : string :=
  match s with
  | EmptyString => EmptyString
  | String c s' =>
      match rstrip s' with
      | EmptyString => if is_space c then EmptyString else String c EmptyString
      | r => String c r
      end
  end.

(** [s.strip()] *)
Definition strip (s : string) : string := rstrip (lstrip s).

(** [s.split(c)] for a one-character separator: every occurrence splits, so
    consecutive separators give empty strings. *)
Fixpoint split_char (c : ascii) (s : string) : list string :=
  match s with
  | EmptyString => [EmptyString]
  | String a s' =>
      if Ascii.eqb a c then EmptyString :: split_char c s'
      else
        match split_char c s' with
        | h :: t => String a h :: t
        | [] => [String a EmptyString]
        end
  end.

(** [s.split(c, 1)]: at most one split, at the first occurrence. *)
Fixpoint split_once (c : ascii) (s : string) : list string :=
  match s with
  | EmptyString => [EmptyString]
  | String a s' =>
      if Ascii.eqb a c then [EmptyString; s']
      else
        match split_once c s' with
        | h :: t => String a h :: t
        | [] => [String a EmptyString]
        end
  end.

(** [c in s] for a one-character [c]. *)
Fixpoint contains_char (c : ascii) (s : string) : bool :=
  match s with
  | EmptyString => false
  | String a s' => Ascii.eqb a c || contains_char c s'
  end.

Definition nonempty (s : string) : bool :=
  match s with
  | EmptyString => false
  | String _ _ => true
  end.

(** [filter(None, line.split(' '))] *)
Definition tokens (line : string) : list string :=
  filter nonempty (split_char " "%char line).

(** [xs[k]] on a Python list. *)
Definition py_index {A : Type} (xs : list A) (k : nat) : result A :=
  match nth_error xs k with
  | Some x => Ok x
  | None => Raise IndexError
  end.

Definition digit_of (c : ascii) : option Z :=
  let n := nat_of_ascii c in
  if ((48 <=? n) && (n <=? 57))%nat then Some (Z.of_nat (n - 48)) else None.

(** Decimal digits with single underscores between digits, as [int] accepts
    them; [prev] records that the previous character was a digit. *)
Fixpoint int_digits (s : string) (acc : Z) (prev : bool) : option Z :=
  match s with
  | EmptyString => if prev then Some acc else None
  | String c s' =>
      match digit_of c with
      | Some d => int_digits s' (10 * acc + d)%Z true
      | None =>
          if Ascii.eqb c "_"%char && prev then
            match s' with
            | String c' _ =>
                match digit_of c' with
                | Some _ => int_digits s' acc false
                | None => None
                end
            | EmptyString => None
            end
          else None
      end
  end.

(** [int(s)] for a string [s]: surrounding whitespace is ignored, one sign is
    allowed, anything else raises [ValueError]. *)
Definition py_int (s : string) : result Z :=
  let t := strip s in
  let r :=
    match t with
    | String "+"%char d => int_digits d 0%Z false
    | String "-"%char d => option_map Z.opp (int_digits d 0%Z false)
    | _ => int_digits t 0%Z false
    end in
  match r with
  | Some z => Ok z
  | None => Raise ValueError
  end.

(** A Python [dict] with string keys: the latest binding of a key wins. *)
Definition dict : Type := list (string * string).

Definition dict_set (d : dict) (k v : string) : dict := (k, v) :: d.

Fixpoint dict_get (d : dict) (k dflt : string) : string :=
  match d with
  | [] => dflt
  | (k', v) :: d' => if String.eqb k' k then v else dict_get d' k dflt
  end.

Fixpoint dict_has (d : dict) (k : string) : bool :=
  match d with
  | [] => false
  | (k', _) :: d' => String.eqb k' k || dict_has d' k
  end.

(** ** Numbers

    A float64 is a binary64 number of IEEE 754 as the Standard Library
    specifies the format: a [spec_float] with a precision of 53 bits and
    the exponent 1024 for the infinities. The operations round to nearest,
    ties to even, as numpy's do. *)

Definition float64 : Type := spec_float.

Definition prec : Z := 53%Z.
Definition emax : Z := 1024%Z.

Definition fzero : float64 := S754_zero false.
Definition fnan : float64 := S754_nan.

Definition fadd : float64 -> float64 -> float64 := SFadd prec emax.
Definition fsub : float64 -> float64 -> float64 := SFsub prec emax.
Definition fmul : float64 -> float64 -> float64 := SFmul prec emax.
Definition fdiv : float64 -> float64 -> float64 := SFdiv prec emax.
Definition fsqrt : float64 -> float64 := SFsqrt prec emax.
Definition fopp : float64 -> float64 := SFopp.

(** The conversion of a Python integer to float64, as the assignment of
    integers into a float64 array and the division by a count do it: the
    nearest binary64 number. (The halves of a double word and the counts of
    a scan are far below 2^1024, where the conversion would overflow.) *)
Definition float_of_Z (z : Z) : float64 := binary_normalize prec emax z 0%Z false.

(** ** Arrays

    numpy arrays are nested lists; their dimensions are the variables
    [nstep], [ntrial], [nsample] that the code keeps in scope. An array of
    float64 holds [float64] numbers, an array of integers holds integers. *)

Definition matrix : Type := list (list float64).
Definition tensor3 : Type := list (list (list float64)).
Definition tensor4 : Type := list (list (list (list float64))).

(** [np.zeros((a, b))] for dimensions already known to be natural numbers. *)
Definition np_zeros2 (a b : nat) : matrix := repeat (repeat fzero b) a.

(** [np.zeros((a, b, c, d))]: a negative dimension raises [ValueError]. *)
Definition np_zeros4 (a b c d : Z) : result tensor4 :=
  if ((a <? 0) || (b <? 0) || (c <? 0) || (d <? 0))%Z then Raise ValueError
  else Ok (repeat (repeat (np_zeros2 (Z.to_nat c) (Z.to_nat d)) (Z.to_nat b))
             (Z.to_nat a)).

Fixpoint set_nth {A : Type} (xs : list A) (k : nat) (v : A) : list A :=
  match xs, k with
  | [], _ => []
  | _ :: t, O => v :: t
  | h :: t, S k' => h :: set_nth t k' v
  end.

(** [xs[k] = v]: an index past the end raises [IndexError]. *)
Definition setitem {A : Type} (xs : list A) (k : nat) (v : A) : result (list A) :=
  if (k <? List.length xs)%nat then Ok (set_nth xs k v) else Raise IndexError.

(** [arr[i, j] = v] *)
Definition setitem2 {A : Type} (arr : list (list A)) (i j : nat) (v : A)
  : result (list (list A)) :=
  row <-- py_index arr i ;;
  row' <-- setitem row j v ;;
  setitem arr i row'.

(** [np.arange(n)]: an array of integers. *)
Definition np_arange (n : Z) : list Z := map Z.of_nat (range n).

(** [np.vstack((m, row))] for a matrix [m] of two columns. *)
Definition np_vstack (m : matrix) (row : list float64) : result matrix :=
  if (List.length row =? 2)%nat then Ok (m ++ [row]) else Raise ValueError.

(** [np.diag(m)] for a two-dimensional [m]. *)
Definition np_diag (m : matrix) : list float64 :=
  map (fun k => nth k (nth k m []) fzero)
      (seq 0 (Nat.min (List.length m) (List.length (hd [] m)))).

(** ** Collaborators

    What [formats.py] imports and does not define. [config_check] is what
    [read_config_line(fp)] makes of one line in its default (checking) mode.
    The integers that the code passes to a collaborator (the start value 5
    of [fmin], the step indices, the initial guess and the bounds of
    [curve_fit]) are passed as integers. *)

Record collab : Type := {
  config_check : string -> result string;
  split_dword : string -> result (Z * Z);
  fit_signal :
    tensor3 -> option tensor3 -> Z -> nat -> nat -> string ->
    result (list float64 * matrix);
  fmin :
    (float64 -> list float64 -> result float64) -> Z -> list float64 ->
    result float64;
  powerlaw_doubleexp : float64 -> list float64 -> result float64;
  linear : float64 -> float64 -> float64 -> float64;
  curve_fit :
    (float64 -> float64 -> float64 -> float64) -> list Z -> list float64 ->
    list Z -> list Z * list Z ->
    result (list float64 * matrix);
  np_str : matrix -> string;
  today : string;
  linalg_is_value_error : bool
}.

(** Modelled from the spec: [utils.read_and_discard_lines] is not part of
    [formats.py]; it discards [n] lines, that is it calls [readline] [n]
    times (none when [n <= 0]) and drops what it read. *)
Definition read_and_discard_lines (n : Z) : IO unit :=
  fun fp => (Ok tt, skipn (Z.to_nat n) fp).

(** Modelled from the spec: [utils.read_config_line] is not part of
    [formats.py]; it reads a single line of the header and, unless called
    with [check=False], validates its structure ([config_check]); with
    [check=False] the line is returned as it is, stripped. *)
Definition read_config_line (K : collab) (check : option bool) : IO string :=
  line <- readline ;
  match check with
  | Some false => ret (strip line)
  | _ => lift (config_check K line)
  end.

(** ** Waveform reader (formats.py, lines 92-124 and 238-274) *)

(** [for _ in range(n): raw.extend(filter(None, readline().strip().split(' ')))] *)
Fixpoint read_tokens (n : nat) (raw : list string) : IO (list string) :=
  match n with
  | O => ret raw
  | S n' =>
      line <- readline ;
      read_tokens n' (raw ++ tokens (strip line))
  end.

Fixpoint grouper (n fuel : nat) (raw : list string) : list (list string) :=
  match fuel with
  | O => []
  | S fuel' =>
      if ((n =? 0) || (List.length raw <? n))%nat then []
      else firstn n raw :: grouper n fuel' (skipn n raw)
  end.

(** The [zip] idiom over [n] copies of one iterator of [raw] (lines 109
    and 259): consecutive groups of [n] tokens; a trailing
    group of fewer than [n] tokens is dropped, and there is no group at all
    when [n] is zero. *)
Definition zip_iter (n : nat) (raw : list string) : list (list string) :=
  grouper n (List.length raw) raw.

(** One group of words gives two channels: the low and the high halves. *)
Definition decode_group (K : collab) (g : list string) : result (list Z * list Z) :=
  ws <-- rmap (split_dword K) g ;;
  Ok (map fst ws, map snd ws).

Fixpoint decode_groups (K : collab) (gs : list (list string))
  : result (list (list Z)) :=
  match gs with
  | [] => Ok []
  | g :: gs' =>
      lh <-- decode_group K g ;;
      rest <-- decode_groups K gs' ;;
      Ok (fst lh :: snd lh :: rest)
  end.

(** The value that [data[i, j] = channels] stores in a block of shape
    [(16, nsample)]. Every row of [channels] has [nsample] entries, so numpy
    accepts 16 rows, broadcasts a single row, accepts the empty list into a
    block without columns, and raises [ValueError] otherwise. *)
Definition broadcast_block (nsample : nat) (channels : list (list Z))
  : result (list (list float64)) :=
  if (List.length channels =? 16)%nat then Ok (map (map float_of_Z) channels)
  else if (List.length channels =? 1)%nat then
    Ok (repeat (map float_of_Z (hd [] channels)) 16)
  else if ((List.length channels =? 0) && (nsample =? 0))%nat then Ok (repeat [] 16)
  else Raise ValueError.

(** The data lines of one record, decoded. *)
Definition read_block (K : collab) (nsample : Z) : IO (list (list float64)) :=
  raw <- read_tokens (Z.to_nat nsample) [] ;
  channels <- lift (decode_groups K (zip_iter (Z.to_nat nsample) raw)) ;
  lift (broadcast_block (Z.to_nat nsample) channels).

(** One iteration of the [(i, j)] loop; [lead] is the number of separator
    lines discarded first. *)
Definition read_record (K : collab) (lead front back nsample : Z) (i j : nat)
  (data : tensor4) : IO tensor4 :=
  _ <- read_and_discard_lines lead ;
  _ <- read_and_discard_lines front ;
  block <- read_block K nsample ;
  data' <- lift (setitem2 data i j block) ;
  _ <- read_and_discard_lines back ;
  _ <- read_and_discard_lines 2 ;
  ret data'.

Record geometry : Type := {
  offset : Z;
  nstep : Z;
  ntrial : Z;
  nsample : Z
}.

(** [entry[k]] used as an integer. *)
Inductive pyval : Type :=
| PStr (s : string)
| PInt (z : Z).

Definition entry_int (entry : list pyval) (k : nat) : result Z :=
  v <-- py_index entry k ;;
  match v with
  | PInt z => Ok z
  | PStr _ => Raise TypeError
  end.

(** [offset = entry[2]; nstep = entry[3]; ntrial = entry[4];
    nsample = entry[6]] (lines 80-83 and 226-229). *)
Definition geometry_of (entry : list pyval) : result geometry :=
  o <-- entry_int entry 2 ;;
  s <-- entry_int entry 3 ;;
  t <-- entry_int entry 4 ;;
  n <-- entry_int entry 6 ;;
  Ok {| offset := o; nstep := s; ntrial := t; nsample := n |}.

Definition group_of (g : geometry) : Z := (offset g / 16)%Z.
Definition front_of (g : geometry) : Z := (group_of g * nsample g)%Z.
Definition back_of (g : geometry) : Z := ((3 - group_of g) * nsample g)%Z.

(** The record loop; [lead i j] is the number of separator lines discarded
    before record [(i, j)]. *)
Definition read_body (K : collab) (lead : nat -> nat -> Z) (g : geometry)
  : IO tensor4 :=
  data <- lift (np_zeros4 (nstep g) (ntrial g) 16 (nsample g)) ;
  for_each (range (nstep g))
    (fun i data =>
       for_each (range (ntrial g))
         (fun j data =>
            read_record K (lead i j) (front_of g) (back_of g) (nsample g) i j data)
         data)
    data.

(** ** Statistical reducer (lines 129-130 and 279-280) *)

(** The sum that [np.mean] and [np.std] take along the trial axis: the
    result starts as 0.0 and the slices of the trials are added to it one
    after the other, in float64. *)
Definition sum_list (xs : list float64) : float64 := fold_left fadd xs fzero.

(** [np.mean] of a one-dimensional array: the sum divided by the count.
    With no element this is 0.0 / 0, that is nan; numpy warns and does not
    raise. *)
Definition mean_list (xs : list float64) : float64 :=
  fdiv (sum_list xs) (float_of_Z (Z.of_nat (List.length xs))).

(** [np.std] of a one-dimensional array, with numpy's default [ddof=0]: the
    square root of the mean of the squared deviations from the mean, every
    step in float64. *)
Definition std_list (xs : list float64) : float64 :=
  let m := mean_list xs in
  fsqrt (mean_list (map (fun x => fmul (fsub x m) (fsub x m)) xs)).

(** A reduction along axis 1 of an array of shape
    [(nstep, ntrial, nchan, nsamp)]; the result has shape
    [(nstep, nchan, nsamp)]. *)
Definition reduce_axis1 (f : list float64 -> float64) (nchan nsamp : nat)
  (data : tensor4)
  : tensor3 :=
  map (fun trials =>
         map (fun c =>
                map (fun s => f (map (fun trial => nth s (nth c trial []) fzero) trials))
                    (seq 0 nsamp))
             (seq 0 nchan))
      data.

Definition np_mean_axis1 : nat -> nat -> tensor4 -> tensor3 := reduce_axis1 mean_list.
Definition np_std_axis1 : nat -> nat -> tensor4 -> tensor3 := reduce_axis1 std_list.

(** ** Pulse-shape fitter (lines 132-159 and 282-309) *)

(** The [method] keyword that both parsers pass to [fit_signal]. *)
Definition fit_method : string := "dogbox".

Definition min_form (K : collab) (x : float64) (args : list float64)
  : result float64 :=
  v <-- powerlaw_doubleexp K x args ;;
  Ok (fopp v).

(** The body of a [try] block without its assignment: fit, locate the
    maximum, evaluate the model there. *)
Definition fit_attempt (K : collab) (mean : tensor3) (sigma : option tensor3)
  (nsamp : Z) (i j : nat) : result float64 :=
  pc <-- fit_signal K mean sigma nsamp i j fit_method ;;
  xmin <-- fmin K (min_form K) 5%Z (fst pc) ;;
  powerlaw_doubleexp K xmin (fst pc).

(** [y[j][i] = v] *)
Definition store (y : matrix) (j i : nat) (v : float64) : result matrix :=
  setitem2 y j i v.

(** One iteration of the fit loop: the nested [try] statements of lines
    140-159. An exception raised inside the [except ValueError] handler is
    not seen by the outer [except RuntimeError] clause. *)
Definition fit_point (K : collab) (mean sigma : tensor3) (nsamp : Z)
  (i j : nat) (y : matrix) : result matrix :=
  let sub := linalg_is_value_error K in
  match (v <-- fit_attempt K mean (Some sigma) nsamp i j ;; store y j i v) with
  | Ok y' => Ok y'
  | Raise e =>
      if isinstance sub e CValueError then
        match (v <-- fit_attempt K mean None nsamp i j ;; store y j i v) with
        | Ok y' => Ok y'
        | Raise e' =>
            if isinstance sub e' CLinAlgError then Ok y
            else if isinstance sub e' CRuntimeError then Ok y
            else Raise e'
        end
      else if isinstance sub e CRuntimeError then Ok y
      else Raise e
  end.

Definition fit_loop (K : collab) (mean sigma : tensor3) (nstp nsamp : Z)
  : result matrix :=
  rfor (range nstp)
    (fun i y => rfor (seq 0 16) (fun j y => fit_point K mean sigma nsamp i j y) y)
    (np_zeros2 16 (Z.to_nat nstp)).

(** ** Calibration fitter (lines 161-173 and 311-323) *)

Definition pval : list Z := [1500; 375]%Z.
Definition bmin : list Z := [500; 275]%Z.
Definition bmax : list Z := [2500; 475]%Z.

(** One iteration of the calibration loop on row [row = y[i]]. *)
Definition calibrate_row (K : collab) (x : list Z) (row : list float64)
  (acc : matrix * matrix) : result (matrix * matrix) :=
  pc <-- curve_fit K (linear K) (skipn 2 x) (skipn 2 row) pval (bmin, bmax) ;;
  pars <-- np_vstack (fst acc) (fst pc) ;;
  errs <-- np_vstack (snd acc) (map fsqrt (np_diag (snd pc))) ;;
  Ok (pars, errs).

(** [for i in range(y.shape[0])], starting from two matrices without rows. *)
Definition calibrate (K : collab) (x : list Z) (y : matrix)
  : result (matrix * matrix) :=
  rfor (seq 0 (List.length y))
    (fun i acc => calibrate_row K x (nth i y []) acc)
    ([], []).

(** ** Results of a parse *)

Record signal : Type := {
  sig_mean : tensor3;
  sig_sigma : tensor3;
  sig_y : matrix;
  sig_pars : matrix;
  sig_errs : matrix
}.

Inductive output_value : Type :=
| OutRaw (data : tensor4)
| OutSignal (s : signal)
| OutEntry (entry : list pyval).

(** Lines 129-173 of the v1 parser, repeated word for word as lines 279-323
    of the v2 parser: reduction, pulse fits, calibration. *)
Definition analyze (K : collab) (g : geometry) (data : tensor4) : result signal :=
  let mean := np_mean_axis1 16 (Z.to_nat (nsample g)) data in
  let sigma := np_std_axis1 16 (Z.to_nat (nsample g)) data in
  let x := np_arange (nstep g) in
  y <-- fit_loop K mean sigma (nstep g) (nsample g) ;;
  pe <-- calibrate K x y ;;
  Ok {| sig_mean := mean; sig_sigma := sigma; sig_y := y;
        sig_pars := fst pe; sig_errs := snd pe |}.

(** Lines 175-178 and 325-328: the two text fields appended to the entry.
    [print(pars)] writes to standard output and is not part of the result. *)
Definition entry_tail (K : collab) (s : signal) : list pyval :=
  [PStr (np_str K (sig_pars s) ++ np_str K (sig_errs s));
   PStr ("ENTRY ADDED: " ++ today K)].

Module DataFormat_v1.

(** Lines 68-78: the header. *)
Definition header (K : collab) (raw : string) : IO (list pyval) :=
  val <- read_config_line K None ;
  let entry := [PStr raw; PStr val] in
  val <- read_config_line K None ;
  n <- lift (py_int val) ;
  let entry := entry ++ [PInt n] in
  _ <- read_and_discard_lines 4 ;
  for_each (seq 0 4)
    (fun _ entry =>
       val <- read_config_line K None ;
       n <- lift (py_int val) ;
       ret (entry ++ [PInt n]))
    entry.

(** Every record is preceded by two separator lines (line 95). *)
Definition lead (i j : nat) : Z := 2%Z.

(** The body of the [with] block, on the open file. *)
Definition parser_io (K : collab) (raw output : string) : IO output_value :=
  entry <- header K raw ;
  g <- lift (geometry_of entry) ;
  data <- read_body K lead g ;
  if String.eqb output "raw" then ret (OutRaw data)
  else
    s <- lift (analyze K g data) ;
    let entry := entry ++ entry_tail K s in
    if String.eqb output "signal" then ret (OutSignal s)
    else ret (OutEntry entry).

(** [parser(raw, output)] in a file system [fs] that maps a path to the
    lines of the file. *)
Definition parser (K : collab) (fs : string -> option stream)
  (raw output : string) : result output_value :=
  match fs raw with
  | None => Raise FileNotFoundError
  | Some fp => fst (parser_io K raw output fp)
  end.

End DataFormat_v1.

Module DataFormat_v2.

(** Lines 212-216: the [while ":" in tempStr] loop. Each turn stores one
    [KEY:VALUE] pair and reads the next line with
    [read_config_line(fp, False)]; at end of file that line is empty and the
    loop stops. *)
Fixpoint header_loop (tempDict : dict) (tempStr : string) (fp : stream)
  : result dict * stream :=
  if contains_char ":"%char tempStr then
    match (key <-- py_index (split_once ":"%char tempStr) 0 ;;
           value <-- py_index (split_once ":"%char tempStr) 1 ;;
           Ok (dict_set tempDict key value)) with
    | Raise e => (Raise e, fp)
    | Ok d =>
        match fp with
        | [] => (Ok d, [])
        | line :: fp' => header_loop d (strip line) fp'
        end
    end
  else (Ok tempDict, fp).

(** Lines 203-224: the header. *)
Definition header (K : collab) (raw : string) : IO (list pyval * dict) :=
  tempStr <- read_config_line K (Some false) ;
  tempDict <- header_loop [] tempStr ;
  let entry := [PStr raw; PStr (dict_get tempDict "BOARDID" "NA")] in
  n <- lift (py_int (dict_get tempDict "CHANNELMIN" "NA")) ;
  let entry := entry ++ [PInt n] in
  n <- lift (py_int (dict_get tempDict "NUMBEROFSTEPS" "NA")) ;
  let entry := entry ++ [PInt n] in
  n <- lift (py_int (dict_get tempDict "EVENTSPERSTEP" "NA")) ;
  let entry := entry ++ [PInt n] in
  n <- lift (py_int (dict_get tempDict "DACPERSTEP" "NA")) ;
  let entry := entry ++ [PInt n] in
  n <- lift (py_int (dict_get tempDict "NSAMPLES" "NA")) ;
  let entry := entry ++ [PInt n] in
  ret (entry, tempDict).

(** Lines 242-245: one separator line before the first record, two before
    every other one. *)
Definition lead (i j : nat) : Z :=
  if ((i =? 0) && (j =? 0))%nat then 1%Z else 2%Z.

Definition parser_io (K : collab) (raw output : string) : IO output_value :=
  ed <- header K raw ;
  let entry := fst ed in
  let tempDict := snd ed in
  g <- lift (geometry_of entry) ;
  data <- read_body K lead g ;
  if String.eqb output "raw" then ret (OutRaw data)
  else
    s <- lift (analyze K g data) ;
    let entry := entry ++ entry_tail K s in
    if String.eqb output "signal" then ret (OutSignal s)
    else ret (OutEntry (entry ++ [PStr (dict_get tempDict "TESTERID" "NA")])).

Definition parser (K : collab) (fs : string -> option stream)
  (raw output : string) : result output_value :=
  match fs raw with
  | None => Raise FileNotFoundError
  | Some fp => fst (parser_io K raw output fp)
  end.

End DataFormat_v2.

(** The dispatch table at the end of [formats.py]. *)
Definition factory (key : string)
  : option (collab -> (string -> option stream) -> string -> string ->
            result output_value) :=
  if String.eqb key "auto" then Some DataFormat_v2.parser
  else if String.eqb key "v1" then Some DataFormat_v1.parser
  else if String.eqb key "v2" then Some DataFormat_v2.parser
  else None.

(** ** The readings of the specification that the code is compared with *)

(** The specification's reading of the v1 header: the four integer lines
    are, in textual order, offset, step count, trials, sample count. *)
Definition claimed_v1_geometry (a b c d : Z) : geometry :=
  {| offset := a; nstep := b; ntrial := c; nsample := d |}.

(** The specification's reading of the pulse fit: scipy's name of the
    trust-region-reflective method. *)
Definition claimed_fit_method : string := "trf".

Definition fit_attempt_claimed (K : collab) (mean : tensor3)
  (sigma : option tensor3) (nsamp : Z) (i j : nat) : result float64 :=
  pc <-- fit_signal K mean sigma nsamp i j claimed_fit_method ;;
  xmin <-- fmin K (min_form K) 5%Z (fst pc) ;;
  powerlaw_doubleexp K xmin (fst pc).

(** The outcome of the fallback ladder at one point, before the assignment:
    [Some v] is stored in [y[j][i]], [None] leaves the entry as it is. *)
Definition ladder (K : collab) (mean sigma : tensor3) (nsamp : Z) (i j : nat)
  : result (option float64) :=
  let sub := linalg_is_value_error K in
  match fit_attempt K mean (Some sigma) nsamp i j with
  | Ok v => Ok (Some v)
  | Raise e =>
      if isinstance sub e CValueError then
        match fit_attempt K mean None nsamp i j with
        | Ok v => Ok (Some v)
        | Raise e' =>
            if isinstance sub e' CLinAlgError then Ok None
            else if isinstance sub e' CRuntimeError then Ok None
            else Raise e'
        end
      else if isinstance sub e CRuntimeError then Ok None
      else Raise e
  end.

(** [y[j][i]] *)
Definition get2 (y : matrix) (j i : nat) : float64 := nth i (nth j y []) fzero.

(** [data[i][j][c][s]] *)
Definition get4 (data : tensor4) (i j c s : nat) : float64 :=
  nth s (nth c (nth j (nth i data []) []) []) fzero.

(** [mean[i][c][s]] *)
Definition get3 (m : tensor3) (i c s : nat) : float64 :=
  nth s (nth c (nth i m []) []) fzero.

(** ** The layout of a file body *)

(** The lines of one [(step, trial)] record. *)
Record record_lines : Type := {
  rl_lead : list string;
  rl_front : list string;
  rl_data : list string;
  rl_back : list string;
  rl_trail : list string
}.

Definition lines_of (r : record_lines) : list string :=
  rl_lead r ++ rl_front r ++ rl_data r ++ rl_back r ++ rl_trail r.

(** All tokens of the data lines of a record, in reading order. *)
Definition record_tokens (r : record_lines) : list string :=
  flat_map (fun l => tokens (strip l)) (rl_data r).

(** The [(step, trial)] pairs in the order in which the reader visits them. *)
Definition record_points (nstp ntr : nat) : list (nat * nat) :=
  list_prod (seq 0 nstp) (seq 0 ntr).

(** The lines of a body whose record [(i, j)] is [rec_at i j]. *)
Definition body_lines (nstp ntr : nat) (rec_at : nat -> nat -> record_lines)
  : list string :=
  flat_map (fun p => lines_of (rec_at (fst p) (snd p))) (record_points nstp ntr).

(** What [split_dword] returns on a token it accepts. *)
Definition decoded (K : collab) (tok : string) : Z * Z :=
  match split_dword K tok with
  | Ok lh => lh
  | Raise _ => (0, 0)%Z
  end.

(** The source of the entry at channel [c] and sample [s] of a record of
    [n] samples with tokens [raw]: token [s] of group [c / 2], of which even
    channels take the low half and odd channels the high half. *)
Definition sample_of (K : collab) (n : nat) (raw : list string) (c s : nat) : Z :=
  let lh := decoded K (nth ((c / 2) * n + s) raw "") in
  if (c mod 2 =? 0)%nat then fst lh else snd lh.

(** A record laid out as the geometry [g] announces, with [lead] separator
    lines in front, sixteen channels of tokens, all of which decode. *)
Definition well_formed_record (K : collab) (g : geometry) (lead : Z)
  (r : record_lines) : Prop :=
  List.length (rl_lead r) = Z.to_nat lead
  /\ List.length (rl_front r) = Z.to_nat (front_of g)
  /\ List.length (rl_data r) = Z.to_nat (nsample g)
  /\ List.length (rl_back r) = Z.to_nat (back_of g)
  /\ List.length (rl_trail r) = 2%nat
  /\ List.length (record_tokens r) = (8 * Z.to_nat (nsample g))%nat
  /\ forall tok, In tok (record_tokens r) -> exists lh, split_dword K tok = Ok lh.

(** [data] has the shape [(a, b, c, d)]. *)
Definition shape4 (data : tensor4) (a b c d : nat) : Prop :=
  List.length data = a
  /\ forall i, (i < a)%nat ->
       List.length (nth i data []) = b
       /\ forall j, (j < b)%nat ->
            List.length (nth j (nth i data []) []) = c
            /\ forall k, (k < c)%nat ->
                 List.length (nth k (nth j (nth i data []) []) []) = d.

(** ** Integers in binary64 *)

(** The binary64 number of sign [s] and magnitude [c], for [c] below 2^53:
    a mantissa of 53 bits and the exponent that goes with it. *)
Definition small_int (s : bool) (c : positive) : float64 :=
  S754_finite s (Z.to_pos (Zpos c * 2 ^ (53 - Zpos (digits2_pos c))))
    (Zpos (digits2_pos c) - 53).

(** One step of three identical trials, one channel, one sample. *)
Definition rounding_data : tensor4 :=
  let v := float_of_Z 7796471958821802 in [[[[v]]; [[v]]; [[v]]]].

(** The float64 number that Python writes 0.1. *)
Definition tenth : float64 := S754_finite false 3602879701896397 (-55).

Definition tenths_data : tensor4 := [[[[tenth]]; [[tenth]]; [[tenth]]]].

(** ** Concrete collaborators and files, used to run the model *)

Definition demo_split_dword (tok : string) : result (Z * Z) :=
  z <-- py_int tok ;;
  Ok (z mod 65536, z / 65536)%Z.

Definition demo_fit (ok_weighted ok_unweighted : result (list float64 * matrix))
  (mean : tensor3) (sigma : option tensor3) (nsamp : Z) (i j : nat)
  (method : string) : result (list float64 * matrix) :=
  match sigma with
  | Some _ => ok_weighted
  | None => ok_unweighted
  end.

Definition demo_collab (fs : tensor3 -> option tensor3 -> Z -> nat -> nat ->
                             string -> result (list float64 * matrix)) : collab :=
  {| config_check := fun l => Ok (strip l);
     split_dword := demo_split_dword;
     fit_signal := fs;
     fmin := fun f x0 args => Ok (float_of_Z x0);
     powerlaw_doubleexp := fun x args => Ok (hd fzero args);
     linear := fun x a b => fadd a (fmul b x);
     curve_fit := fun f xs ys p0 bounds =>
                    Ok (map float_of_Z p0,
                        [[float_of_Z 1; fzero]; [fzero; float_of_Z 1]]);
     np_str := fun m => "[]";
     today := "210311-12:00:00";
     linalg_is_value_error := false |}.

(** Every fit succeeds with the single parameter 7. *)
Definition demo_K : collab :=
  demo_collab (fun _ _ _ _ _ _ => Ok ([float_of_Z 7], [])).

(** The fit raises [ValueError], weighted or not. *)
Definition degenerate_K : collab :=
  demo_collab (fun _ _ _ _ _ _ => Raise ValueError).

(** The weighted fit raises [ValueError]; the retry succeeds. *)
Definition saturated_K : collab :=
  demo_collab (demo_fit (Raise ValueError) (Ok ([float_of_Z 7], []))).

(** The weighted fit raises [ValueError]; the retry does not converge. *)
Definition stubborn_K : collab :=
  demo_collab (demo_fit (Raise ValueError) (Raise RuntimeError)).

(** The fit succeeds when asked for ["dogbox"] and for no other method. *)
Definition dogbox_only_K : collab :=
  demo_collab (fun _ _ _ _ _ method =>
                 if String.eqb method "dogbox" then Ok ([float_of_Z 7], [])
                 else Raise RuntimeError).

(** The fit answers 1 when asked for ["trf"] and 2 for any other method. *)
Definition method_probe_K : collab :=
  demo_collab (fun _ _ _ _ _ method =>
                 if String.eqb method "trf" then Ok ([float_of_Z 1], [])
                 else Ok ([float_of_Z 2], [])).

Definition demo_v1_header : list string :=
  ["board 0x70"; "16"; "-"; "-"; "-"; "-"; "1"; "1"; "0"; "2"].

Definition demo_record (lead : list string) (data : list string) : record_lines :=
  {| rl_lead := lead;
     rl_front := ["f"; "f"];
     rl_data := data;
     rl_back := ["b"; "b"; "b"; "b"];
     rl_trail := [""; ""] |}.

Definition demo_data : list string :=
  ["65537 2 3 4 5 6 7 8"; "9 10 11 12 13 14 15 0"].

(** One token more than the sixteen that a record of two samples holds. *)
Definition surplus_data : list string :=
  ["65537 2 3 4 5 6 7 8"; "9 10 11 12 13 14 15 0 99"].

Definition demo_v1_file : list string :=
  demo_v1_header ++ lines_of (demo_record ["="; "="] demo_data).

Definition surplus_v1_file : list string :=
  demo_v1_header ++ lines_of (demo_record ["="; "="] surplus_data).

(** Two tokens short of a full record. *)
Definition short_v1_file : list string :=
  demo_v1_header
  ++ lines_of (demo_record ["="; "="] ["65537 2 3 4 5 6 7 8"; "9 10 11 12 13 14"]).

Definition demo_v2_keys : list string :=
  ["CHANNELMIN:16"; "NUMBEROFSTEPS:1"; "EVENTSPERSTEP:1"; "DACPERSTEP:10";
   "NSAMPLES:2"; "TESTERID:tester"].

Definition demo_v2_file : list string :=
  ("BOARDID:0x70" :: demo_v2_keys) ++ "=" :: lines_of (demo_record ["="] demo_data).

(** The same file without its [BOARDID] line. *)
Definition no_board_v2_file : list string :=
  demo_v2_keys ++ "=" :: lines_of (demo_record ["="] demo_data).

(** The same file without its [CHANNELMIN] line. *)
Definition no_channelmin_v2_file : list string :=
  ("BOARDID:0x70" :: tl demo_v2_keys)
  ++ "=" :: lines_of (demo_record ["="] demo_data).

Definition demo_fs (fp : stream) (path : string) : option stream :=
  if String.eqb path "scan.dat" then Some fp else None.

(** ** The v2 header as a list of lines *)

(** The key and the value of a [KEY:VALUE] line. *)
Definition key_of (s : string) : string := hd "" (split_once ":"%char s).
Definition value_of (s : string) : string := nth 1 (split_once ":"%char s) "".

Definition add_line (d : dict) (l : string) : dict :=
  dict_set d (key_of (strip l)) (value_of (strip l)).

(** The dictionary that the header loop builds from the lines [kvs]. *)
Definition header_dict (kvs : list string) : dict := fold_left add_line kvs [].

Definition has_colon (l : string) : bool := contains_char ":"%char (strip l).

(** No line of [kvs] has the key [k]. *)
Definition key_absent (k : string) (kvs : list string) : Prop :=
  Forall (fun l => key_of (strip l) <> k) kvs.

(** The keys whose values the v2 header converts with [int]. *)
Definition integer_keys : list string :=
  ["CHANNELMIN"; "NUMBEROFSTEPS"; "EVENTSPERSTEP"; "DACPERSTEP"; "NSAMPLES"].

(** The integer keys with the places of their values in the entry (lines
    220-224). *)
Definition integer_fields : list (string * nat) :=
  [("CHANNELMIN", 2); ("NUMBEROFSTEPS", 3); ("EVENTSPERSTEP", 4);
   ("DACPERSTEP", 5); ("NSAMPLES", 6)]%nat.

(** ** The peak array as the fit loop fills it *)

(** [y] has [rows] rows of [cols] entries. *)
Definition shape2 (y : matrix) (rows cols : nat) : Prop :=
  List.length y = rows /\ Forall (fun r => List.length r = cols) y.

(** The entry [y[j][i]] after the iteration [(i, j)] of the fit loop, when
    it was [old] before. *)
Definition peak_of (K : collab) (mean sigma : tensor3) (nsamp : Z) (i j : nat)
  (old : float64) : float64 :=
  match ladder K mean sigma nsamp i j with
  | Ok (Some v) => v
  | _ => old
  end.

(** The iterations of the fit loop in the order in which they run. *)
Definition fit_points (nstp : Z) : list (nat * nat) :=
  list_prod (range nstp) (seq 0 16).

(** The iteration of the fit loop at the point [p = (i, j)]. *)
Definition fit_step (K : collab) (mean sigma : tensor3) (nsamp : Z)
  (p : nat * nat) (y : matrix) : result matrix :=
  fit_point K mean sigma nsamp (fst p) (snd p) y.

(** The iteration of the record loop at the point [p = (i, j)]. *)
Definition record_step (K : collab) (lead : nat -> nat -> Z) (g : geometry)
  (p : nat * nat) (data : tensor4) : IO tensor4 :=
  read_record K (lead (fst p) (snd p)) (front_of g) (back_of g) (nsample g)
    (fst p) (snd p) data.

(** What the reader makes of the tokens [raw] of a record of [n] samples:
    grouping, decoding, and the conversion done by the assignment. *)
Definition decode_block (K : collab) (n : nat) (raw : list string)
  : result (list (list float64)) :=
  channels <-- decode_groups K (zip_iter n raw) ;;
  broadcast_block n channels.

(** The tokens of the next [n] lines of an open file. *)
Definition next_tokens (n : nat) (fp : stream) : list string :=
  flat_map (fun l => tokens (strip l)) (firstn n fp).


(** [data] is the tensor of the records [rec_at]: it has the shape that the
    geometry announces and every entry is the decoded half of its token. *)
Definition decoded_tensor (K : collab) (g : geometry)
  (rec_at : nat -> nat -> record_lines) (data : tensor4) : Prop :=
  shape4 data (Z.to_nat (nstep g)) (Z.to_nat (ntrial g)) 16 (Z.to_nat (nsample g))
  /\ forall i j c s,
       (i < Z.to_nat (nstep g))%nat -> (j < Z.to_nat (ntrial g))%nat ->
       (c < 16)%nat -> (s < Z.to_nat (nsample g))%nat ->
       get4 data i j c s
       = float_of_Z (sample_of K (Z.to_nat (nsample g)) (record_tokens (rec_at i j)) c s).


(** The tokens of a record that reach the decoder: those of the complete
    groups of [n] tokens. *)
Definition grouped_tokens (n : nat) (raw : list string) : list string :=
  firstn (List.length raw / n * n) raw.

(** A record whose third token is no number. *)
Definition refused_v1_file : list string :=
  demo_v1_header
  ++ lines_of (demo_record ["="; "="]
                 ["65537 2 zz 4 5 6 7 8"; "9 10 11 12 13 14 15 0"]).

(** The same record in a v2 file. *)
Definition refused_v2_file : list string :=
  ("BOARDID:0x70" :: demo_v2_keys)
  ++ "=" :: lines_of (demo_record ["="]
                        ["65537 2 zz 4 5 6 7 8"; "9 10 11 12 13 14 15 0"]).

(** A record with a seventeenth token, which is no number. *)
Definition refused_surplus_v1_file : list string :=
  demo_v1_header
  ++ lines_of (demo_record ["="; "="]
                 ["65537 2 3 4 5 6 7 8"; "9 10 11 12 13 14 15 0 zz"]).

(** A v1 file that ends in the middle of the data lines of its record. *)
Definition truncated_v1_file : list string :=
  demo_v1_header ++ ["="; "="; "f"; "f"; "65537 2 3 4 5 6 7 8"].


(** The geometry announced by [demo_v1_header] and by [demo_v2_keys]. *)
Definition demo_g : geometry :=
  {| offset := 16; nstep := 1; ntrial := 1; nsample := 2 |}.


(** The lines of the record [r] are as many as the reader expects for the
    geometry [g] and [lead] separator lines. *)
Definition laid_out (g : geometry) (lead : Z) (r : record_lines) : Prop :=
  List.length (rl_lead r) = Z.to_nat lead
  /\ List.length (rl_front r) = Z.to_nat (front_of g)
  /\ List.length (rl_data r) = Z.to_nat (nsample g)
  /\ List.length (rl_back r) = Z.to_nat (back_of g)
  /\ List.length (rl_trail r) = 2%nat.

(** The same data lines as [demo_record], other lines around them. *)
Definition other_padding_record : record_lines :=
  {| rl_lead := ["step 0"; "trial 0"];
     rl_front := ["1 2 3"; "not a word"];
     rl_data := demo_data;
     rl_back := ["x"; "y"; "z"; ""];
     rl_trail := ["end"; "end"] |}.


(** ** The structure tables (lines 36-65 and 189-200) *)

Module DataFormat.

Definition datatypes : list string :=
  ["TEXT"; "NUMERIC"; "INTEGER"; "REAL"; "BLOB"].

(** [verify(structure)]: every declared type is one of [datatypes]. A
    structure is the list of its [(key, type)] pairs, in the order of the
    dictionary display. *)
Definition verify (structure : list (string * string)) : bool :=
  forallb (fun kv => existsb (String.eqb (snd kv)) datatypes) structure.

End DataFormat.

(** [DataFormat_v1.structure] *)
Definition structure_v1 : list (string * string) :=
  [("label", "TEXT"); ("board", "TEXT"); ("offset", "INTEGER");
   ("nstep", "INTEGER"); ("nstep_event", "INTEGER"); ("nstep_data", "INTEGER");
   ("nsample", "INTEGER"); ("coefs", "TEXT"); ("info", "TEXT")].

(** [DataFormat_v2.structure] *)
Definition structure_v2 : list (string * string) :=
  [("label", "TEXT"); ("board", "TEXT"); ("offset", "INTEGER");
   ("nstep", "INTEGER"); ("nstep_event", "INTEGER"); ("nstep_data", "INTEGER");
   ("nsample", "INTEGER"); ("coefs", "TEXT"); ("info", "TEXT");
   ("tester", "TEXT")].

(** A field of an entry is a string where the structure declares [TEXT] and
    an integer where it declares [INTEGER]. *)
Definition field_conforms (kv : string * string) (v : pyval) : Prop :=
  match v with
  | PStr _ => snd kv = "TEXT"
  | PInt _ => snd kv = "INTEGER"
  end.


(** * Properties *)

(** ** The v1 header *)

(** C6 (as stated, refuted): on the header whose board line is followed by
    [16] and whose four integer lines are [3], [2], [5], [4], the geometry
    that the parser uses is not the one the four integer lines would give if
    they were offset, step count, trials and sample count. *)
Lemma v1_geometry_not_four_lines :
  let fp := ["board"; "16"; "-"; "-"; "-"; "-"; "3"; "2"; "5"; "4"] in
  exists entry,
    DataFormat_v1.header demo_K "scan.dat" fp = (Ok entry, [])
    /\ geometry_of entry
       = Ok {| offset := 16; nstep := 3; ntrial := 2; nsample := 4 |}
    /\ geometry_of entry <> Ok (claimed_v1_geometry 3 2 5 4).
Proof.
  eexists. split; [ vm_compute; reflexivity | ].
  split; [ reflexivity | ].
  unfold claimed_v1_geometry. cbn. intro H. discriminate H.
Qed.

(** C6 (amended): in a v1 file the first line is kept as text, the second
    line gives [offset], four lines are discarded, and of the next four
    integer lines the first gives [nstep], the second [ntrial], the fourth
    [nsample]; the third is stored in the entry and not used. *)
Theorem v1_geometry_from_header
  (K : collab) (raw l1 l2 d1 d2 d3 d4 a b c d s1 s2 sa sb sc sd : string)
  (o na nb nc nd : Z) (rest : stream)
  (H1 : config_check K l1 = Ok s1)
  (H2 : config_check K l2 = Ok s2) (I2 : py_int s2 = Ok o)
  (Ha : config_check K a = Ok sa) (Ia : py_int sa = Ok na)
  (Hb : config_check K b = Ok sb) (Ib : py_int sb = Ok nb)
  (Hc : config_check K c = Ok sc) (Ic : py_int sc = Ok nc)
  (Hd : config_check K d = Ok sd) (Id : py_int sd = Ok nd) :
  let entry := [PStr raw; PStr s1; PInt o; PInt na; PInt nb; PInt nc; PInt nd] in
  DataFormat_v1.header K raw (l1 :: l2 :: d1 :: d2 :: d3 :: d4 :: a :: b :: c :: d :: rest)
  = (Ok entry, rest)
  /\ geometry_of entry
     = Ok {| offset := o; nstep := na; ntrial := nb; nsample := nd |}.
Proof.
  split; [ | reflexivity ].
  unfold DataFormat_v1.header, read_config_line, bind, lift, readline, ret.
  rewrite H1, H2, I2. cbn.
  unfold read_config_line, bind, lift, readline, ret.
  change (PosDef.Pos.to_nat 4) with 4%nat. cbn [skipn].
  rewrite Ha, Ia, Hb, Ib, Hc, Ic, Hd, Id. reflexivity.
Qed.

Lemma v1_geometry_from_header_witness :
  DataFormat_v1.header demo_K "scan.dat" demo_v1_header
  = (Ok [PStr "scan.dat"; PStr "board 0x70"; PInt 16; PInt 1; PInt 1; PInt 0;
         PInt 2], [])
  /\ geometry_of [PStr "scan.dat"; PStr "board 0x70"; PInt 16; PInt 1; PInt 1;
                  PInt 0; PInt 2]
     = Ok {| offset := 16; nstep := 1; ntrial := 1; nsample := 2 |}.
Proof.
  apply (v1_geometry_from_header demo_K "scan.dat" "board 0x70" "16" "-" "-" "-"
           "-" "1" "1" "0" "2" "board 0x70" "16" "1" "1" "0" "2" 16 1 1 0 2 []);
    reflexivity.
Defined.

(** ** The IO monad *)

Lemma bind_lift {A B : Type} (r : result A) (k : A -> IO B) (fp : stream) :
  bind (lift r) k fp
  = match r with
    | Ok a => k a fp
    | Raise e => (Raise e, fp)
    end.
Proof. destruct r; reflexivity. Qed.

Lemma bind_ret {A B : Type} (a : A) (k : A -> IO B) (fp : stream) :
  bind (ret a) k fp = k a fp.
Proof. reflexivity. Qed.

Lemma bind_discard {B : Type} (n : Z) (k : unit -> IO B) (fp : stream) :
  bind (read_and_discard_lines n) k fp = k tt (skipn (Z.to_nat n) fp).
Proof. reflexivity. Qed.

Lemma py_int_raises (s : string) (e : exn) : py_int s = Raise e -> e = ValueError.
Proof.
  unfold py_int.
  destruct (match strip s with
            | String "+"%char d => int_digits d 0%Z false
            | String "-"%char d => option_map Z.opp (int_digits d 0%Z false)
            | _ => int_digits (strip s) 0%Z false
            end); intro H; [ discriminate H | injection H as <-; reflexivity ].
Qed.

(** ** The v2 header *)

Lemma split_once_colon (c : ascii) (s : string) :
  contains_char c s = true -> exists k v, split_once c s = [k; v].
Proof.
  induction s as [ | a s IH ]; simpl; [ discriminate | ].
  destruct (Ascii.eqb a c); simpl; intro H.
  - eauto.
  - destruct (IH H) as (k & v & E). rewrite E. eauto.
Qed.

Lemma header_loop_eq (d : dict) (s : string) (fp : stream) :
  DataFormat_v2.header_loop d s fp
  = if contains_char ":"%char s then
      match (key <-- py_index (split_once ":"%char s) 0 ;;
             value <-- py_index (split_once ":"%char s) 1 ;;
             Ok (dict_set d key value)) with
      | Raise e => (Raise e, fp)
      | Ok d' =>
          match fp with
          | [] => (Ok d', [])
          | line :: fp' => DataFormat_v2.header_loop d' (strip line) fp'
          end
      end
    else (Ok d, fp).
Proof. destruct fp; reflexivity. Qed.

(** One turn of the loop is one pair stored and one call of
    [read_config_line(fp, False)]. *)
Lemma header_loop_turn (K : collab) (d : dict) (s : string) (fp : stream) :
  contains_char ":"%char s = true ->
  DataFormat_v2.header_loop d s fp
  = bind (read_config_line K (Some false))
         (DataFormat_v2.header_loop (dict_set d (key_of s) (value_of s))) fp.
Proof.
  intro H. rewrite header_loop_eq, H.
  destruct (split_once_colon _ _ H) as (k & v & E).
  unfold key_of, value_of. rewrite E. cbn.
  destruct fp as [ | line fp' ]; [ | reflexivity ].
  unfold read_config_line, bind, readline, ret. cbn. reflexivity.
Qed.

Lemma header_loop_run (kvs : list string) :
  forall (d : dict) (s sep : string) (rest : stream),
    contains_char ":"%char s = true ->
    Forall (fun l => has_colon l = true) kvs ->
    has_colon sep = false ->
    DataFormat_v2.header_loop d s (kvs ++ sep :: rest)
    = (Ok (fold_left add_line kvs (dict_set d (key_of s) (value_of s))), rest).
Proof.
  induction kvs as [ | l kvs IH ]; intros d s sep rest Hs Hk Hsep.
  - rewrite header_loop_eq, Hs.
    destruct (split_once_colon _ _ Hs) as (k & v & E).
    unfold key_of, value_of. rewrite E. cbn.
    rewrite header_loop_eq. unfold has_colon in Hsep. rewrite Hsep. reflexivity.
  - rewrite header_loop_eq, Hs.
    destruct (split_once_colon _ _ Hs) as (k & v & E).
    unfold key_of, value_of. rewrite E. cbn.
    inversion Hk as [ | ? ? Hl Hk' ]; subst.
    rewrite (IH _ (strip l) sep rest Hl Hk' Hsep). reflexivity.
Qed.

(** The first read and the loop together consume the [KEY:VALUE] lines and
    the line after them. *)
Lemma header_lines_consumed (K : collab) (kvs : list string) (sep : string)
  (rest : stream) :
  Forall (fun l => has_colon l = true) kvs ->
  has_colon sep = false ->
  bind (read_config_line K (Some false)) (DataFormat_v2.header_loop [])
       (kvs ++ sep :: rest)
  = (Ok (header_dict kvs), rest).
Proof.
  intros Hk Hsep. destruct kvs as [ | l kvs ].
  - unfold read_config_line, bind, readline, ret. cbn.
    rewrite header_loop_eq. unfold has_colon in Hsep. rewrite Hsep. reflexivity.
  - inversion Hk as [ | ? ? Hl Hk' ]; subst.
    unfold read_config_line, bind, readline, ret. cbn.
    rewrite (header_loop_run kvs [] (strip l) sep rest Hl Hk' Hsep). reflexivity.
Qed.

Lemma dict_get_fold_absent (k dflt : string) (kvs : list string) :
  forall d : dict,
    key_absent k kvs ->
    dict_get (fold_left add_line kvs d) k dflt = dict_get d k dflt.
Proof.
  induction kvs as [ | l kvs IH ]; intros d H; [ reflexivity | ].
  inversion H as [ | ? ? Hl H' ]; subst. cbn [fold_left].
  rewrite (IH _ H'). unfold add_line, dict_set. cbn [dict_get].
  destruct (String.eqb_spec (key_of (strip l)) k) as [ E | _ ]; [ | reflexivity ].
  contradiction.
Qed.

Lemma dict_get_absent (k dflt : string) (kvs : list string) :
  key_absent k kvs -> dict_get (header_dict kvs) k dflt = dflt.
Proof. intro H. unfold header_dict. rewrite dict_get_fold_absent; auto. Qed.


(** After the [KEY:VALUE] lines and the line that ends them, the header only
    converts values: whatever it returns, the file is left at [rest]. *)
Lemma v2_header_position (K : collab) (raw : string) (kvs : list string)
  (sep : string) (rest : stream) :
  Forall (fun l => has_colon l = true) kvs ->
  has_colon sep = false ->
  snd (DataFormat_v2.header K raw (kvs ++ sep :: rest)) = rest.
Proof.
  intros Hk Hsep.
  pose proof (header_lines_consumed K kvs sep rest Hk Hsep) as H.
  unfold DataFormat_v2.header. unfold bind in H |- *.
  destruct (read_config_line K (Some false) (kvs ++ sep :: rest)) as [[s | e] fp'];
    [ | discriminate H ].
  rewrite H. unfold lift, ret.
  repeat match goal with
         | |- context [match py_int ?s with _ => _ end] => destruct (py_int s)
         end; reflexivity.
Qed.

Lemma v2_header_missing_key (K : collab) (raw : string) (kvs : list string)
  (sep : string) (rest : stream) (k : string) :
  In k integer_keys ->
  key_absent k kvs ->
  Forall (fun l => has_colon l = true) kvs ->
  has_colon sep = false ->
  DataFormat_v2.header K raw (kvs ++ sep :: rest) = (Raise ValueError, rest).
Proof.
  intros Hin Habs Hk Hsep.
  pose proof (header_lines_consumed K kvs sep rest Hk Hsep) as H.
  unfold DataFormat_v2.header. unfold bind in H |- *.
  destruct (read_config_line K (Some false) (kvs ++ sep :: rest)) as [[s | e] fp'];
    [ | discriminate H ].
  rewrite H. unfold lift, ret.
  assert (NA : py_int "NA" = Raise ValueError) by reflexivity.
  pose proof (dict_get_absent k "NA" kvs Habs) as D.
  unfold integer_keys in Hin. cbn [In] in Hin.
  destruct Hin as [<- | [<- | [<- | [<- | [<- | []]]]]]; rewrite D, NA;
    repeat match goal with
           | |- context [match py_int ?s with _ => _ end] =>
               let E := fresh "E" in
               destruct (py_int s) eqn:E;
               [ | apply py_int_raises in E; subst; reflexivity ]
           end; reflexivity.
Qed.

(** C4 (as stated, refuted): a v2 file without its [BOARDID] line is parsed
    to the end, with the default ["NA"] in the entry; a v2 file without its
    [CHANNELMIN] line fails with the [ValueError] of the integer conversion,
    which does not derive from [DataFormatError]. *)
Lemma v2_missing_key_no_header_error :
  key_absent "BOARDID" demo_v2_keys
  /\ (exists tail,
        DataFormat_v2.parser demo_K (demo_fs no_board_v2_file) "scan.dat" "entry"
        = Ok (OutEntry (PStr "scan.dat" :: PStr "NA" :: tail)))
  /\ key_absent "CHANNELMIN" ("BOARDID:0x70" :: tl demo_v2_keys)
  /\ DataFormat_v2.parser demo_K (demo_fs no_channelmin_v2_file) "scan.dat" "entry"
     = Raise ValueError
  /\ (forall sub, isinstance sub ValueError CDataFormatError = false).
Proof.
  split; [ repeat constructor; vm_compute; discriminate | ].
  split; [ eexists; vm_compute; reflexivity | ].
  split; [ repeat constructor; vm_compute; discriminate | ].
  split; [ vm_compute; reflexivity | ].
  intro sub; reflexivity.
Qed.

(** C4 (amended): when one of the keys [CHANNELMIN], [NUMBEROFSTEPS],
    [EVENTSPERSTEP], [DACPERSTEP], [NSAMPLES] is absent from the header of a
    v2 file, the parse fails with the [ValueError] of [int("NA")], and the
    file is left at the first line after the header: no record was read. *)
Theorem v2_missing_integer_key (K : collab) (raw output : string)
  (kvs : list string) (sep : string) (rest : stream) (k : string)
  (Hin : In k integer_keys)
  (Habs : key_absent k kvs)
  (Hk : Forall (fun l => has_colon l = true) kvs)
  (Hsep : has_colon sep = false) :
  DataFormat_v2.parser_io K raw output (kvs ++ sep :: rest)
  = (Raise ValueError, rest).
Proof.
  unfold DataFormat_v2.parser_io. unfold bind at 1.
  rewrite (v2_header_missing_key K raw kvs sep rest k Hin Habs Hk Hsep).
  reflexivity.
Qed.

Lemma v2_missing_integer_key_witness :
  DataFormat_v2.parser_io demo_K "scan.dat" "entry" no_channelmin_v2_file
  = (Raise ValueError, lines_of (demo_record ["="] demo_data)).
Proof.
  apply (v2_missing_integer_key demo_K "scan.dat" "entry"
           ("BOARDID:0x70" :: tl demo_v2_keys) "="
           (lines_of (demo_record ["="] demo_data)) "CHANNELMIN").
  - simpl. auto.
  - repeat constructor; vm_compute; discriminate.
  - repeat constructor.
  - reflexivity.
Defined.

(** ** Separator lines of the v2 reader *)

(** C5: the v2 header consumes the [KEY:VALUE] lines and one line more, the
    first separator line of the first record; the reader then discards one
    separator line before record (0, 0) and two before any other record. *)
Theorem v2_separator_lines (K : collab) (raw : string) (kvs : list string)
  (sep : string) (rest : stream) (f b n : Z) (i j : nat)
  (data : tensor4) (fp : stream)
  (Hk : Forall (fun l => has_colon l = true) kvs)
  (Hsep : has_colon sep = false)
  (Hij : i <> 0%nat \/ j <> 0%nat) :
  snd (DataFormat_v2.header K raw (kvs ++ sep :: rest)) = rest
  /\ DataFormat_v2.lead 0 0 = 1%Z
  /\ DataFormat_v2.lead i j = 2%Z
  /\ read_record K (DataFormat_v2.lead 0 0) f b n 0 0 data fp
     = read_record K 0 f b n 0 0 data (skipn 1 fp)
  /\ read_record K (DataFormat_v2.lead i j) f b n i j data fp
     = read_record K 0 f b n i j data (skipn 2 fp).
Proof.
  assert (L : DataFormat_v2.lead i j = 2%Z).
  { unfold DataFormat_v2.lead.
    destruct i; [ destruct j; [ destruct Hij; congruence | reflexivity ] | reflexivity ]. }
  split; [ apply v2_header_position; assumption | ].
  split; [ reflexivity | ].
  split; [ exact L | ].
  split; [ reflexivity | ].
  rewrite L. reflexivity.
Qed.

Lemma v2_separator_lines_witness :
  snd (DataFormat_v2.header demo_K "scan.dat" demo_v2_file)
  = lines_of (demo_record ["="] demo_data)
  /\ DataFormat_v2.lead 0 0 = 1%Z
  /\ DataFormat_v2.lead 0 1 = 2%Z
  /\ read_record demo_K (DataFormat_v2.lead 0 0) 2 4 2 0 0 [[[]]] ["a"; "b"; "c"]
     = read_record demo_K 0 2 4 2 0 0 [[[]]] (skipn 1 ["a"; "b"; "c"])
  /\ read_record demo_K (DataFormat_v2.lead 0 1) 2 4 2 0 1 [[[]]] ["a"; "b"; "c"]
     = read_record demo_K 0 2 4 2 0 1 [[[]]] (skipn 2 ["a"; "b"; "c"]).
Proof.
  apply (v2_separator_lines demo_K "scan.dat" ("BOARDID:0x70" :: demo_v2_keys) "="
           (lines_of (demo_record ["="] demo_data)) 2 4 2 0 1 [[[]]] ["a"; "b"; "c"]).
  - repeat constructor.
  - reflexivity.
  - right. discriminate.
Defined.


(** ** Output modes *)

(** C10: with any [output] other than ["raw"] and ["signal"], known or not,
    both parsers run header, reader, reduction, fits and calibration and
    return the entry; the mode is not validated, so the result is the one of
    the default mode ["entry"]. *)
Theorem unknown_output_is_entry (K : collab) (fs : string -> option stream)
  (raw output : string)
  (Hraw : output <> "raw") (Hsig : output <> "signal") :
  DataFormat_v1.parser_io K raw output
  = (entry <- DataFormat_v1.header K raw ;
     g <- lift (geometry_of entry) ;
     data <- read_body K DataFormat_v1.lead g ;
     s <- lift (analyze K g data) ;
     ret (OutEntry (entry ++ entry_tail K s)))
  /\ DataFormat_v2.parser_io K raw output
     = (ed <- DataFormat_v2.header K raw ;
        g <- lift (geometry_of (fst ed)) ;
        data <- read_body K DataFormat_v2.lead g ;
        s <- lift (analyze K g data) ;
        ret (OutEntry ((fst ed ++ entry_tail K s)
                       ++ [PStr (dict_get (snd ed) "TESTERID" "NA")])))
  /\ DataFormat_v1.parser K fs raw output = DataFormat_v1.parser K fs raw "entry"
  /\ DataFormat_v2.parser K fs raw output = DataFormat_v2.parser K fs raw "entry".
Proof.
  unfold DataFormat_v1.parser, DataFormat_v2.parser,
    DataFormat_v1.parser_io, DataFormat_v2.parser_io.
  destruct (String.eqb_spec output "raw") as [ E | _ ]; [ contradiction | ].
  destruct (String.eqb_spec output "signal") as [ E | _ ]; [ contradiction | ].
  cbn [String.eqb Ascii.eqb Bool.eqb].
  repeat split; reflexivity.
Qed.

Lemma unknown_output_is_entry_witness :
  DataFormat_v1.parser demo_K (demo_fs demo_v1_file) "scan.dat" "bogus"
  = DataFormat_v1.parser demo_K (demo_fs demo_v1_file) "scan.dat" "entry"
  /\ exists entry,
       DataFormat_v1.parser demo_K (demo_fs demo_v1_file) "scan.dat" "bogus"
       = Ok (OutEntry entry).
Proof.
  split.
  - apply (unknown_output_is_entry demo_K (demo_fs demo_v1_file) "scan.dat" "bogus");
      discriminate.
  - eexists. vm_compute. reflexivity.
Defined.

(** ** The method of the pulse fit *)

(** C8 (as stated, refuted): against a [fit_signal] that answers 1 for the
    method ["trf"] and 2 for any other, the fit of the parser returns 2; a
    trust-region-reflective fit would have returned 1. *)
Lemma pulse_fit_not_trust_region_reflective :
  fit_method <> claimed_fit_method
  /\ fit_attempt method_probe_K [] (Some []) 1 0 0 = Ok (float_of_Z 2)
  /\ fit_attempt_claimed method_probe_K [] (Some []) 1 0 0 = Ok (float_of_Z 1)
  /\ fit_attempt method_probe_K [] (Some []) 1 0 0
     <> fit_attempt_claimed method_probe_K [] (Some []) 1 0 0.
Proof.
  split; [ discriminate | ].
  split; [ reflexivity | ].
  split; [ reflexivity | ].
  intro H. vm_compute in H. discriminate H.
Qed.

(** C8 (amended): the weighted fit and its unweighted retry are made with
    the ["dogbox"] method: two sets of collaborators whose [fit_signal]
    agree on that method give the same fits, whatever they do for others. *)
Theorem pulse_fit_uses_dogbox (K K' : collab) (mean sigma : tensor3)
  (nsamp : Z) (i j : nat) (y : matrix)
  (Hfit : forall m s n a b,
      fit_signal K m s n a b "dogbox" = fit_signal K' m s n a b "dogbox")
  (Hfmin : fmin K = fmin K')
  (Hpde : powerlaw_doubleexp K = powerlaw_doubleexp K')
  (Hsub : linalg_is_value_error K = linalg_is_value_error K') :
  fit_method = "dogbox"
  /\ fit_attempt K mean (Some sigma) nsamp i j
     = fit_attempt K' mean (Some sigma) nsamp i j
  /\ fit_attempt K mean None nsamp i j = fit_attempt K' mean None nsamp i j
  /\ fit_point K mean sigma nsamp i j y = fit_point K' mean sigma nsamp i j y.
Proof.
  assert (A : forall s, fit_attempt K mean s nsamp i j
                        = fit_attempt K' mean s nsamp i j).
  { intro s. unfold fit_attempt, min_form, fit_method.
    rewrite Hfit, Hfmin, Hpde. reflexivity. }
  split; [ reflexivity | ].
  split; [ apply A | ].
  split; [ apply A | ].
  unfold fit_point. rewrite !A, Hsub. reflexivity.
Qed.

Lemma pulse_fit_uses_dogbox_witness :
  fit_method = "dogbox"
  /\ fit_attempt demo_K [] (Some []) 1 0 0
     = fit_attempt dogbox_only_K [] (Some []) 1 0 0
  /\ fit_attempt demo_K [] None 1 0 0 = fit_attempt dogbox_only_K [] None 1 0 0
  /\ fit_point demo_K [] [] 1 0 0 [[fzero]]
     = fit_point dogbox_only_K [] [] 1 0 0 [[fzero]].
Proof.
  apply (pulse_fit_uses_dogbox demo_K dogbox_only_K [] [] 1 0 0 [[fzero]]);
    reflexivity.
Defined.

(** ** Calibration fit *)







(** ** Binary64 arithmetic on integers

    What the operations of [SpecFloat] do on integers below 2^53: such an
    integer is a binary64 number, and sums and exact quotients of such
    integers are computed without rounding. *)

Section Binary64.

Local Open Scope Z_scope.

Lemma digits2_bounds (p : positive) :
  2 ^ (Zpos (digits2_pos p) - 1) <= Zpos p < 2 ^ Zpos (digits2_pos p).
Proof.
  induction p as [ p IH | p IH | ]; cbn [digits2_pos].
  - rewrite Pos2Z.inj_succ.
    replace (Z.succ (Zpos (digits2_pos p)) - 1) with (Z.succ (Zpos (digits2_pos p) - 1)) by lia.
    rewrite !Z.pow_succ_r by lia. lia.
  - rewrite Pos2Z.inj_succ.
    replace (Z.succ (Zpos (digits2_pos p)) - 1) with (Z.succ (Zpos (digits2_pos p) - 1)) by lia.
    rewrite !Z.pow_succ_r by lia. lia.
  - cbn. lia.
Qed.

Lemma digits2_unique (p : positive) (d : Z) :
  2 ^ (d - 1) <= Zpos p < 2 ^ d -> Zpos (digits2_pos p) = d.
Proof.
  intros [Hlo Hhi]. pose proof (digits2_bounds p) as [Blo Bhi].
  assert (Hd : 0 < d).
  { destruct (Z.ltb_spec 0 d) as [ | Hle ]; [ assumption | ].
    exfalso. destruct (Z.eq_dec d 0) as [ -> | Hne ].
    - cbn in Hhi. lia.
    - rewrite Z.pow_neg_r in Hhi by lia. lia. }
  destruct (Z.lt_trichotomy (Zpos (digits2_pos p)) d) as [ Hlt | [ Heq | Hgt ] ];
    [ | exact Heq | ]; exfalso.
  - assert (2 ^ Zpos (digits2_pos p) <= 2 ^ (d - 1)) by (apply Z.pow_le_mono_r; lia).
    lia.
  - assert (2 ^ d <= 2 ^ (Zpos (digits2_pos p) - 1)) by (apply Z.pow_le_mono_r; lia).
    lia.
Qed.

Lemma digits2_le (p : positive) (d : Z) :
  0 <= d -> Zpos p < 2 ^ d -> Zpos (digits2_pos p) <= d.
Proof.
  intros Hd Hp. pose proof (digits2_bounds p) as [Blo _].
  destruct (Z.leb_spec (Zpos (digits2_pos p)) d) as [ | Hgt ]; [ assumption | ].
  exfalso.
  assert (2 ^ d <= 2 ^ (Zpos (digits2_pos p) - 1)) by (apply Z.pow_le_mono_r; lia).
  lia.
Qed.

Lemma digits2_shift (c q : positive) (j : Z) :
  0 <= j -> Zpos q = Zpos c * 2 ^ j ->
  Zpos (digits2_pos q) = Zpos (digits2_pos c) + j.
Proof.
  intros Hj Hq. apply digits2_unique. rewrite Hq.
  pose proof (digits2_bounds c) as [Blo Bhi].
  replace (Zpos (digits2_pos c) + j - 1) with ((Zpos (digits2_pos c) - 1) + j) by lia.
  rewrite !Z.pow_add_r by lia.
  assert (0 < 2 ^ j) by (apply Z.pow_pos_nonneg; lia).
  nia.
Qed.

Lemma pos_scaled (c : positive) (j : Z) :
  0 <= j -> Zpos (Z.to_pos (Zpos c * 2 ^ j)) = Zpos c * 2 ^ j.
Proof.
  intro Hj. apply Z2Pos.id.
  assert (0 < 2 ^ j) by (apply Z.pow_pos_nonneg; lia). nia.
Qed.

Lemma iter_xO (m d : positive) :
  Zpos (Pos.iter xO m d) = Zpos m * 2 ^ Zpos d.
Proof.
  induction d as [ | d IH ] using Pos.peano_ind.
  - cbn. lia.
  - rewrite Pos.iter_succ, Pos2Z.inj_succ, Z.pow_succ_r by lia.
    rewrite Pos2Z.inj_xO, IH. lia.
Qed.

Lemma shl_align_spec (m : positive) (e e' : Z) :
  e' <= e ->
  Zpos (fst (shl_align m e e')) = Zpos m * 2 ^ (e - e')
  /\ snd (shl_align m e e') = e'.
Proof.
  intro H. unfold shl_align.
  destruct (e' - e) as [ | d | d ] eqn:E.
  - assert (e' = e) by lia. subst. rewrite Z.sub_diag. cbn. lia.
  - lia.
  - cbn [fst snd]. rewrite iter_xO.
    replace (e - e') with (Zpos d) by lia. auto.
Qed.

Lemma shr_1_even (k : Z) :
  0 <= k ->
  shr_1 {| shr_m := 2 * k; shr_r := false; shr_s := false |}
  = {| shr_m := k; shr_r := false; shr_s := false |}.
Proof. intro H. destruct k as [ | p | p ]; [ reflexivity | reflexivity | lia ]. Qed.

Lemma shr_exact (n : positive) :
  forall m : Z,
    0 <= m ->
    iter_pos shr_1 n {| shr_m := m * 2 ^ Zpos n; shr_r := false; shr_s := false |}
    = {| shr_m := m; shr_r := false; shr_s := false |}.
Proof.
  induction n as [ n IH | n IH | ]; intros m Hm; cbn [iter_pos].
  - assert (P : 0 < 2 ^ Zpos n) by (apply Z.pow_pos_nonneg; lia).
    replace (m * 2 ^ Zpos n~1) with (2 * ((m * 2 ^ Zpos n) * 2 ^ Zpos n)).
    2:{ replace (Zpos n~1) with (Zpos n + Zpos n + 1) by lia.
        rewrite !Z.pow_add_r by lia. lia. }
    rewrite shr_1_even by nia. rewrite IH by nia. apply IH. exact Hm.
  - assert (P : 0 < 2 ^ Zpos n) by (apply Z.pow_pos_nonneg; lia).
    replace (m * 2 ^ Zpos n~0) with ((m * 2 ^ Zpos n) * 2 ^ Zpos n).
    2:{ replace (Zpos n~0) with (Zpos n + Zpos n) by lia.
        rewrite !Z.pow_add_r by lia. lia. }
    rewrite IH by nia. apply IH. exact Hm.
  - replace (m * 2 ^ 1) with (2 * m) by lia. apply shr_1_even. exact Hm.
Qed.

Lemma shr_1_half (mrs : shr_record) :
  0 <= shr_m mrs -> shr_m (shr_1 mrs) = shr_m mrs / 2.
Proof.
  destruct mrs as [m r s]. cbn [shr_m]. intro H.
  destruct m as [ | p | p ]; [ reflexivity | | lia ].
  destruct p as [ p | p | ]; cbn [shr_1 shr_m].
  - apply (Z.div_unique (Zpos p~1) 2 (Zpos p) 1); lia.
  - apply (Z.div_unique (Zpos p~0) 2 (Zpos p) 0); lia.
  - reflexivity.
Qed.

Lemma shr_floor (n : positive) :
  forall mrs : shr_record,
    0 <= shr_m mrs ->
    shr_m (iter_pos shr_1 n mrs) = shr_m mrs / 2 ^ Zpos n.
Proof.
  assert (H1 : forall mrs, 0 <= shr_m mrs -> 0 <= shr_m (shr_1 mrs)).
  { intros mrs H. rewrite shr_1_half by exact H. apply Z.div_pos; lia. }
  induction n as [ n IH | n IH | ]; intros mrs Hm; cbn [iter_pos].
  - assert (P : 0 < 2 ^ Zpos n) by (apply Z.pow_pos_nonneg; lia).
    assert (A : 0 <= shr_m (iter_pos shr_1 n (shr_1 mrs))).
    { rewrite IH by auto. apply Z.div_pos; auto; lia. }
    rewrite IH by exact A. rewrite IH by auto. rewrite shr_1_half by exact Hm.
    rewrite !Z.div_div by lia. f_equal.
    replace (Zpos n~1) with (Zpos n + Zpos n + 1) by lia.
    rewrite !Z.pow_add_r by lia. lia.
  - assert (P : 0 < 2 ^ Zpos n) by (apply Z.pow_pos_nonneg; lia).
    assert (A : 0 <= shr_m (iter_pos shr_1 n mrs)).
    { rewrite IH by auto. apply Z.div_pos; auto; lia. }
    rewrite IH by exact A. rewrite IH by auto.
    rewrite !Z.div_div by lia. f_equal.
    replace (Zpos n~0) with (Zpos n + Zpos n) by lia.
    rewrite !Z.pow_add_r by lia. lia.
  - rewrite shr_1_half by exact Hm. reflexivity.
Qed.

Lemma fexp_normal (x : Z) : -1021 <= x -> fexp prec emax x = x - 53.
Proof. intro H. unfold fexp, SpecFloat.emin, prec, emax. lia. Qed.

(** A mantissa of 53 bits is left as it is. *)
Lemma shr_fexp_53 (q : positive) (e : Z) :
  Zpos (digits2_pos q) = 53 -> -1074 <= e ->
  shr_fexp prec emax (Zpos q) e loc_Exact
  = ({| shr_m := Zpos q; shr_r := false; shr_s := false |}, e).
Proof.
  intros Hq He. unfold shr_fexp. cbn [Zdigits2]. rewrite Hq.
  rewrite fexp_normal by lia.
  replace (53 + e - 53 - e) with 0 by lia. reflexivity.
Qed.

Lemma round_aux_53 (s : bool) (q : positive) (e : Z) :
  Zpos (digits2_pos q) = 53 -> -1074 <= e <= 971 ->
  binary_round_aux prec emax s (Zpos q) e loc_Exact = S754_finite s q e.
Proof.
  intros Hq He. unfold binary_round_aux.
  rewrite (shr_fexp_53 q e Hq) by lia.
  cbn [shr_m loc_of_shr_record round_nearest_even].
  rewrite (shr_fexp_53 q e Hq) by lia.
  cbn [shr_m].
  replace (e <=? emax - prec) with true; [ reflexivity | ].
  symmetry. apply Z.leb_le. unfold emax, prec. lia.
Qed.

Lemma small_int_digits (c : positive) :
  Zpos (digits2_pos c) <= 53 ->
  Zpos (digits2_pos (Z.to_pos (Zpos c * 2 ^ (53 - Zpos (digits2_pos c))))) = 53.
Proof.
  intro H.
  rewrite (digits2_shift c _ (53 - Zpos (digits2_pos c))); [ lia | lia | ].
  apply pos_scaled. lia.
Qed.

(** Rounding a mantissa that holds the 53 bits of a small integer followed
    by zeros gives that integer. *)
Lemma round_aux_small_int (s : bool) (c q : positive) (j : Z) :
  Zpos (digits2_pos c) <= 53 ->
  53 - Zpos (digits2_pos c) <= j <= 1074 ->
  Zpos q = Zpos c * 2 ^ j ->
  binary_round_aux prec emax s (Zpos q) (- j) loc_Exact = small_int s c.
Proof.
  intros Hc Hj Hq. set (dc := Zpos (digits2_pos c)) in *.
  assert (Dq : Zpos (digits2_pos q) = dc + j) by (apply digits2_shift; [ lia | exact Hq ]).
  pose proof (small_int_digits c Hc) as D53. fold dc in D53.
  pose proof (pos_scaled c (53 - dc) ltac:(lia)) as Pm.
  set (M := Z.to_pos (Zpos c * 2 ^ (53 - dc))) in *.
  assert (S1 : shr_fexp prec emax (Zpos q) (- j) loc_Exact
               = ({| shr_m := Zpos M; shr_r := false; shr_s := false |}, dc - 53)).
  { unfold shr_fexp. cbn [Zdigits2]. rewrite Dq. rewrite fexp_normal by lia.
    destruct (dc + j + - j - 53 - - j) as [ | n | n ] eqn:En.
    - cbn [shr shr_record_of_loc]. f_equal; [ | lia ]. f_equal.
      rewrite Hq, Pm. f_equal. f_equal. lia.
    - cbn [shr shr_record_of_loc]. f_equal; [ | lia ].
      replace (Zpos q) with (Zpos M * 2 ^ Zpos n).
      + apply shr_exact. lia.
      + rewrite Hq, Pm, <- Z.mul_assoc, <- Z.pow_add_r by lia. f_equal. f_equal. lia.
    - lia. }
  unfold binary_round_aux. rewrite S1.
  cbn [shr_m loc_of_shr_record round_nearest_even].
  rewrite (shr_fexp_53 M (dc - 53) D53) by lia.
  cbn [shr_m].
  replace (dc - 53 <=? emax - prec) with true; [ reflexivity | ].
  symmetry. apply Z.leb_le. unfold emax, prec. lia.
Qed.

Lemma round_small_int (s : bool) (c q : positive) (j : Z) :
  Zpos (digits2_pos c) <= 53 -> 0 <= j <= 1074 ->
  Zpos q = Zpos c * 2 ^ j ->
  binary_round prec emax s q (- j) = small_int s c.
Proof.
  intros Hc Hj Hq. set (dc := Zpos (digits2_pos c)) in *.
  assert (Dq : Zpos (digits2_pos q) = dc + j) by (apply digits2_shift; [ lia | exact Hq ]).
  unfold binary_round. rewrite Dq, fexp_normal by lia.
  destruct (Z.le_gt_cases (- j) (dc + j + - j - 53)) as [ Hle | Hgt ].
  - (* no shift to the left *)
    assert (E : shl_align q (- j) (dc + j + - j - 53) = (q, - j)).
    { unfold shl_align. destruct (dc + j + - j - 53 - - j) eqn:En; try reflexivity. lia. }
    rewrite E. apply round_aux_small_int; [ exact Hc | fold dc; lia | exact Hq ].
  - destruct (shl_align_spec q (- j) (dc + j + - j - 53) ltac:(lia)) as [Sm Se].
    destruct (shl_align q (- j) (dc + j + - j - 53)) as [mz ez]. cbn [fst snd] in Sm, Se.
    subst ez. replace (dc + j + - j - 53) with (- (53 - dc)) by lia.
    apply round_aux_small_int; [ exact Hc | fold dc; lia | ].
    rewrite Sm, Hq, <- Z.mul_assoc, <- Z.pow_add_r by lia. f_equal. f_equal. fold dc. lia.
Qed.

Lemma float_of_Z_small (z : Z) (c : positive) :
  Z.abs z = Zpos c -> Zpos c < 2 ^ 53 ->
  float_of_Z z = small_int (z <? 0) c.
Proof.
  intros Hz Hc.
  assert (Dc : Zpos (digits2_pos c) <= 53) by (apply digits2_le; [ lia | exact Hc ]).
  unfold float_of_Z, binary_normalize.
  destruct z as [ | p | p ]; [ discriminate | | ]; cbn in Hz; injection Hz as ->;
    cbn [Z.ltb Z.compare];
    apply (round_small_int _ c c 0 Dc); lia.
Qed.

(** The sum of two small integers of the same sign is exact. *)
Lemma fadd_small_int (s : bool) (a b : positive) :
  Zpos a + Zpos b < 2 ^ 53 ->
  fadd (small_int s a) (small_int s b) = small_int s (a + b).
Proof.
  intro H.
  assert (Da : Zpos (digits2_pos a) <= 53) by (apply digits2_le; lia).
  assert (Db : Zpos (digits2_pos b) <= 53) by (apply digits2_le; lia).
  assert (Dc : Zpos (digits2_pos (a + b)) <= 53)
    by (apply digits2_le; [ lia | rewrite Pos2Z.inj_add; exact H ]).
  pose proof (digits2_bounds a) as [_ Ba]. pose proof (digits2_bounds b) as [_ Bb].
  assert (Pa : 0 < Zpos (digits2_pos a)) by lia.
  assert (Pb : 0 < Zpos (digits2_pos b)) by lia.
  unfold fadd, small_int, SFadd.
  set (da := Zpos (digits2_pos a)) in *. set (db := Zpos (digits2_pos b)) in *.
  set (ez := Z.min (da - 53) (db - 53)).
  destruct (shl_align_spec (Z.to_pos (Zpos a * 2 ^ (53 - da))) (da - 53) ez ltac:(lia))
    as [Sa _].
  destruct (shl_align_spec (Z.to_pos (Zpos b * 2 ^ (53 - db))) (db - 53) ez ltac:(lia))
    as [Sb _].
  rewrite pos_scaled in Sa, Sb by lia.
  rewrite <- Z.mul_assoc, <- Z.pow_add_r in Sa, Sb by lia.
  replace (53 - da + (da - 53 - ez)) with (- ez) in Sa by lia.
  replace (53 - db + (db - 53 - ez)) with (- ez) in Sb by lia.
  rewrite Sa, Sb.
  assert (P : 0 < 2 ^ (- ez)) by (apply Z.pow_pos_nonneg; lia).
  assert (E : cond_Zopp s (Zpos a * 2 ^ (- ez)) + cond_Zopp s (Zpos b * 2 ^ (- ez))
              = cond_Zopp s (Zpos (Z.to_pos (Zpos (a + b) * 2 ^ (- ez))))).
  { rewrite pos_scaled by lia. rewrite Pos2Z.inj_add. destruct s; cbn [cond_Zopp]; lia. }
  rewrite E. unfold binary_normalize.
  assert (J : 0 <= - ez <= 1074) by lia.
  pose proof (fun s' => round_small_int s' (a + b)
                          (Z.to_pos (Zpos (a + b) * 2 ^ (- ez))) (- ez) Dc
                          J (pos_scaled _ _ (proj1 J))) as R.
  rewrite Z.opp_involutive in R.
  destruct s; cbn [cond_Zopp Z.opp]; apply R.
Qed.

(** The quotient of a small integer by one of its divisors is exact. *)
Lemma fdiv_small_int (s : bool) (n v : positive) :
  Zpos n * Zpos v < 2 ^ 53 ->
  fdiv (small_int s (n * v)) (small_int false n) = small_int s v.
Proof.
  intro H.
  assert (Hn : Zpos n < 2 ^ 53) by nia.
  assert (Hv : Zpos v < 2 ^ 53) by nia.
  assert (Dx : Zpos (digits2_pos (n * v)) <= 53)
    by (apply digits2_le; [ lia | rewrite Pos2Z.inj_mul; exact H ]).
  assert (Dn : Zpos (digits2_pos n) <= 53) by (apply digits2_le; lia).
  assert (Dv : Zpos (digits2_pos v) <= 53) by (apply digits2_le; lia).
  pose proof (digits2_bounds n) as [Ln Bn]. pose proof (digits2_bounds v) as [Lv Bv].
  pose proof (digits2_bounds (n * v)) as [Lx Bx].
  pose proof (small_int_digits (n * v) Dx) as D1.
  pose proof (small_int_digits n Dn) as D2.
  pose proof (pos_scaled (n * v) (53 - Zpos (digits2_pos (n * v))) ltac:(lia)) as M1.
  pose proof (pos_scaled n (53 - Zpos (digits2_pos n)) ltac:(lia)) as M2.
  set (dx := Zpos (digits2_pos (n * v))) in *.
  set (dn := Zpos (digits2_pos n)) in *.
  set (dv := Zpos (digits2_pos v)) in *.
  assert (Pn : 0 < dn) by (unfold dn; lia).
  assert (Px : 0 < dx) by (unfold dx; lia).
  assert (Pv : 0 < dv) by (unfold dv; lia).
  (* the product has at most as many bits as its factors together, and at
     least as many as the divisor *)
  assert (Hdx : dx <= dn + dv).
  { apply digits2_le; [ lia | ]. rewrite Pos2Z.inj_mul, Z.pow_add_r by lia. nia. }
  assert (Hdn : dn <= dx).
  { apply digits2_le; [ lia | ].
    assert (Zpos n <= Zpos (n * v)) by (rewrite Pos2Z.inj_mul; nia). lia. }
  unfold fdiv, small_int at 1 2, SFdiv. fold dx dn.
  set (Mx := Z.to_pos (Zpos (n * v) * 2 ^ (53 - dx))) in *.
  set (Mn := Z.to_pos (Zpos n * 2 ^ (53 - dn))) in *.
  set (j := 53 - dx + dn).
  assert (Q : Zpos v * 2 ^ j = Zpos (Z.to_pos (Zpos v * 2 ^ j)))
    by (symmetry; apply pos_scaled; lia).
  assert (C : SFdiv_core_binary prec emax (Zpos Mx) (dx - 53) (Zpos Mn) (dn - 53)
              = (Zpos (Z.to_pos (Zpos v * 2 ^ j)), - j, loc_Exact)).
  { unfold SFdiv_core_binary. cbn [Zdigits2]. rewrite D1, D2.
    rewrite fexp_normal by lia.
    replace (Z.min (53 + (dx - 53) - (53 + (dn - 53)) - 53) (dx - 53 - (dn - 53)))
      with (- j) by lia.
    replace (dx - 53 - (dn - 53) - - j) with 53 by lia.
    rewrite Z.shiftl_mul_pow2 by lia.
    assert (E : Zpos Mx * 2 ^ 53 = Zpos Mn * (Zpos v * 2 ^ j) + 0).
    { rewrite M1, M2, Pos2Z.inj_mul. unfold j.
      replace (53 - dx + dn) with ((53 - dx) + 53 - (53 - dn)) by lia.
      assert (X : 2 ^ (53 - dx) * 2 ^ 53 = 2 ^ (53 - dn) * 2 ^ (53 - dx + 53 - (53 - dn))).
      { rewrite <- !Z.pow_add_r by lia. f_equal. lia. }
      nia. }
    pose proof (Z_div_mod (Zpos Mx * 2 ^ 53) (Zpos Mn) ltac:(lia)) as DM.
    destruct (Z.div_eucl (Zpos Mx * 2 ^ 53) (Zpos Mn)) as [q r].
    destruct DM as [DM1 DM2].
    assert (Hr : q = Zpos v * 2 ^ j /\ r = 0).
    { apply (Z.div_mod_unique (Zpos Mn)); [ lia | lia | ].
      rewrite <- DM1. exact E. }
    destruct Hr as [-> ->].
    rewrite <- Q. f_equal.
    unfold new_location, new_location_even, new_location_odd.
    destruct (Z.even (Zpos Mn)); reflexivity. }
  rewrite C. rewrite xorb_false_r.
  apply (round_aux_small_int s v); [ exact Dv | fold dv; unfold j; lia | ].
  symmetry. exact Q.
Qed.

(** A nonzero integer is converted to a nonzero number of the same sign. *)
Lemma shr_fexp_positive (m : positive) (e : Z) (l : location) :
  -1074 <= e ->
  exists m' r s' e',
    shr_fexp prec emax (Zpos m) e l
    = ({| shr_m := Zpos m'; shr_r := r; shr_s := s' |}, e')
    /\ -1074 <= e'.
Proof.
  intro He. unfold shr_fexp. cbn [Zdigits2].
  pose proof (digits2_bounds m) as [Lm Bm].
  set (d := Zpos (digits2_pos m)) in *.
  assert (Pd : 0 < d) by (unfold d; lia).
  unfold fexp, SpecFloat.emin, prec, emax.
  destruct (Z.max (d + e - 53) (3 - 1024 - 53) - e) as [ | n | n ] eqn:En.
  - cbn [shr]. destruct l as [ | [ | | ] ]; cbn [shr_record_of_loc];
      do 4 eexists; (split; [ reflexivity | lia ]).
  - cbn [shr].
    pose proof (shr_floor n (shr_record_of_loc (Zpos m) l)) as F.
    assert (M : shr_m (shr_record_of_loc (Zpos m) l) = Zpos m)
      by (destruct l as [ | [ | | ] ]; reflexivity).
    rewrite M in F. specialize (F ltac:(lia)).
    destruct (iter_pos shr_1 n (shr_record_of_loc (Zpos m) l)) as [m1 r1 s1].
    cbn [shr_m] in F.
    assert (B : 2 ^ Zpos n <= Zpos m).
    { assert (Zpos n <= d - 1) by lia.
      assert (2 ^ Zpos n <= 2 ^ (d - 1)) by (apply Z.pow_le_mono_r; lia). lia. }
    assert (P : 0 < m1).
    { subst m1. apply Z.div_str_pos. split; [ apply Z.pow_pos_nonneg; lia | exact B ]. }
    destruct m1 as [ | m1 | m1 ]; try lia.
    do 4 eexists. split; [ reflexivity | lia ].
  - cbn [shr]. destruct l as [ | [ | | ] ]; cbn [shr_record_of_loc];
      do 4 eexists; (split; [ reflexivity | lia ]).
Qed.

Lemma round_aux_nonzero (s : bool) (m : positive) (e : Z) (l : location) :
  -1074 <= e ->
  (exists m' e', binary_round_aux prec emax s (Zpos m) e l = S754_finite s m' e')
  \/ binary_round_aux prec emax s (Zpos m) e l = S754_infinity s.
Proof.
  intro He. unfold binary_round_aux.
  destruct (shr_fexp_positive m e l He) as (m1 & r1 & s1 & e1 & E1 & He1).
  rewrite E1. cbn [shr_m].
  assert (P : exists m2,
             round_nearest_even (Zpos m1)
               (loc_of_shr_record {| shr_m := Zpos m1; shr_r := r1; shr_s := s1 |})
             = Zpos m2).
  { destruct r1, s1; cbn [loc_of_shr_record round_nearest_even];
      try (eexists; reflexivity).
    destruct (Z.even (Zpos m1)); eexists; reflexivity. }
  destruct P as [m2 ->].
  destruct (shr_fexp_positive m2 e1 loc_Exact He1) as (m3 & r3 & s3 & e3 & E3 & _).
  rewrite E3. cbn [shr_m].
  destruct (e3 <=? emax - prec); [ left; eauto | right; reflexivity ].
Qed.

Lemma float_of_Z_nonzero (z : Z) :
  z <> 0 ->
  (exists m e, float_of_Z z = S754_finite (z <? 0) m e)
  \/ float_of_Z z = S754_infinity (z <? 0).
Proof.
  intro Hz. unfold float_of_Z, binary_normalize.
  assert (G : forall s p,
             (exists m e, binary_round prec emax s p 0 = S754_finite s m e)
             \/ binary_round prec emax s p 0 = S754_infinity s).
  { intros s p. unfold binary_round.
    pose proof (digits2_bounds p) as [_ _].
    assert (Pd : 0 < Zpos (digits2_pos p)) by lia.
    rewrite fexp_normal by lia.
    destruct (Z.le_gt_cases 0 (Zpos (digits2_pos p) + 0 - 53)) as [ Hle | Hgt ].
    - assert (E : shl_align p 0 (Zpos (digits2_pos p) + 0 - 53) = (p, 0)).
      { unfold shl_align.
        destruct (Zpos (digits2_pos p) + 0 - 53 - 0) eqn:En; try reflexivity. lia. }
      rewrite E. apply round_aux_nonzero. lia.
    - destruct (shl_align_spec p 0 (Zpos (digits2_pos p) + 0 - 53) ltac:(lia)) as [_ Se].
      destruct (shl_align p 0 (Zpos (digits2_pos p) + 0 - 53)) as [mz ez].
      cbn [snd] in Se. subst ez. apply round_aux_nonzero. lia. }
  destruct z as [ | p | p ]; [ contradiction | apply G | apply G ].
Qed.

Lemma float_of_Z_zero (z : Z) : float_of_Z z = fzero -> z = 0.
Proof.
  intro H. destruct (Z.eq_dec z 0) as [ | Hne ]; [ assumption | exfalso ].
  destruct (float_of_Z_nonzero z Hne) as [ (m & e & E) | E ];
    rewrite E in H; discriminate H.
Qed.

Lemma fold_fadd_small_int (s : bool) (v : positive) (k : nat) :
  forall a : positive,
    Zpos a + Z.of_nat k * Zpos v < 2 ^ 53 ->
    fold_left fadd (repeat (small_int s v) k) (small_int s a)
    = small_int s (Z.to_pos (Zpos a + Z.of_nat k * Zpos v)).
Proof.
  induction k as [ | k IH ]; intros a H.
  - cbn [repeat fold_left].
    replace (Zpos a + Z.of_nat 0 * Zpos v) with (Zpos a) by lia. reflexivity.
  - cbn [repeat fold_left]. rewrite fadd_small_int by lia.
    rewrite IH by lia. f_equal. f_equal. lia.
Qed.

Lemma fold_fadd_zero (k : nat) : fold_left fadd (repeat fzero k) fzero = fzero.
Proof. induction k as [ | k IH ]; [ reflexivity | exact IH ]. Qed.

Lemma sum_list_zero (k : nat) : sum_list (repeat fzero k) = fzero.
Proof. apply fold_fadd_zero. Qed.

Lemma fdiv_zero_count (n : nat) :
  (0 < n)%nat -> fdiv fzero (float_of_Z (Z.of_nat n)) = fzero.
Proof.
  intro H.
  destruct (float_of_Z_nonzero (Z.of_nat n) ltac:(lia)) as [ (m & e & E) | E ];
    rewrite E; replace (Z.of_nat n <? 0) with false by (symmetry; apply Z.ltb_ge; lia);
    reflexivity.
Qed.

Lemma mean_list_zero (n : nat) : (0 < n)%nat -> mean_list (repeat fzero n) = fzero.
Proof.
  intro H. unfold mean_list. rewrite sum_list_zero, repeat_length.
  apply fdiv_zero_count. exact H.
Qed.

Lemma fsub_small_int_diag (s : bool) (c : positive) :
  fsub (small_int s c) (small_int s c) = fzero.
Proof. unfold fsub, small_int, SFsub. rewrite Z.sub_diag. reflexivity. Qed.

Lemma std_of_exact_mean (x : float64) (n : nat) :
  (0 < n)%nat -> fsub x x = fzero -> mean_list (repeat x n) = x ->
  std_list (repeat x n) = fzero.
Proof.
  intros Hn Hx Hm. unfold std_list. rewrite Hm, map_repeat, Hx.
  change (fmul fzero fzero) with fzero. rewrite (mean_list_zero n Hn). reflexivity.
Qed.

(** [n >= 1] copies of an integer [v] with [n * |v| < 2^53]: the mean is
    [v] and the standard deviation is zero. *)
Lemma identical_integers (v : Z) (n : nat) :
  (0 < n)%nat -> Z.of_nat n * Z.abs v < 2 ^ 53 ->
  mean_list (repeat (float_of_Z v) n) = float_of_Z v
  /\ std_list (repeat (float_of_Z v) n) = fzero.
Proof.
  intros Hn Hb.
  destruct (Z.eq_dec v 0) as [ -> | Hv ].
  - change (float_of_Z 0) with fzero.
    split; [ apply mean_list_zero; exact Hn | ].
    apply std_of_exact_mean; [ exact Hn | reflexivity | apply mean_list_zero; exact Hn ].
  - assert (Hc : exists c, Z.abs v = Zpos c)
      by (destruct v as [ | p | p ]; [ contradiction | | ]; eexists; reflexivity).
    destruct Hc as [c Hc]. rewrite Hc in Hb.
    assert (Bc : Zpos c < 2 ^ 53) by nia.
    rewrite (float_of_Z_small v c Hc Bc). set (s := (v <? 0)).
    assert (M : mean_list (repeat (small_int s c) n) = small_int s c).
    { unfold mean_list. rewrite repeat_length.
      destruct n as [ | k ]; [ lia | ].
      unfold sum_list. cbn [repeat fold_left].
      change (fadd fzero (small_int s c)) with (small_int s c).
      rewrite fold_fadd_small_int by lia.
      rewrite (float_of_Z_small (Z.of_nat (S k)) (Pos.of_succ_nat k)) by lia.
      replace (Z.of_nat (S k) <? 0) with false by (symmetry; apply Z.ltb_ge; lia).
      replace (Z.to_pos (Zpos c + Z.of_nat k * Zpos c))
        with (Pos.of_succ_nat k * c)%positive by lia.
      apply fdiv_small_int. lia. }
    split; [ exact M | ].
    apply std_of_exact_mean; [ exact Hn | apply fsub_small_int_diag | exact M ].
Qed.

End Binary64.


(** ** Statistical reducer *)

(** An entry of a reduced array is the reduction of the entries of the
    trials at the same step, channel and sample. *)
Lemma reduce_axis1_entry (f : list float64 -> float64) (nchan nsamp : nat)
  (data : tensor4) (i c s : nat) :
  (i < List.length data)%nat -> (c < nchan)%nat -> (s < nsamp)%nat ->
  get3 (reduce_axis1 f nchan nsamp data) i c s
  = f (map (fun trial => nth s (nth c trial []) fzero) (nth i data [])).
Proof.
  intros Hi Hc Hs. unfold get3, reduce_axis1.
  set (per_step :=
         fun trials : list (list (list float64)) =>
           map (fun c0 =>
                  map (fun s0 => f (map (fun trial => nth s0 (nth c0 trial []) fzero) trials))
                      (seq 0 nsamp))
               (seq 0 nchan)).
  rewrite (nth_indep (map per_step data) [] (per_step [])), (map_nth per_step)
    by (rewrite length_map; exact Hi).
  unfold per_step.
  set (per_chan :=
         fun c0 =>
           map (fun s0 => f (map (fun trial => nth s0 (nth c0 trial []) fzero) (nth i data [])))
               (seq 0 nsamp)).
  rewrite (nth_indep (map per_chan (seq 0 nchan)) [] (per_chan 0%nat)),
    (map_nth per_chan), seq_nth by (rewrite ?length_map, ?length_seq; assumption).
  unfold per_chan. cbn [Nat.add].
  set (per_samp :=
         fun s0 => f (map (fun trial => nth s0 (nth c trial []) fzero) (nth i data []))).
  rewrite (nth_indep (map per_samp (seq 0 nsamp)) fzero (per_samp 0%nat)),
    (map_nth per_samp), seq_nth by (rewrite ?length_map, ?length_seq; assumption).
  reflexivity.
Qed.

Lemma constant_list {A : Type} (v : A) (xs : list A) :
  (forall x, In x xs -> x = v) -> xs = repeat v (List.length xs).
Proof.
  induction xs as [ | x xs IH ]; intro H; [ reflexivity | ].
  cbn [List.length repeat]. rewrite (H x (or_introl eq_refl)). f_equal.
  apply IH. intros x' Hx'. apply H. right. exact Hx'.
Qed.

(** C9 (as stated, refuted): three identical trials of 7796471958821802.0
    have the mean 7796471958821803.0, which is none of the trials, and the
    standard deviation 1.0; three identical trials of 0.1 have a mean other
    than 0.1 and a standard deviation other than zero. *)
Lemma reducer_identical_trials_rounding :
  (forall t t', (t < 3)%nat -> (t' < 3)%nat ->
                get4 rounding_data 0 t 0 0 = get4 rounding_data 0 t' 0 0)
  /\ get4 rounding_data 0 0 0 0 = float_of_Z 7796471958821802
  /\ get3 (np_mean_axis1 1 1 rounding_data) 0 0 0 = float_of_Z 7796471958821803
  /\ get3 (np_mean_axis1 1 1 rounding_data) 0 0 0 <> get4 rounding_data 0 0 0 0
  /\ get3 (np_std_axis1 1 1 rounding_data) 0 0 0 = float_of_Z 1
  /\ get3 (np_std_axis1 1 1 rounding_data) 0 0 0 <> fzero
  /\ (forall t t', (t < 3)%nat -> (t' < 3)%nat ->
                   get4 tenths_data 0 t 0 0 = get4 tenths_data 0 t' 0 0)
  /\ get3 (np_mean_axis1 1 1 tenths_data) 0 0 0 <> get4 tenths_data 0 0 0 0
  /\ get3 (np_std_axis1 1 1 tenths_data) 0 0 0 <> fzero.
Proof.
  split.
  { intros [ | [ | [ | t ]]] [ | [ | [ | t' ]]] Ht Ht'; try reflexivity; lia. }
  split; [ reflexivity | ].
  split; [ vm_compute; reflexivity | ].
  split; [ vm_compute; discriminate | ].
  split; [ vm_compute; reflexivity | ].
  split; [ vm_compute; discriminate | ].
  split.
  { intros [ | [ | [ | t ]]] [ | [ | [ | t' ]]] Ht Ht'; try reflexivity; lia. }
  split; vm_compute; discriminate.
Qed.

(** C9 (amended): [mean] and [sigma] are total functions of the tensor:
    the float64 sum over the trial axis divided by the number of trials,
    and the square root of the float64 mean of the squared deviations from
    it; a step without trials gives nan for both. Where all trials of a
    step hold, at a channel and sample, the same integer [v], as the
    decoder stores them, and the number of trials times [|v|] is below
    2^53, [sigma] is exactly zero and [mean] is the value of every one of
    the trials. *)
Theorem reducer_identical_trials (data : tensor4) (nchan nsamp i c s : nat)
  (Hi : (i < List.length data)%nat) (Hc : (c < nchan)%nat) (Hs : (s < nsamp)%nat) :
  get3 (np_mean_axis1 nchan nsamp data) i c s
  = mean_list (map (fun trial => nth s (nth c trial []) fzero) (nth i data []))
  /\ get3 (np_std_axis1 nchan nsamp data) i c s
     = std_list (map (fun trial => nth s (nth c trial []) fzero) (nth i data []))
  /\ (nth i data [] = [] ->
      get3 (np_mean_axis1 nchan nsamp data) i c s = fnan
      /\ get3 (np_std_axis1 nchan nsamp data) i c s = fnan)
  /\ forall v : Z,
       (0 < List.length (nth i data []))%nat ->
       (forall t, (t < List.length (nth i data []))%nat ->
                  get4 data i t c s = float_of_Z v) ->
       (Z.of_nat (List.length (nth i data [])) * Z.abs v < 2 ^ 53)%Z ->
       get3 (np_std_axis1 nchan nsamp data) i c s = fzero
       /\ forall t, (t < List.length (nth i data []))%nat ->
                    get3 (np_mean_axis1 nchan nsamp data) i c s = get4 data i t c s.
Proof.
  unfold np_mean_axis1, np_std_axis1.
  rewrite !(reduce_axis1_entry _ nchan nsamp data i c s Hi Hc Hs).
  set (trials := nth i data []) in *.
  set (xs := map (fun trial => nth s (nth c trial []) fzero) trials).
  split; [ reflexivity | ]. split; [ reflexivity | ].
  split.
  { intro E. unfold xs. rewrite E. split; reflexivity. }
  intros v Htrials Hsame Hsmall.
  assert (Hxs : xs = repeat (float_of_Z v) (List.length trials)).
  { replace (List.length trials) with (List.length xs)
      by (unfold xs; apply length_map).
    apply constant_list. intros x Hx. unfold xs in Hx. apply in_map_iff in Hx.
    destruct Hx as (trial & <- & Hin).
    destruct (In_nth trials trial [] Hin) as (t & Ht & <-).
    exact (Hsame t Ht). }
  destruct (identical_integers v (List.length trials) Htrials Hsmall) as [M S].
  rewrite Hxs. split; [ exact S | ].
  intros t Ht. rewrite M. symmetry. exact (Hsame t Ht).
Qed.

Lemma reducer_identical_trials_witness :
  let data := [[[[float_of_Z 3; float_of_Z 4]; [float_of_Z 5; float_of_Z 6]];
                [[float_of_Z 3; float_of_Z 9]; [float_of_Z 5; float_of_Z 6]]]] in
  get3 (np_std_axis1 2 2 data) 0 0 0 = fzero
  /\ get3 (np_mean_axis1 2 2 data) 0 0 0 = float_of_Z 3.
Proof.
  intro data.
  assert (Hsame : forall t, (t < 2)%nat -> get4 data 0 t 0 0 = float_of_Z 3).
  { intros [ | [ | t ]] Ht; try reflexivity; lia. }
  destruct (reducer_identical_trials data 2 2 0 0 0
              (Nat.lt_0_succ 0) (Nat.lt_0_succ 1) (Nat.lt_0_succ 1))
    as (_ & _ & _ & H).
  destruct (H 3%Z (Nat.lt_0_succ 1) Hsame ltac:(vm_compute; reflexivity))
    as [Hsig Hmean].
  split; [ exact Hsig | ].
  exact (Hmean 0%nat (Nat.lt_0_succ 1)).
Defined.


(** ** Item assignment *)

Lemma length_set_nth {A : Type} (xs : list A) :
  forall (k : nat) (v : A), List.length (set_nth xs k v) = List.length xs.
Proof.
  induction xs as [ | x xs IH ]; intros [ | k ] v; cbn; auto.
Qed.

Lemma nth_set_nth {A : Type} (xs : list A) :
  forall (k k' : nat) (v d : A),
    (k < List.length xs)%nat ->
    nth k' (set_nth xs k v) d = if (k' =? k)%nat then v else nth k' xs d.
Proof.
  induction xs as [ | x xs IH ]; intros k k' v d Hk; [ cbn in Hk; lia | ].
  destruct k as [ | k ], k' as [ | k' ]; cbn; try reflexivity.
  apply IH. cbn in Hk. lia.
Qed.

Lemma Forall_set_nth {A : Type} (P : A -> Prop) (xs : list A) :
  forall (k : nat) (v : A), Forall P xs -> P v -> Forall P (set_nth xs k v).
Proof.
  induction xs as [ | x xs IH ]; intros k v H Hv; [ constructor | ].
  inversion H; subst. destruct k; cbn; constructor; auto.
Qed.

Lemma py_index_lt {A : Type} (xs : list A) (k : nat) (d : A) :
  (k < List.length xs)%nat -> py_index xs k = Ok (nth k xs d).
Proof.
  intro H. unfold py_index. rewrite (nth_error_nth' xs d H). reflexivity.
Qed.

Lemma setitem2_raises {A : Type} (arr : list (list A)) (i j : nat) (v : A)
  (e : exn) :
  setitem2 arr i j v = Raise e -> e = IndexError.
Proof.
  unfold setitem2, py_index, setitem.
  destruct (nth_error arr i) as [ row | ]; cbn [rbind];
    [ destruct (j <? List.length row)%nat; cbn [rbind];
      [ destruct (i <? List.length arr)%nat | ] | ];
    intro H; try discriminate H; injection H as <-; reflexivity.
Qed.

Lemma setitem2_in_range {A : Type} (arr : list (list A)) (i j : nat) (v : A)
  (d : A) :
  (i < List.length arr)%nat ->
  (j < List.length (nth i arr []))%nat ->
  setitem2 arr i j v = Ok (set_nth arr i (set_nth (nth i arr []) j v)).
Proof.
  intros Hi Hj. unfold setitem2, setitem.
  rewrite (py_index_lt arr i [] Hi). cbn [rbind].
  apply Nat.ltb_lt in Hi, Hj. rewrite Hj. cbn [rbind]. rewrite Hi. reflexivity.
Qed.

Lemma store_in_range (y : matrix) (rows cols j i : nat) (v : float64) :
  shape2 y rows cols -> (j < rows)%nat -> (i < cols)%nat ->
  exists y',
    store y j i v = Ok y'
    /\ shape2 y' rows cols
    /\ forall b a,
         get2 y' b a = if ((b =? j) && (a =? i))%nat then v else get2 y b a.
Proof.
  intros (Hlen & Hrows) Hj Hi.
  assert (Hrow : List.length (nth j y []) = cols).
  { rewrite Forall_forall in Hrows. apply Hrows. apply nth_In. lia. }
  exists (set_nth y j (set_nth (nth j y []) i v)).
  split; [ apply (setitem2_in_range y j i v fzero); lia | ].
  split.
  - split; [ rewrite length_set_nth; exact Hlen | ].
    apply Forall_set_nth; [ exact Hrows | ].
    rewrite length_set_nth. exact Hrow.
  - intros b a. unfold get2.
    rewrite (nth_set_nth y j b _ []) by lia.
    destruct (Nat.eqb_spec b j) as [ -> | _ ]; cbn [andb]; [ | reflexivity ].
    apply nth_set_nth. lia.
Qed.

(** ** The fallback ladder *)

(** An iteration of the fit loop is the ladder followed by the assignment. *)
Lemma fit_point_ladder (K : collab) (mean sigma : tensor3) (nsamp : Z)
  (i j : nat) (y : matrix) :
  fit_point K mean sigma nsamp i j y
  = (o <-- ladder K mean sigma nsamp i j ;;
     match o with
     | Some v => store y j i v
     | None => Ok y
     end).
Proof.
  unfold fit_point, ladder.
  destruct (fit_attempt K mean (Some sigma) nsamp i j) as [ v | e ]; cbn [rbind].
  - destruct (store y j i v) as [ y' | e ] eqn:E; [ reflexivity | ].
    apply setitem2_raises in E. subst e. reflexivity.
  - destruct (isinstance (linalg_is_value_error K) e CValueError).
    + destruct (fit_attempt K mean None nsamp i j) as [ v | e' ]; cbn [rbind].
      * destruct (store y j i v) as [ y' | e0 ] eqn:E; [ reflexivity | ].
        apply setitem2_raises in E. subst e0. reflexivity.
      * destruct (isinstance (linalg_is_value_error K) e' CLinAlgError);
          [ reflexivity | ].
        destruct (isinstance (linalg_is_value_error K) e' CRuntimeError);
          reflexivity.
    + destruct (isinstance (linalg_is_value_error K) e CRuntimeError);
        reflexivity.
Qed.

Lemma rfor_app {A S : Type} (xs ys : list A) (f : A -> S -> result S) :
  forall s, rfor (xs ++ ys) f s = (s' <-- rfor xs f s ;; rfor ys f s').
Proof.
  induction xs as [ | x xs IH ]; intro s; [ reflexivity | ].
  cbn. destruct (f x s); cbn; [ apply IH | reflexivity ].
Qed.

Lemma rfor_map {A B S : Type} (g : A -> B) (xs : list A)
  (f : B -> S -> result S) :
  forall s, rfor (map g xs) f s = rfor xs (fun a => f (g a)) s.
Proof.
  induction xs as [ | x xs IH ]; intro s; [ reflexivity | ].
  cbn. destruct (f (g x) s); cbn; [ apply IH | reflexivity ].
Qed.

(** Two nested loops run their body on the pairs of indices in order. *)
Lemma rfor_nested {A B S : Type} (xs : list A) (ys : list B)
  (f : A -> B -> S -> result S) :
  forall s,
    rfor xs (fun a s => rfor ys (fun b s => f a b s) s) s
    = rfor (list_prod xs ys) (fun p s => f (fst p) (snd p) s) s.
Proof.
  induction xs as [ | x xs IH ]; intro s; [ reflexivity | ].
  cbn [rfor list_prod]. rewrite rfor_app, rfor_map. cbn [fst snd].
  destruct (rfor ys (fun b s0 => f x b s0) s); cbn; [ apply IH | reflexivity ].
Qed.

Lemma fit_loop_points (K : collab) (mean sigma : tensor3) (nstp nsamp : Z) :
  fit_loop K mean sigma nstp nsamp
  = rfor (fit_points nstp) (fit_step K mean sigma nsamp)
      (np_zeros2 16 (Z.to_nat nstp)).
Proof. unfold fit_loop, fit_points. apply rfor_nested. Qed.

Lemma NoDup_list_prod {A B : Type} (xs : list A) (ys : list B) :
  NoDup xs -> NoDup ys -> NoDup (list_prod xs ys).
Proof.
  intros Hx Hy. induction Hx as [ | x xs Hnin Hx IH ]; [ constructor | ].
  cbn [list_prod]. apply NoDup_app; [ | exact IH | ].
  - clear IH. induction Hy as [ | y ys Hyn Hy IHy ]; [ constructor | ].
    cbn. constructor; [ | exact IHy ].
    intro H. apply in_map_iff in H. destruct H as (y' & E & Hin).
    injection E as ->. contradiction.
  - intros [a b] H1 H2. apply in_map_iff in H1. destruct H1 as (y' & E & _).
    injection E as <- _. apply in_prod_iff in H2. destruct H2 as [H2 _].
    contradiction.
Qed.

Lemma fit_points_spec (nstp : Z) (a b : nat) :
  In (a, b) (fit_points nstp) <-> (a < Z.to_nat nstp)%nat /\ (b < 16)%nat.
Proof.
  unfold fit_points, range. rewrite in_prod_iff, !in_seq. lia.
Qed.

Lemma fit_points_NoDup (nstp : Z) : NoDup (fit_points nstp).
Proof. apply NoDup_list_prod; apply seq_NoDup. Qed.

Lemma zeros_shape (rows cols : nat) : shape2 (np_zeros2 rows cols) rows cols.
Proof.
  unfold np_zeros2. split; [ apply repeat_length | ].
  apply Forall_forall. intros r Hr. apply repeat_spec in Hr. subst r.
  apply repeat_length.
Qed.

Lemma zeros_entry (rows cols b a : nat) : get2 (np_zeros2 rows cols) b a = fzero.
Proof.
  unfold get2, np_zeros2.
  destruct (Nat.lt_ge_cases b rows) as [ Hb | Hb ].
  - rewrite nth_repeat_lt by exact Hb.
    destruct (Nat.lt_ge_cases a cols) as [ Ha | Ha ].
    + apply nth_repeat_lt. exact Ha.
    + apply nth_overflow. rewrite repeat_length. exact Ha.
  - rewrite (nth_overflow (repeat (repeat fzero cols) rows) [])
      by (rewrite repeat_length; exact Hb).
    destruct a; reflexivity.
Qed.


Section FitLoop.

Variables (K : collab) (mean sigma : tensor3) (nsamp : Z).

Lemma ladder_step (y : matrix) (rows cols i j : nat) (o : option float64) :
  shape2 y rows cols -> (j < rows)%nat -> (i < cols)%nat ->
  ladder K mean sigma nsamp i j = Ok o ->
  exists y',
    fit_point K mean sigma nsamp i j y = Ok y'
    /\ shape2 y' rows cols
    /\ forall b a,
         get2 y' b a
         = if ((b =? j) && (a =? i))%nat
           then peak_of K mean sigma nsamp i j (get2 y j i)
           else get2 y b a.
Proof.
  intros Hy Hj Hi Ho. rewrite fit_point_ladder, Ho. cbn [rbind].
  unfold peak_of. rewrite Ho. destruct o as [ v | ].
  - apply (store_in_range y rows cols j i v Hy Hj Hi).
  - exists y. split; [ reflexivity | ]. split; [ exact Hy | ].
    intros b a.
    destruct (Nat.eqb_spec b j) as [ -> | _ ]; [ | reflexivity ].
    destruct (Nat.eqb_spec a i) as [ -> | _ ]; reflexivity.
Qed.

(** A run of iterations none of which raises: every visited entry holds its
    peak, every other entry is untouched. *)
Lemma points_loop_ok (rows cols : nat) (ps : list (nat * nat)) :
  forall y : matrix,
    shape2 y rows cols ->
    NoDup ps ->
    (forall a b, In (a, b) ps -> (a < cols)%nat /\ (b < rows)%nat) ->
    (forall a b, In (a, b) ps -> exists o, ladder K mean sigma nsamp a b = Ok o) ->
    exists y',
      rfor ps (fit_step K mean sigma nsamp) y = Ok y'
      /\ shape2 y' rows cols
      /\ (forall a b, In (a, b) ps ->
                      get2 y' b a = peak_of K mean sigma nsamp a b (get2 y b a))
      /\ (forall a b, ~ In (a, b) ps -> get2 y' b a = get2 y b a).
Proof.
  induction ps as [ | [i j] ps IH ]; intros y Hy Hnd Hrange Hok.
  - exists y. split; [ reflexivity | ]. split; [ exact Hy | ].
    split; [ intros a b [] | reflexivity ].
  - inversion Hnd as [ | ? ? Hnin Hnd' ]; subst.
    destruct (Hrange i j (or_introl eq_refl)) as [Hi Hj].
    destruct (Hok i j (or_introl eq_refl)) as [o Ho].
    destruct (ladder_step y rows cols i j o Hy Hj Hi Ho) as (y1 & E1 & Hy1 & G1).
    destruct (IH y1 Hy1 Hnd'
                (fun a b H => Hrange a b (or_intror H))
                (fun a b H => Hok a b (or_intror H)))
      as (y' & E' & Hy' & Gin & Gout).
    exists y'. split.
    { cbn [rfor]. unfold fit_step at 1. cbn [fst snd]. rewrite E1. exact E'. }
    split; [ exact Hy' | ]. split.
    + intros a b [ E | Hin ].
      * injection E as <- <-. rewrite (Gout i j Hnin), G1, !Nat.eqb_refl.
        reflexivity.
      * rewrite (Gin a b Hin), G1.
        destruct (Nat.eqb_spec b j) as [ -> | _ ]; [ | reflexivity ].
        destruct (Nat.eqb_spec a i) as [ -> | _ ]; [ | reflexivity ].
        contradiction.
    + intros a b Hnot. rewrite (Gout a b (fun H => Hnot (or_intror H))), G1.
      destruct (Nat.eqb_spec b j) as [ -> | _ ]; [ | reflexivity ].
      destruct (Nat.eqb_spec a i) as [ -> | _ ]; [ | reflexivity ].
      exfalso. apply Hnot. left. reflexivity.
Qed.

(** The first iteration whose ladder raises ends the loop with its
    exception. *)
Lemma points_loop_abort (rows cols : nat) (pre post : list (nat * nat))
  (i j : nat) (e : exn) (y : matrix) :
  shape2 y rows cols ->
  NoDup pre ->
  (forall a b, In (a, b) pre -> (a < cols)%nat /\ (b < rows)%nat) ->
  (forall a b, In (a, b) pre -> exists o, ladder K mean sigma nsamp a b = Ok o) ->
  ladder K mean sigma nsamp i j = Raise e ->
  rfor (pre ++ (i, j) :: post) (fit_step K mean sigma nsamp) y = Raise e.
Proof.
  intros Hy Hnd Hrange Hok He.
  destruct (points_loop_ok rows cols pre y Hy Hnd Hrange Hok) as (y' & E & _).
  rewrite rfor_app, E. cbn [rbind rfor]. unfold fit_step at 1. cbn [fst snd].
  rewrite fit_point_ladder, He. reflexivity.
Qed.

End FitLoop.

(** C2 (as stated, refuted): when the weighted fit raises [ValueError] and
    the unweighted retry raises [ValueError] too, the exception leaves the
    fit loop and the whole parse of a well-formed file fails. *)
Lemma retry_value_error_aborts :
  fit_attempt degenerate_K [] (Some []) 2 0 0 = Raise ValueError
  /\ fit_attempt degenerate_K [] None 2 0 0 = Raise ValueError
  /\ fit_loop degenerate_K [] [] 1 2 = Raise ValueError
  /\ DataFormat_v1.parser degenerate_K (demo_fs demo_v1_file) "scan.dat" "entry"
     = Raise ValueError.
Proof.
  split; [ reflexivity | ]. split; [ reflexivity | ].
  split; [ vm_compute; reflexivity | vm_compute; reflexivity ].
Qed.

(** C2 (amended): at a point [(i, j)] where the weighted fit raises a
    [ValueError], the fit is retried without weights; if the retry succeeds
    its peak is [y[j][i]] at the end of the loop; if the retry raises a
    [LinAlgError] or a [RuntimeError], [y[j][i]] is zero at the end of the
    loop and the loop goes on; if the retry raises anything else, the loop
    ends with that exception. The other points are supposed not to raise. *)
Theorem fit_fallback_ladder (K : collab) (mean sigma : tensor3)
  (nstp nsamp : Z) (i j : nat) (e : exn)
  (Hi : (i < Z.to_nat nstp)%nat) (Hj : (j < 16)%nat)
  (Hweighted : fit_attempt K mean (Some sigma) nsamp i j = Raise e)
  (Hvalue : isinstance (linalg_is_value_error K) e CValueError = true)
  (Hothers : forall a b,
      (a < Z.to_nat nstp)%nat -> (b < 16)%nat -> (a, b) <> (i, j) ->
      exists o, ladder K mean sigma nsamp a b = Ok o) :
  match fit_attempt K mean None nsamp i j with
  | Ok v =>
      exists y, fit_loop K mean sigma nstp nsamp = Ok y /\ get2 y j i = v
  | Raise e' =>
      if isinstance (linalg_is_value_error K) e' CLinAlgError
         || isinstance (linalg_is_value_error K) e' CRuntimeError
      then exists y, fit_loop K mean sigma nstp nsamp = Ok y /\ get2 y j i = fzero
      else fit_loop K mean sigma nstp nsamp = Raise e'
  end.
Proof.
  assert (L : ladder K mean sigma nsamp i j
              = match fit_attempt K mean None nsamp i j with
                | Ok v => Ok (Some v)
                | Raise e' =>
                    if isinstance (linalg_is_value_error K) e' CLinAlgError
                       || isinstance (linalg_is_value_error K) e' CRuntimeError
                    then Ok None else Raise e'
                end).
  { unfold ladder. rewrite Hweighted, Hvalue.
    destruct (fit_attempt K mean None nsamp i j) as [ v | e' ]; [ reflexivity | ].
    destruct (isinstance (linalg_is_value_error K) e' CLinAlgError); reflexivity. }
  assert (Hin : In (i, j) (fit_points nstp)) by (apply fit_points_spec; auto).
  assert (Hrange : forall a b, In (a, b) (fit_points nstp) ->
                               (a < Z.to_nat nstp)%nat /\ (b < 16)%nat)
    by (intros a b; apply fit_points_spec).
  assert (Hall : forall o, ladder K mean sigma nsamp i j = Ok o ->
                 exists y, fit_loop K mean sigma nstp nsamp = Ok y
                           /\ get2 y j i = peak_of K mean sigma nsamp i j fzero).
  { intros o Ho.
    destruct (points_loop_ok K mean sigma nsamp 16 (Z.to_nat nstp)
                (fit_points nstp) (np_zeros2 16 (Z.to_nat nstp))
                (zeros_shape _ _) (fit_points_NoDup nstp) Hrange)
      as (y & E & _ & Gin & _).
    - intros a b Hab. destruct (Hrange a b Hab) as [Ha Hb].
      destruct (Nat.eq_dec a i) as [ -> | Na ];
        [ destruct (Nat.eq_dec b j) as [ -> | Nb ] | ].
      + exists o. exact Ho.
      + apply Hothers; auto. congruence.
      + apply Hothers; auto. congruence.
    - exists y. split; [ rewrite fit_loop_points; exact E | ].
      rewrite (Gin i j Hin), zeros_entry. reflexivity. }
  destruct (fit_attempt K mean None nsamp i j) as [ v | e' ].
  - destruct (Hall _ L) as (y & E & G). exists y. split; [ exact E | ].
    rewrite G. unfold peak_of. rewrite L. reflexivity.
  - destruct (isinstance (linalg_is_value_error K) e' CLinAlgError
              || isinstance (linalg_is_value_error K) e' CRuntimeError).
    + destruct (Hall _ L) as (y & E & G). exists y. split; [ exact E | ].
      rewrite G. unfold peak_of. rewrite L. reflexivity.
    + destruct (in_split _ _ Hin) as (pre & post & Esplit).
      pose proof (fit_points_NoDup nstp) as Hnd. rewrite Esplit in Hnd.
      rewrite fit_loop_points, Esplit.
      apply (points_loop_abort K mean sigma nsamp 16 (Z.to_nat nstp) pre post i j e');
        [ apply zeros_shape | exact (NoDup_app_remove_r _ _ Hnd) | | | exact L ].
      * intros a b Hab. apply Hrange. rewrite Esplit. apply in_or_app. left.
        exact Hab.
      * intros a b Hab.
        assert (Hab' : In (a, b) (fit_points nstp))
          by (rewrite Esplit; apply in_or_app; left; exact Hab).
        destruct (Hrange a b Hab') as [Ha Hb]. apply Hothers; auto.
        intro Eq. rewrite Eq in Hab.
        apply (NoDup_remove_2 _ _ _ Hnd). apply in_or_app. left. exact Hab.
Qed.

Lemma fit_fallback_ladder_witness :
  (exists y, fit_loop saturated_K [] [] 1 2 = Ok y /\ get2 y 0 0 = (float_of_Z 7))
  /\ (exists y, fit_loop stubborn_K [] [] 1 2 = Ok y /\ get2 y 0 0 = fzero).
Proof.
  split.
  - exact (fit_fallback_ladder saturated_K [] [] 1 2 0 0 ValueError
             (Nat.lt_0_succ 0) (Nat.lt_0_succ 15) eq_refl eq_refl
             (fun a b _ _ _ => ex_intro _ (Some (float_of_Z 7)) eq_refl)).
  - exact (fit_fallback_ladder stubborn_K [] [] 1 2 0 0 ValueError
             (Nat.lt_0_succ 0) (Nat.lt_0_succ 15) eq_refl eq_refl
             (fun a b _ _ _ => ex_intro _ None eq_refl)).
Defined.


(** ** Tokens and groups of a record *)

Lemma firstn_exact {A : Type} (n : nat) (l r : list A) :
  List.length l = n -> firstn n (l ++ r) = l.
Proof.
  intros <-. rewrite firstn_app, firstn_all, Nat.sub_diag. cbn.
  apply app_nil_r.
Qed.

Lemma skipn_exact {A : Type} (n : nat) (l r : list A) :
  List.length l = n -> skipn n (l ++ r) = r.
Proof.
  intros <-. rewrite skipn_app, skipn_all, Nat.sub_diag. reflexivity.
Qed.

(** The reader takes the tokens of the next [n] lines; past the end of the
    file the lines are empty and give no token. *)
Lemma read_tokens_spec (n : nat) :
  forall (raw : list string) (fp : stream),
    read_tokens n raw fp
    = (Ok (raw ++ flat_map (fun l => tokens (strip l)) (firstn n fp)), skipn n fp).
Proof.
  induction n as [ | n IH ]; intros raw fp.
  - cbn. rewrite app_nil_r. reflexivity.
  - destruct fp as [ | l fp ].
    + cbn [read_tokens]. unfold bind, readline. rewrite IH.
      rewrite firstn_nil, skipn_nil. cbn. rewrite !app_nil_r. reflexivity.
    + cbn [read_tokens]. unfold bind, readline. rewrite IH.
      cbn [firstn skipn flat_map]. rewrite app_assoc. reflexivity.
Qed.

Lemma grouper_spec (n : nat) (Hn : (0 < n)%nat) :
  forall (k fuel : nat) (raw : list string),
    (k * n <= List.length raw)%nat -> (List.length raw < S k * n)%nat ->
    (k <= fuel)%nat ->
    grouper n fuel raw = map (fun g => firstn n (skipn (g * n) raw)) (seq 0 k).
Proof.
  induction k as [ | k IH ]; intros fuel raw Hlo Hhi Hfuel.
  - destruct fuel as [ | fuel ]; [ reflexivity | ]. cbn [grouper seq map].
    assert (E : (List.length raw <? n)%nat = true) by (apply Nat.ltb_lt; lia).
    rewrite E, orb_true_r. reflexivity.
  - destruct fuel as [ | fuel ]; [ lia | ]. cbn [grouper].
    assert (E0 : (n =? 0)%nat = false) by (apply Nat.eqb_neq; lia).
    assert (E1 : (List.length raw <? n)%nat = false) by (apply Nat.ltb_ge; nia).
    rewrite E0, E1. cbn [orb].
    rewrite (IH fuel (skipn n raw)) by (rewrite ?length_skipn; nia || lia).
    cbn [seq map]. rewrite <- seq_shift, map_map. cbn [Nat.mul skipn].
    f_equal. apply map_ext. intro g. rewrite skipn_skipn.
    replace (g * n + n)%nat with (n + g * n)%nat by lia. reflexivity.
Qed.

Lemma zip_iter_spec (n k : nat) (raw : list string) :
  (0 < n)%nat ->
  (k * n <= List.length raw)%nat -> (List.length raw < S k * n)%nat ->
  zip_iter n raw = map (fun g => firstn n (skipn (g * n) raw)) (seq 0 k).
Proof.
  intros Hn Hlo Hhi. unfold zip_iter. apply grouper_spec; try assumption. nia.
Qed.

(** Tokens after the last complete group do not reach the decoder. *)
Lemma zip_iter_surplus (n k : nat) (raw extra : list string) :
  (0 < n)%nat -> List.length raw = (k * n)%nat -> (List.length extra < n)%nat ->
  zip_iter n (raw ++ extra) = zip_iter n raw.
Proof.
  intros Hn Hraw Hextra.
  rewrite (zip_iter_spec n k (raw ++ extra)), (zip_iter_spec n k raw);
    try assumption; rewrite ?length_app; try lia.
  apply map_ext_in. intros g Hg. apply in_seq in Hg.
  rewrite skipn_app, firstn_app, length_skipn.
  replace (n - (List.length raw - g * n))%nat with 0%nat by nia.
  cbn [firstn]. apply app_nil_r.
Qed.

Lemma firstn_plus {A : Type} (a b : nat) :
  forall l : list A, firstn (a + b) l = firstn a l ++ firstn b (skipn a l).
Proof.
  induction a as [ | a IH ]; intro l; [ reflexivity | ].
  destruct l as [ | x l ]; cbn [Nat.add firstn skipn app].
  - rewrite firstn_nil. reflexivity.
  - rewrite IH. reflexivity.
Qed.

Lemma concat_groups {A : Type} (n : nat) (raw : list A) (k : nat) :
  List.concat (map (fun g => firstn n (skipn (g * n) raw)) (seq 0 k))
  = firstn (k * n) raw.
Proof.
  induction k as [ | k IH ]; [ reflexivity | ].
  rewrite seq_S, map_app, concat_app, IH. cbn [map List.concat Nat.add].
  rewrite app_nil_r. replace (S k * n)%nat with (k * n + n)%nat by lia.
  rewrite firstn_plus. reflexivity.
Qed.

(** ** Decoding *)

Lemma rmap_ok (K : collab) (xs : list string) :
  (forall x, In x xs -> exists lh, split_dword K x = Ok lh) ->
  rmap (split_dword K) xs = Ok (map (decoded K) xs).
Proof.
  induction xs as [ | x xs IH ]; intro H; [ reflexivity | ].
  cbn [rmap map]. unfold decoded at 1.
  destruct (H x (or_introl eq_refl)) as [lh E]. rewrite E. cbn [rbind].
  rewrite IH by (intros x' Hx'; apply H; right; exact Hx'). reflexivity.
Qed.

Lemma rmap_raises {A B : Type} (f : A -> result B) (xs : list A) (e : exn) :
  rmap f xs = Raise e -> exists x, In x xs /\ f x = Raise e.
Proof.
  induction xs as [ | x xs IH ]; cbn [rmap]; [ discriminate | ].
  destruct (f x) as [ y | e0 ] eqn:E; cbn [rbind].
  - destruct (rmap f xs) as [ ys | e1 ]; cbn [rbind]; [ discriminate | ].
    intro H. injection H as ->.
    destruct (IH eq_refl) as (x' & Hin & Hx'). exists x'. split; [ right | ]; auto.
  - intro H. injection H as ->. exists x. split; [ left | ]; auto.
Qed.

Lemma decode_groups_ok (K : collab) (gs : list (list string)) :
  (forall g tok, In g gs -> In tok g -> exists lh, split_dword K tok = Ok lh) ->
  decode_groups K gs
  = Ok (flat_map (fun g => [map fst (map (decoded K) g);
                            map snd (map (decoded K) g)]) gs).
Proof.
  induction gs as [ | g gs IH ]; intro H; [ reflexivity | ].
  cbn [decode_groups flat_map]. unfold decode_group.
  rewrite (rmap_ok K g) by (intros x Hx; apply (H g x); [ left | ]; auto).
  cbn [rbind fst snd].
  rewrite IH by (intros g' tok Hg' Htok; apply (H g' tok); [ right | ]; auto).
  reflexivity.
Qed.

(** The decoder raises nothing of its own: an exception of [decode_groups]
    is the exception of [split_dword] on one of the tokens. *)
Lemma decode_groups_raises (K : collab) (gs : list (list string)) (e : exn) :
  decode_groups K gs = Raise e ->
  exists g tok, In g gs /\ In tok g /\ split_dword K tok = Raise e.
Proof.
  induction gs as [ | g gs IH ]; cbn [decode_groups]; [ discriminate | ].
  unfold decode_group.
  destruct (rmap (split_dword K) g) as [ ws | e0 ] eqn:E; cbn [rbind].
  - destruct (decode_groups K gs) as [ rest | e1 ]; cbn [rbind]; [ discriminate | ].
    intro H. injection H as ->.
    destruct (IH eq_refl) as (g' & tok & Hg' & Htok & Ht).
    exists g', tok. split; [ right | ]; auto.
  - intro H. injection H as ->.
    destruct (rmap_raises _ _ _ E) as (tok & Htok & Ht).
    exists g, tok. split; [ left | ]; auto.
Qed.

Lemma half_entry (K : collab) (n : nat) (raw : list string) (g s : nat)
  (pick : Z * Z -> Z) :
  (s < n)%nat -> (S g * n <= List.length raw)%nat ->
  nth s (map float_of_Z (map pick (map (decoded K) (firstn n (skipn (g * n) raw))))) fzero
  = float_of_Z (pick (decoded K (nth (g * n + s) raw ""))).
Proof.
  intros Hs Hlen. rewrite !map_map.
  rewrite (nth_indep _ fzero (float_of_Z (pick (decoded K "")))).
  - rewrite (map_nth (fun x => float_of_Z (pick (decoded K x)))).
    rewrite nth_firstn, nth_skipn.
    apply Nat.ltb_lt in Hs. rewrite Hs. reflexivity.
  - rewrite length_map, length_firstn, length_skipn. nia.
Qed.

Lemma half_length (K : collab) (n : nat) (raw : list string) (g : nat)
  (pick : Z * Z -> Z) :
  (S g * n <= List.length raw)%nat ->
  List.length (map float_of_Z (map pick (map (decoded K) (firstn n (skipn (g * n) raw)))))
  = n.
Proof.
  intro Hlen. rewrite !length_map, length_firstn, length_skipn. nia.
Qed.


Lemma In_firstn {A : Type} (n : nat) (l : list A) (x : A) :
  In x (firstn n l) -> In x l.
Proof.
  intro H. rewrite <- (firstn_skipn n l). apply in_or_app. left. exact H.
Qed.

Lemma In_skipn {A : Type} (n : nat) (l : list A) (x : A) :
  In x (skipn n l) -> In x l.
Proof.
  intro H. rewrite <- (firstn_skipn n l). apply in_or_app. right. exact H.
Qed.

(** ** One record *)

Lemma read_block_spec (K : collab) (ns : Z) (fp : stream) :
  read_block K ns fp
  = (decode_block K (Z.to_nat ns) (next_tokens (Z.to_nat ns) fp),
     skipn (Z.to_nat ns) fp).
Proof.
  unfold read_block, bind. rewrite read_tokens_spec. cbn [app].
  unfold lift, decode_block, next_tokens.
  destruct (decode_groups K _); reflexivity.
Qed.

(** Sixteen channels of tokens that decode give a block of sixteen rows of
    [n] entries, each entry the decoded half of its token. *)
Lemma block_well_formed (K : collab) (n : nat) (raw : list string) :
  (0 < n)%nat ->
  List.length raw = (8 * n)%nat ->
  (forall tok, In tok raw -> exists lh, split_dword K tok = Ok lh) ->
  exists blk,
    decode_block K n raw = Ok blk
    /\ List.length blk = 16%nat
    /\ forall c, (c < 16)%nat ->
         List.length (nth c blk []) = n
         /\ forall s, (s < n)%nat ->
              nth s (nth c blk []) fzero = float_of_Z (sample_of K n raw c s).
Proof.
  intros Hn Hlen Hdec. unfold decode_block.
  rewrite (zip_iter_spec n 8 raw) by lia.
  rewrite decode_groups_ok.
  2:{ intros g tok Hg Htok. apply in_map_iff in Hg. destruct Hg as (k & <- & _).
      apply Hdec. eapply In_skipn, In_firstn. exact Htok. }
  cbn [seq map flat_map app rbind]. unfold broadcast_block.
  cbn [List.length Nat.eqb].
  eexists. split; [ reflexivity | ]. split; [ reflexivity | ].
  intros c Hc.
  do 16 (destruct c as [ | c ];
         [ cbn [map nth]; split;
           [ apply half_length; lia
           | intros s Hs; rewrite half_entry by lia; reflexivity ]
         | ]).
  lia.
Qed.

Lemma read_record_well_formed (K : collab) (g : geometry) (lead : Z)
  (r : record_lines) (i j : nat) (data : tensor4) (rest : stream) :
  (0 < nsample g)%Z ->
  well_formed_record K g lead r ->
  (i < List.length data)%nat ->
  (j < List.length (nth i data []))%nat ->
  exists blk,
    decode_block K (Z.to_nat (nsample g)) (record_tokens r) = Ok blk
    /\ read_record K lead (front_of g) (back_of g) (nsample g) i j data
         (lines_of r ++ rest)
       = (Ok (set_nth data i (set_nth (nth i data []) j blk)), rest).
Proof.
  intros Hn (Hlead & Hfront & Hdata & Hback & Htrail & Htok & Hdec) Hi Hj.
  destruct (block_well_formed K (Z.to_nat (nsample g)) (record_tokens r))
    as (blk & Eblk & _); [ lia | exact Htok | exact Hdec | ].
  exists blk. split; [ exact Eblk | ].
  unfold read_record, lines_of. rewrite !bind_discard.
  rewrite <- !app_assoc.
  rewrite (skipn_exact _ (rl_lead r) _ Hlead).
  rewrite (skipn_exact _ (rl_front r) _ Hfront).
  unfold bind at 1. rewrite read_block_spec.
  unfold next_tokens.
  rewrite (firstn_exact _ (rl_data r) _ Hdata), (skipn_exact _ (rl_data r) _ Hdata).
  fold (record_tokens r). rewrite Eblk.
  rewrite bind_lift, (setitem2_in_range data i j blk [] Hi Hj).
  rewrite !bind_discard.
  rewrite (skipn_exact _ (rl_back r) _ Hback).
  change (Z.to_nat 2) with 2%nat.
  rewrite (skipn_exact 2 (rl_trail r) rest Htrail). reflexivity.
Qed.


(** ** The record loop *)

Lemma for_each_app {A S : Type} (xs ys : list A) (f : A -> S -> IO S) :
  forall s fp,
    for_each (xs ++ ys) f s fp = bind (for_each xs f s) (for_each ys f) fp.
Proof.
  induction xs as [ | x xs IH ]; intros s fp; [ reflexivity | ].
  cbn [for_each app]. unfold bind.
  destruct (f x s fp) as [[s1 | e] fp1]; [ | reflexivity ].
  rewrite IH. reflexivity.
Qed.

Lemma for_each_map {A B S : Type} (h : A -> B) (xs : list A)
  (f : B -> S -> IO S) :
  forall s fp, for_each (map h xs) f s fp = for_each xs (fun a => f (h a)) s fp.
Proof.
  induction xs as [ | x xs IH ]; intros s fp; [ reflexivity | ].
  cbn [for_each map]. unfold bind.
  destruct (f (h x) s fp) as [[s1 | e] fp1]; [ | reflexivity ].
  apply IH.
Qed.

Lemma for_each_nested {A B S : Type} (xs : list A) (ys : list B)
  (f : A -> B -> S -> IO S) :
  forall s fp,
    for_each xs (fun a s => for_each ys (fun b s => f a b s) s) s fp
    = for_each (list_prod xs ys) (fun p s => f (fst p) (snd p) s) s fp.
Proof.
  induction xs as [ | x xs IH ]; intros s fp; [ reflexivity | ].
  cbn [for_each list_prod]. rewrite for_each_app. unfold bind.
  rewrite for_each_map. cbn [fst snd].
  destruct (for_each ys (fun b s0 => f x b s0) s fp) as [[s1 | e] fp1];
    [ | reflexivity ].
  apply IH.
Qed.

Lemma read_body_points (K : collab) (lead : nat -> nat -> Z) (g : geometry)
  (fp : stream) :
  read_body K lead g fp
  = bind (lift (np_zeros4 (nstep g) (ntrial g) 16 (nsample g)))
         (for_each (record_points (Z.to_nat (nstep g)) (Z.to_nat (ntrial g)))
                   (record_step K lead g)) fp.
Proof.
  unfold read_body. rewrite !bind_lift.
  destruct (np_zeros4 (nstep g) (ntrial g) 16 (nsample g)) as [ data | e ];
    [ | reflexivity ].
  unfold range, record_points, record_step.
  exact (for_each_nested (seq 0 (Z.to_nat (nstep g))) (seq 0 (Z.to_nat (ntrial g)))
           (fun i j d =>
              read_record K (lead i j) (front_of g) (back_of g) (nsample g) i j d)
           data fp).
Qed.

Lemma set2_spec {A : Type} (arr : list (list A)) (i j : nat) (v d : A) :
  (i < List.length arr)%nat ->
  (j < List.length (nth i arr []))%nat ->
  List.length (set_nth arr i (set_nth (nth i arr []) j v)) = List.length arr
  /\ (forall i',
        List.length (nth i' (set_nth arr i (set_nth (nth i arr []) j v)) [])
        = List.length (nth i' arr []))
  /\ (forall i' j',
        nth j' (nth i' (set_nth arr i (set_nth (nth i arr []) j v)) []) d
        = if ((i' =? i) && (j' =? j))%nat then v else nth j' (nth i' arr []) d).
Proof.
  intros Hi Hj. split; [ apply length_set_nth | ]. split.
  - intro i'. rewrite (nth_set_nth arr i i' _ [] Hi).
    destruct (Nat.eqb_spec i' i) as [ -> | _ ]; [ apply length_set_nth | reflexivity ].
  - intros i' j'. rewrite (nth_set_nth arr i i' _ [] Hi).
    destruct (Nat.eqb_spec i' i) as [ -> | _ ]; cbn [andb]; [ | reflexivity ].
    apply nth_set_nth. exact Hj.
Qed.

(** A run of well-formed records: the loop consumes exactly their lines,
    stores the block of every record at its place and touches no other. *)
Lemma records_loop (K : collab) (lead : nat -> nat -> Z) (g : geometry)
  (rec_at : nat -> nat -> record_lines) (Hn : (0 < nsample g)%Z)
  (pts : list (nat * nat)) :
  forall (data : tensor4) (rest : stream),
    NoDup pts ->
    (forall i j, In (i, j) pts ->
                 (i < List.length data)%nat /\ (j < List.length (nth i data []))%nat) ->
    (forall i j, In (i, j) pts -> well_formed_record K g (lead i j) (rec_at i j)) ->
    exists data',
      for_each pts (record_step K lead g) data
        (flat_map (fun p => lines_of (rec_at (fst p) (snd p))) pts ++ rest)
      = (Ok data', rest)
      /\ List.length data' = List.length data
      /\ (forall i, List.length (nth i data' []) = List.length (nth i data []))
      /\ (forall i j, In (i, j) pts ->
            decode_block K (Z.to_nat (nsample g)) (record_tokens (rec_at i j))
            = Ok (nth j (nth i data' []) []))
      /\ (forall i j, ~ In (i, j) pts ->
            nth j (nth i data' []) [] = nth j (nth i data []) []).
Proof.
  induction pts as [ | [i j] pts IH ]; intros data rest Hnd Hrange Hwf.
  - exists data. split; [ reflexivity | ]. split; [ reflexivity | ].
    split; [ reflexivity | ]. split; [ intros a b [] | reflexivity ].
  - inversion Hnd as [ | ? ? Hnin Hnd' ]; subst.
    destruct (Hrange i j (or_introl eq_refl)) as [Hi Hj].
    destruct (read_record_well_formed K g (lead i j) (rec_at i j) i j data
                (flat_map (fun p => lines_of (rec_at (fst p) (snd p))) pts ++ rest)
                Hn (Hwf i j (or_introl eq_refl)) Hi Hj) as (blk & Eblk & Erec).
    destruct (set2_spec data i j blk [] Hi Hj) as (L1 & L2 & L3).
    set (data1 := set_nth data i (set_nth (nth i data []) j blk)) in *.
    destruct (IH data1 rest Hnd') as (data' & E' & L1' & L2' & Gin & Gout).
    { intros a b Hab. rewrite L1, L2. apply Hrange. right. exact Hab. }
    { intros a b Hab. apply Hwf. right. exact Hab. }
    exists data'. split.
    { cbn [for_each flat_map fst snd]. unfold bind, record_step at 1.
      cbn [fst snd]. rewrite <- app_assoc, Erec. exact E'. }
    split; [ rewrite L1'; exact L1 | ].
    split; [ intro a; rewrite L2'; apply L2 | ].
    split.
    + intros a b [ E | Hin ].
      * injection E as <- <-. rewrite (Gout i j Hnin), L3, !Nat.eqb_refl.
        exact Eblk.
      * apply Gin. exact Hin.
    + intros a b Hnot. rewrite (Gout a b (fun H => Hnot (or_intror H))), L3.
      destruct (Nat.eqb_spec a i) as [ -> | _ ]; [ | reflexivity ].
      destruct (Nat.eqb_spec b j) as [ -> | _ ]; [ | reflexivity ].
      exfalso. apply Hnot. left. reflexivity.
Qed.

Lemma record_points_spec (nstp ntr i j : nat) :
  In (i, j) (record_points nstp ntr) <-> (i < nstp)%nat /\ (j < ntr)%nat.
Proof. unfold record_points. rewrite in_prod_iff, !in_seq. lia. Qed.

Lemma zeros4_spec (a b c d : Z) :
  (0 <= a)%Z -> (0 <= b)%Z -> (0 <= c)%Z -> (0 <= d)%Z ->
  exists data,
    np_zeros4 a b c d = Ok data
    /\ List.length data = Z.to_nat a
    /\ forall i, (i < Z.to_nat a)%nat -> List.length (nth i data []) = Z.to_nat b.
Proof.
  intros Ha Hb Hc Hd. unfold np_zeros4.
  assert (E : ((a <? 0) || (b <? 0) || (c <? 0) || (d <? 0))%Z = false).
  { repeat (apply orb_false_intro); apply Z.ltb_ge; assumption. }
  rewrite E. eexists. split; [ reflexivity | ].
  split; [ apply repeat_length | ].
  intros i Hi. rewrite nth_repeat_lt by exact Hi. apply repeat_length.
Qed.

(** The reader on a well-formed body. *)
Lemma read_body_well_formed (K : collab) (lead : nat -> nat -> Z) (g : geometry)
  (rec_at : nat -> nat -> record_lines) (rest : stream) :
  (0 <= nstep g)%Z -> (0 <= ntrial g)%Z -> (0 < nsample g)%Z ->
  (forall i j, (i < Z.to_nat (nstep g))%nat -> (j < Z.to_nat (ntrial g))%nat ->
               well_formed_record K g (lead i j) (rec_at i j)) ->
  exists data,
    read_body K lead g
      (body_lines (Z.to_nat (nstep g)) (Z.to_nat (ntrial g)) rec_at ++ rest)
    = (Ok data, rest)
    /\ decoded_tensor K g rec_at data.
Proof.
  intros Hs Ht Hn Hwf. rewrite read_body_points, bind_lift.
  destruct (zeros4_spec (nstep g) (ntrial g) 16 (nsample g))
    as (zeros & Ez & Lz & Rz); try lia.
  rewrite Ez.
  destruct (records_loop K lead g rec_at Hn
              (record_points (Z.to_nat (nstep g)) (Z.to_nat (ntrial g)))
              zeros rest)
    as (data & E & L1 & L2 & Gin & _).
  { apply NoDup_list_prod; apply seq_NoDup. }
  { intros i j Hij. apply record_points_spec in Hij. destruct Hij as [Hi Hj].
    rewrite Lz, (Rz i Hi). auto. }
  { intros i j Hij. apply record_points_spec in Hij. apply Hwf; tauto. }
  exists data. split; [ exact E | ].
  assert (B : forall i j,
             (i < Z.to_nat (nstep g))%nat -> (j < Z.to_nat (ntrial g))%nat ->
             List.length (nth j (nth i data []) []) = 16%nat
             /\ forall c, (c < 16)%nat ->
                  List.length (nth c (nth j (nth i data []) []) [])
                  = Z.to_nat (nsample g)
                  /\ forall s, (s < Z.to_nat (nsample g))%nat ->
                       get4 data i j c s
                       = float_of_Z (sample_of K (Z.to_nat (nsample g))
                                (record_tokens (rec_at i j)) c s)).
  { intros i j Hi Hj.
    destruct (Hwf i j Hi Hj) as (_ & _ & _ & _ & _ & Htok & Hdec).
    destruct (block_well_formed K (Z.to_nat (nsample g))
                (record_tokens (rec_at i j))) as (blk & Eblk & Lblk & Cblk);
      [ lia | exact Htok | exact Hdec | ].
    assert (Hin : In (i, j) (record_points (Z.to_nat (nstep g)) (Z.to_nat (ntrial g))))
      by (apply record_points_spec; auto).
    pose proof (Gin i j Hin) as Eq. rewrite Eblk in Eq. injection Eq as Eq.
    unfold get4. rewrite <- Eq. split; [ exact Lblk | exact Cblk ]. }
  split.
  - split; [ rewrite L1; exact Lz | ].
    intros i Hi. split; [ rewrite L2; exact (Rz i Hi) | ].
    intros j Hj. destruct (B i j Hi Hj) as [B1 B2]. split; [ exact B1 | ].
    intros k Hk. exact (proj1 (B2 k Hk)).
  - intros i j c s Hi Hj Hc Hlt. destruct (B i j Hi Hj) as [_ B2].
    exact (proj2 (B2 c Hc) s Hlt).
Qed.


(** ** The raw tensor *)

(** C7: on a file whose header is read and announces the geometry [g], and
    whose body is laid out as [g] says, with sixteen channels of decodable
    tokens in every record, [output='raw'] returns a tensor of shape
    [(nstep, ntrial, 16, nsample)]; every entry is the decoded half of its
    token, so an entry is zero only where that half is zero. *)
Theorem raw_output_is_decoded_tensor (K : collab) (raw : string) (g : geometry)
  (rec_at : nat -> nat -> record_lines) (rest : stream)
  (Hs : (0 <= nstep g)%Z) (Ht : (0 <= ntrial g)%Z) (Hn : (0 < nsample g)%Z) :
  (forall fp entry,
      DataFormat_v1.header K raw fp
      = (Ok entry,
         body_lines (Z.to_nat (nstep g)) (Z.to_nat (ntrial g)) rec_at ++ rest) ->
      geometry_of entry = Ok g ->
      (forall i j, (i < Z.to_nat (nstep g))%nat -> (j < Z.to_nat (ntrial g))%nat ->
                   well_formed_record K g (DataFormat_v1.lead i j) (rec_at i j)) ->
      exists data,
        DataFormat_v1.parser_io K raw "raw" fp = (Ok (OutRaw data), rest)
        /\ decoded_tensor K g rec_at data
        /\ forall i j c s,
             (i < Z.to_nat (nstep g))%nat -> (j < Z.to_nat (ntrial g))%nat ->
             (c < 16)%nat -> (s < Z.to_nat (nsample g))%nat ->
             get4 data i j c s = fzero ->
             sample_of K (Z.to_nat (nsample g)) (record_tokens (rec_at i j)) c s
             = 0%Z)
  /\ (forall fp entry tempDict,
        DataFormat_v2.header K raw fp
        = (Ok (entry, tempDict),
           body_lines (Z.to_nat (nstep g)) (Z.to_nat (ntrial g)) rec_at ++ rest) ->
        geometry_of entry = Ok g ->
        (forall i j, (i < Z.to_nat (nstep g))%nat -> (j < Z.to_nat (ntrial g))%nat ->
                     well_formed_record K g (DataFormat_v2.lead i j) (rec_at i j)) ->
        exists data,
          DataFormat_v2.parser_io K raw "raw" fp = (Ok (OutRaw data), rest)
          /\ decoded_tensor K g rec_at data
          /\ forall i j c s,
               (i < Z.to_nat (nstep g))%nat -> (j < Z.to_nat (ntrial g))%nat ->
               (c < 16)%nat -> (s < Z.to_nat (nsample g))%nat ->
               get4 data i j c s = fzero ->
               sample_of K (Z.to_nat (nsample g)) (record_tokens (rec_at i j)) c s
               = 0%Z).
Proof.
  assert (Z0 : forall data,
             decoded_tensor K g rec_at data ->
             forall i j c s,
               (i < Z.to_nat (nstep g))%nat -> (j < Z.to_nat (ntrial g))%nat ->
               (c < 16)%nat -> (s < Z.to_nat (nsample g))%nat ->
               get4 data i j c s = fzero ->
               sample_of K (Z.to_nat (nsample g)) (record_tokens (rec_at i j)) c s
               = 0%Z).
  { intros data [_ Hent] i j c s Hi Hj Hc Hlt Hzero.
    rewrite (Hent i j c s Hi Hj Hc Hlt) in Hzero. apply float_of_Z_zero. exact Hzero. }
  split.
  - intros fp entry Hhdr Hg Hwf.
    destruct (read_body_well_formed K DataFormat_v1.lead g rec_at rest Hs Ht Hn Hwf)
      as (data & E & D).
    exists data. split; [ | split; [ exact D | exact (Z0 data D) ] ].
    unfold DataFormat_v1.parser_io. unfold bind at 1. rewrite Hhdr.
    rewrite bind_lift, Hg. unfold bind at 1. rewrite E. reflexivity.
  - intros fp entry tempDict Hhdr Hg Hwf.
    destruct (read_body_well_formed K DataFormat_v2.lead g rec_at rest Hs Ht Hn Hwf)
      as (data & E & D).
    exists data. split; [ | split; [ exact D | exact (Z0 data D) ] ].
    unfold DataFormat_v2.parser_io. unfold bind at 1. rewrite Hhdr.
    cbn [fst snd]. rewrite bind_lift, Hg. unfold bind at 1. rewrite E. reflexivity.
Qed.


Lemma demo_record_well_formed (lead : Z) (seps : list string) :
  List.length seps = Z.to_nat lead ->
  well_formed_record demo_K demo_g lead (demo_record seps demo_data).
Proof.
  intro H. unfold well_formed_record.
  split; [ exact H | ].
  split; [ reflexivity | ]. split; [ reflexivity | ]. split; [ reflexivity | ].
  split; [ reflexivity | ]. split; [ reflexivity | ].
  intros tok Hin. vm_compute in Hin.
  repeat (destruct Hin as [ <- | Hin ]; [ eexists; vm_compute; reflexivity | ]).
  contradiction.
Defined.

Lemma raw_output_is_decoded_tensor_witness :
  (exists data,
      DataFormat_v1.parser_io demo_K "scan.dat" "raw" demo_v1_file
      = (Ok (OutRaw data), [])
      /\ decoded_tensor demo_K demo_g (fun _ _ => demo_record ["="; "="] demo_data) data)
  /\ (exists data,
        DataFormat_v2.parser_io demo_K "scan.dat" "raw" demo_v2_file
        = (Ok (OutRaw data), [])
        /\ decoded_tensor demo_K demo_g (fun _ _ => demo_record ["="] demo_data) data).
Proof.
  split.
  - destruct (proj1 (raw_output_is_decoded_tensor demo_K "scan.dat" demo_g
                       (fun _ _ => demo_record ["="; "="] demo_data) []
                       (Z.le_0_1) (Z.le_0_1) (Z.lt_0_2))
                demo_v1_file
                [PStr "scan.dat"; PStr "board 0x70"; PInt 16; PInt 1; PInt 1;
                 PInt 0; PInt 2])
      as (data & E & D & _).
    + vm_compute. reflexivity.
    + reflexivity.
    + intros i j _ _. apply demo_record_well_formed. reflexivity.
    + exists data. split; [ exact E | exact D ].
  - destruct (proj2 (raw_output_is_decoded_tensor demo_K "scan.dat" demo_g
                       (fun _ _ => demo_record ["="] demo_data) []
                       (Z.le_0_1) (Z.le_0_1) (Z.lt_0_2))
                demo_v2_file
                [PStr "scan.dat"; PStr "0x70"; PInt 16; PInt 1; PInt 1;
                 PInt 10; PInt 2]
                (header_dict ("BOARDID:0x70" :: demo_v2_keys)))
      as (data & E & D & _).
    + vm_compute. reflexivity.
    + reflexivity.
    + intros i j Hi Hj. apply demo_record_well_formed.
      destruct i as [ | i ]; [ destruct j as [ | j ]; [ reflexivity | ] | ];
        exfalso; cbn in Hi, Hj; lia.
    + exists data. split; [ exact E | exact D ].
Defined.


(** ** Malformed records *)

Lemma broadcast_block_raises (n : nat) (channels : list (list Z)) (e : exn) :
  broadcast_block n channels = Raise e -> e = ValueError.
Proof.
  unfold broadcast_block.
  destruct (List.length channels =? 16)%nat; [ discriminate | ].
  destruct (List.length channels =? 1)%nat; [ discriminate | ].
  destruct ((List.length channels =? 0) && (n =? 0))%nat; [ discriminate | ].
  intro H. injection H as <-. reflexivity.
Qed.

Lemma grouper_In (n fuel : nat) :
  forall (raw g : list string) (tok : string),
    In g (grouper n fuel raw) -> In tok g -> In tok raw.
Proof.
  induction fuel as [ | fuel IH ]; intros raw g tok Hg Htok; [ contradiction | ].
  cbn [grouper] in Hg.
  destruct ((n =? 0) || (List.length raw <? n))%nat; [ contradiction | ].
  destruct Hg as [ <- | Hg ].
  - eapply In_firstn. exact Htok.
  - eapply In_skipn. eapply IH; eassumption.
Qed.

(** The reader raises nothing but numpy's [ValueError] for a wrong number
    of channels, and what [split_dword] raises on a token. *)
Lemma decode_block_raises (K : collab) (n : nat) (raw : list string) (e : exn) :
  decode_block K n raw = Raise e ->
  e = ValueError \/ exists tok, In tok raw /\ split_dword K tok = Raise e.
Proof.
  unfold decode_block.
  destruct (decode_groups K (zip_iter n raw)) as [ channels | e0 ] eqn:E;
    cbn [rbind]; intro H.
  - left. eapply broadcast_block_raises. exact H.
  - injection H as ->. right.
    destruct (decode_groups_raises K _ _ E) as (g & tok & Hg & Htok & Ht).
    exists tok. split; [ | exact Ht ].
    eapply grouper_In; eassumption.
Qed.

Lemma length_pairs {A B : Type} (a b : A -> B) (xs : list A) :
  List.length (flat_map (fun x => [a x; b x]) xs) = (2 * List.length xs)%nat.
Proof.
  induction xs as [ | x xs IH ]; [ reflexivity | ].
  cbn [flat_map app List.length]. rewrite IH. lia.
Qed.

(** With tokens that all decode, a record is accepted exactly when it holds
    eight complete groups of [n] tokens. *)
Lemma decode_block_by_count (K : collab) (n k : nat) (raw : list string) :
  (0 < n)%nat ->
  (k * n <= List.length raw)%nat -> (List.length raw < S k * n)%nat ->
  (forall tok, In tok raw -> exists lh, split_dword K tok = Ok lh) ->
  (k = 8%nat -> exists blk, decode_block K n raw = Ok blk)
  /\ (k <> 8%nat -> decode_block K n raw = Raise ValueError).
Proof.
  intros Hn Hlo Hhi Hdec. unfold decode_block.
  rewrite (zip_iter_spec n k raw Hn Hlo Hhi).
  rewrite decode_groups_ok.
  2:{ intros g tok Hg Htok. apply in_map_iff in Hg. destruct Hg as (m & <- & _).
      apply Hdec. eapply In_skipn, In_firstn. exact Htok. }
  cbn [rbind]. unfold broadcast_block.
  rewrite length_pairs, length_map, length_seq.
  split.
  - intros ->. cbn [Nat.mul Nat.add Nat.eqb]. eexists. reflexivity.
  - intro Hk.
    assert (E16 : (2 * k =? 16)%nat = false) by (apply Nat.eqb_neq; lia).
    assert (E1 : (2 * k =? 1)%nat = false) by (apply Nat.eqb_neq; lia).
    assert (E0 : (n =? 0)%nat = false) by (apply Nat.eqb_neq; lia).
    rewrite E16, E1, E0, andb_false_r. reflexivity.
Qed.

Lemma decode_block_surplus (K : collab) (n : nat) (raw extra : list string) :
  (0 < n)%nat -> List.length raw = (8 * n)%nat -> (List.length extra < n)%nat ->
  decode_block K n (raw ++ extra) = decode_block K n raw.
Proof.
  intros Hn Hraw Hextra. unfold decode_block.
  rewrite (zip_iter_surplus n 8 raw extra Hn Hraw Hextra). reflexivity.
Qed.

(** A record whose block cannot be read ends the record loop, after the
    well-formed records before it, with the exception of the block. *)
Lemma read_body_abort (K : collab) (lead : nat -> nat -> Z) (g : geometry)
  (rec_at : nat -> nat -> record_lines) (pre post : list (nat * nat))
  (i j : nat) (seps fronts tail : list string) (e : exn) :
  (0 <= nstep g)%Z -> (0 <= ntrial g)%Z -> (0 < nsample g)%Z ->
  record_points (Z.to_nat (nstep g)) (Z.to_nat (ntrial g)) = pre ++ (i, j) :: post ->
  (forall a b, In (a, b) pre -> well_formed_record K g (lead a b) (rec_at a b)) ->
  List.length seps = Z.to_nat (lead i j) ->
  List.length fronts = Z.to_nat (front_of g) ->
  decode_block K (Z.to_nat (nsample g)) (next_tokens (Z.to_nat (nsample g)) tail)
  = Raise e ->
  read_body K lead g
    (flat_map (fun p => lines_of (rec_at (fst p) (snd p))) pre
     ++ seps ++ fronts ++ tail)
  = (Raise e, skipn (Z.to_nat (nsample g)) tail).
Proof.
  intros Hs Ht Hn Hpts Hwf Hseps Hfronts Hbad.
  rewrite read_body_points, bind_lift.
  destruct (zeros4_spec (nstep g) (ntrial g) 16 (nsample g))
    as (zeros & Ez & Lz & Rz); try lia.
  rewrite Ez, Hpts.
  assert (Hnd : NoDup (pre ++ (i, j) :: post)).
  { rewrite <- Hpts. apply NoDup_list_prod; apply seq_NoDup. }
  destruct (records_loop K lead g rec_at Hn pre zeros (seps ++ fronts ++ tail))
    as (data & E & _).
  { exact (NoDup_app_remove_r _ _ Hnd). }
  { intros a b Hab.
    assert (Hin : In (a, b) (record_points (Z.to_nat (nstep g)) (Z.to_nat (ntrial g))))
      by (rewrite Hpts; apply in_or_app; left; exact Hab).
    apply record_points_spec in Hin. destruct Hin as [Ha Hb].
    rewrite Lz, (Rz a Ha). auto. }
  { exact Hwf. }
  rewrite for_each_app. unfold bind at 1. rewrite E.
  cbn [for_each]. unfold bind at 1. unfold record_step at 1. cbn [fst snd].
  unfold read_record. rewrite !bind_discard.
  rewrite (skipn_exact _ seps _ Hseps), (skipn_exact _ fronts _ Hfronts).
  unfold bind at 1. rewrite read_block_spec, Hbad. reflexivity.
Qed.

(** The tokens that reach the decoder are those of the complete groups. *)
Lemma zip_iter_all (n : nat) (raw : list string) :
  (0 < n)%nat ->
  zip_iter n raw
  = map (fun g => firstn n (skipn (g * n) raw)) (seq 0 (List.length raw / n)).
Proof.
  intro Hn. apply zip_iter_spec; [ exact Hn | | ].
  - rewrite Nat.mul_comm. apply Nat.Div0.mul_div_le.
  - pose proof (Nat.div_mod_eq (List.length raw) n) as E.
    pose proof (Nat.mod_upper_bound (List.length raw) n) as U. nia.
Qed.

Lemma concat_zip_iter (n : nat) (raw : list string) :
  (0 < n)%nat -> List.concat (zip_iter n raw) = grouped_tokens n raw.
Proof.
  intro Hn. rewrite (zip_iter_all n raw Hn). apply concat_groups.
Qed.

Lemma rmap_app {A B : Type} (f : A -> result B) (xs ys : list A) :
  rmap f (xs ++ ys)
  = (a <-- rmap f xs ;; b <-- rmap f ys ;; Ok (a ++ b)).
Proof.
  induction xs as [ | x xs IH ]; cbn [app rmap rbind].
  - destruct (rmap f ys); reflexivity.
  - destruct (f x) as [ y | e ]; cbn [rbind]; [ | reflexivity ].
    rewrite IH. destruct (rmap f xs) as [ a | e ]; cbn [rbind]; [ | reflexivity ].
    destruct (rmap f ys); reflexivity.
Qed.

(** The groups are decoded token after token, in reading order: the
    decoder fails where [split_dword] first fails, and gives two channels
    for every group otherwise. *)
Lemma decode_groups_concat (K : collab) (gs : list (list string)) :
  match rmap (split_dword K) (List.concat gs) with
  | Ok _ =>
      exists channels,
        decode_groups K gs = Ok channels
        /\ List.length channels = (2 * List.length gs)%nat
  | Raise e => decode_groups K gs = Raise e
  end.
Proof.
  induction gs as [ | g gs IH ].
  - cbn. exists []. split; reflexivity.
  - cbn [List.concat decode_groups]. rewrite rmap_app. unfold decode_group.
    destruct (rmap (split_dword K) g) as [ ws | e ]; cbn [rbind]; [ | reflexivity ].
    destruct (rmap (split_dword K) (List.concat gs)) as [ rest | e ]; cbn [rbind].
    + destruct IH as (channels & -> & L). cbn [rbind].
      eexists. split; [ reflexivity | ]. cbn [List.length fst snd]. lia.
    + rewrite IH. reflexivity.
Qed.

Lemma rmap_first_refused (K : collab) (good more : list string) (bad : string)
  (e : exn) :
  (forall t, In t good -> exists lh, split_dword K t = Ok lh) ->
  split_dword K bad = Raise e ->
  rmap (split_dword K) (good ++ bad :: more) = Raise e.
Proof.
  intros Hgood Hbad. rewrite rmap_app, (rmap_ok K good Hgood). cbn [rbind rmap].
  rewrite Hbad. reflexivity.
Qed.

(** A refused token in a complete group: the block fails with the
    exception of [split_dword] on the first such token. *)
Lemma decode_block_refused (K : collab) (n : nat) (raw good more : list string)
  (bad : string) (e : exn) :
  (0 < n)%nat ->
  grouped_tokens n raw = good ++ bad :: more ->
  (forall t, In t good -> exists lh, split_dword K t = Ok lh) ->
  split_dword K bad = Raise e ->
  decode_block K n raw = Raise e.
Proof.
  intros Hn Hg Hgood Hbad. unfold decode_block.
  pose proof (decode_groups_concat K (zip_iter n raw)) as D.
  rewrite (concat_zip_iter n raw Hn), Hg,
    (rmap_first_refused K good more bad e Hgood Hbad) in D.
  rewrite D. reflexivity.
Qed.

(** No refused token in the complete groups: the block is accepted exactly
    when there are eight of them, and then the tokens after the eighth
    group, whatever they are, do not count. *)
Lemma decode_block_counted (K : collab) (n : nat) (raw : list string) :
  (0 < n)%nat ->
  (forall t, In t (grouped_tokens n raw) -> exists lh, split_dword K t = Ok lh) ->
  ((List.length raw / n)%nat = 8%nat ->
   exists blk,
     decode_block K n raw = Ok blk
     /\ decode_block K n (firstn (8 * n) raw) = Ok blk)
  /\ ((List.length raw / n)%nat <> 8%nat -> decode_block K n raw = Raise ValueError).
Proof.
  intros Hn Hdec.
  pose proof (decode_groups_concat K (zip_iter n raw)) as D.
  rewrite (concat_zip_iter n raw Hn), (rmap_ok K _ Hdec) in D.
  destruct D as (channels & E & L).
  rewrite (zip_iter_all n raw Hn), length_map, length_seq in L.
  split.
  - intro H8.
    assert (B : exists blk, decode_block K n raw = Ok blk).
    { unfold decode_block. rewrite E. cbn [rbind]. unfold broadcast_block.
      rewrite L, H8. cbn [Nat.mul Nat.add Nat.eqb]. eexists. reflexivity. }
    destruct B as [blk B]. exists blk. split; [ exact B | ].
    rewrite <- B. rewrite <- (firstn_skipn (8 * n) raw) at 2.
    symmetry. apply decode_block_surplus; [ exact Hn | | ].
    + pose proof (Nat.Div0.mul_div_le (List.length raw) n) as M.
      rewrite length_firstn. nia.
    + pose proof (Nat.div_mod_eq (List.length raw) n) as M.
      pose proof (Nat.mod_upper_bound (List.length raw) n) as U.
      rewrite length_skipn. nia.
  - intro H8. unfold decode_block. rewrite E. cbn [rbind]. unfold broadcast_block.
    rewrite L.
    assert (E16 : (2 * (List.length raw / n) =? 16)%nat = false)
      by (apply Nat.eqb_neq; lia).
    assert (E1 : (2 * (List.length raw / n) =? 1)%nat = false)
      by (apply Nat.eqb_neq; lia).
    assert (E0 : (n =? 0)%nat = false) by (apply Nat.eqb_neq; lia).
    rewrite E16, E1, E0, andb_false_r. reflexivity.
Qed.

(** Lines that are missing at the end of the file are read as empty lines. *)
Lemma next_tokens_eof (n : nat) (fp : stream) :
  next_tokens n fp = next_tokens n (fp ++ repeat "" n).
Proof.
  unfold next_tokens. rewrite firstn_app, flat_map_app.
  assert (Z0 : forall l : list string,
             Forall (fun x => x = "") l ->
             flat_map (fun l0 => tokens (strip l0)) l = []).
  { induction l as [ | x l IH ]; intro H; [ reflexivity | ].
    inversion H as [ | ? ? Hx Hl ]; subst. cbn [flat_map]. rewrite (IH Hl).
    reflexivity. }
  rewrite (Z0 (firstn (n - List.length fp) (repeat "" n))).
  - symmetry. apply app_nil_r.
  - apply Forall_forall. intros x Hx. apply In_firstn in Hx.
    apply repeat_spec in Hx. exact Hx.
Qed.

(** C3 (as stated, refuted): a record with one token more than its sixteen
    is parsed to the same tensor as the record without it, even when the
    further token is no number; a record two tokens short, and a file that
    ends inside the data lines, fail with numpy's [ValueError]; a token
    that is no number among the sixteen fails with the [ValueError] of the
    word splitter. A [ValueError] is not a [DataParseError]. *)
Lemma malformed_record_no_parse_error :
  List.length (record_tokens (demo_record ["="; "="] surplus_data)) = 17%nat
  /\ (exists data,
        DataFormat_v1.parser demo_K (demo_fs surplus_v1_file) "scan.dat" "raw"
        = Ok (OutRaw data))
  /\ DataFormat_v1.parser demo_K (demo_fs surplus_v1_file) "scan.dat" "raw"
     = DataFormat_v1.parser demo_K (demo_fs demo_v1_file) "scan.dat" "raw"
  /\ split_dword demo_K "zz" = Raise ValueError
  /\ DataFormat_v1.parser demo_K (demo_fs refused_surplus_v1_file) "scan.dat" "raw"
     = DataFormat_v1.parser demo_K (demo_fs demo_v1_file) "scan.dat" "raw"
  /\ DataFormat_v1.parser demo_K (demo_fs refused_v1_file) "scan.dat" "raw"
     = Raise ValueError
  /\ DataFormat_v1.parser demo_K (demo_fs short_v1_file) "scan.dat" "raw"
     = Raise ValueError
  /\ DataFormat_v1.parser demo_K (demo_fs truncated_v1_file) "scan.dat" "raw"
     = Raise ValueError
  /\ (forall sub, isinstance sub ValueError CDataParseError = false).
Proof.
  split; [ vm_compute; reflexivity | ].
  split; [ eexists; vm_compute; reflexivity | ].
  split; [ vm_compute; reflexivity | ].
  split; [ vm_compute; reflexivity | ].
  split; [ vm_compute; reflexivity | ].
  split; [ vm_compute; reflexivity | ].
  split; [ vm_compute; reflexivity | ].
  split; [ vm_compute; reflexivity | ].
  intro sub. reflexivity.
Qed.

(** C3 (amended): the data lines of a record are read to the end of the
    file if need be, a missing line counting as an empty one, and their
    tokens are cut into complete groups of [nsample]. After well-formed
    records, a record in which [split_dword] refuses a token of a complete
    group fails the whole parse, v1 or v2, in every output mode and without
    a tensor, with the exception of [split_dword] on the first such token;
    a record without such a token whose complete groups are not eight
    fails it with numpy's [ValueError]. The parser raises no parse error
    of its own. With eight complete groups and no refused token in them
    the record is accepted, and the tokens after the eighth group, refused
    or not, are dropped. *)
Theorem malformed_record_fails_parse (K : collab) (g : geometry)
  (rec_at : nat -> nat -> record_lines) (pre post : list (nat * nat))
  (i j : nat) (fronts tail : list string) (e : exn)
  (Hs : (0 <= nstep g)%Z) (Ht : (0 <= ntrial g)%Z) (Hn : (0 < nsample g)%Z)
  (Hpts : record_points (Z.to_nat (nstep g)) (Z.to_nat (ntrial g))
          = pre ++ (i, j) :: post)
  (Hfronts : List.length fronts = Z.to_nat (front_of g))
  (Hdefect :
     (exists good bad more,
         grouped_tokens (Z.to_nat (nsample g))
           (next_tokens (Z.to_nat (nsample g)) tail)
         = good ++ bad :: more
         /\ (forall t, In t good -> exists lh, split_dword K t = Ok lh)
         /\ split_dword K bad = Raise e)
     \/ ((forall t,
             In t (grouped_tokens (Z.to_nat (nsample g))
                     (next_tokens (Z.to_nat (nsample g)) tail)) ->
             exists lh, split_dword K t = Ok lh)
         /\ (List.length (next_tokens (Z.to_nat (nsample g)) tail)
             / Z.to_nat (nsample g))%nat <> 8%nat
         /\ e = ValueError)) :
  (forall raw output fp entry seps,
      DataFormat_v1.header K raw fp
      = (Ok entry,
         flat_map (fun p => lines_of (rec_at (fst p) (snd p))) pre
         ++ seps ++ fronts ++ tail) ->
      geometry_of entry = Ok g ->
      (forall a b, In (a, b) pre ->
                   well_formed_record K g (DataFormat_v1.lead a b) (rec_at a b)) ->
      List.length seps = Z.to_nat (DataFormat_v1.lead i j) ->
      DataFormat_v1.parser_io K raw output fp
      = (Raise e, skipn (Z.to_nat (nsample g)) tail))
  /\ (forall raw output fp entry tempDict seps,
        DataFormat_v2.header K raw fp
        = (Ok (entry, tempDict),
           flat_map (fun p => lines_of (rec_at (fst p) (snd p))) pre
           ++ seps ++ fronts ++ tail) ->
        geometry_of entry = Ok g ->
        (forall a b, In (a, b) pre ->
                     well_formed_record K g (DataFormat_v2.lead a b) (rec_at a b)) ->
        List.length seps = Z.to_nat (DataFormat_v2.lead i j) ->
        DataFormat_v2.parser_io K raw output fp
        = (Raise e, skipn (Z.to_nat (nsample g)) tail))
  /\ (e = ValueError
      \/ exists tok, In tok (next_tokens (Z.to_nat (nsample g)) tail)
                     /\ split_dword K tok = Raise e)
  /\ next_tokens (Z.to_nat (nsample g)) tail
     = next_tokens (Z.to_nat (nsample g))
         (tail ++ repeat "" (Z.to_nat (nsample g)))
  /\ (forall toks,
        (forall t, In t (grouped_tokens (Z.to_nat (nsample g)) toks) ->
                   exists lh, split_dword K t = Ok lh) ->
        (List.length toks / Z.to_nat (nsample g))%nat = 8%nat ->
        exists blk,
          decode_block K (Z.to_nat (nsample g)) toks = Ok blk
          /\ decode_block K (Z.to_nat (nsample g))
               (firstn (8 * Z.to_nat (nsample g)) toks) = Ok blk).
Proof.
  assert (Hpos : (0 < Z.to_nat (nsample g))%nat) by lia.
  assert (Hbad : decode_block K (Z.to_nat (nsample g))
                   (next_tokens (Z.to_nat (nsample g)) tail) = Raise e).
  { destruct Hdefect as [ (good & bad & more & Hgr & Hgood & Hbad)
                        | (Hdec & Hcount & ->) ].
    - exact (decode_block_refused K _ _ good more bad e Hpos Hgr Hgood Hbad).
    - exact (proj2 (decode_block_counted K _ _ Hpos Hdec) Hcount). }
  split.
  { intros raw output fp entry seps Hhdr Hg Hwf Hseps.
    unfold DataFormat_v1.parser_io. unfold bind at 1. rewrite Hhdr.
    rewrite bind_lift, Hg. unfold bind at 1.
    rewrite (read_body_abort K DataFormat_v1.lead g rec_at pre post i j seps fronts
               tail e Hs Ht Hn Hpts Hwf Hseps Hfronts Hbad).
    reflexivity. }
  split.
  { intros raw output fp entry tempDict seps Hhdr Hg Hwf Hseps.
    unfold DataFormat_v2.parser_io. unfold bind at 1. rewrite Hhdr.
    cbn [fst snd]. rewrite bind_lift, Hg. unfold bind at 1.
    rewrite (read_body_abort K DataFormat_v2.lead g rec_at pre post i j seps fronts
               tail e Hs Ht Hn Hpts Hwf Hseps Hfronts Hbad).
    reflexivity. }
  split; [ exact (decode_block_raises K _ _ e Hbad) | ].
  split; [ apply next_tokens_eof | ].
  intros toks Hdec H8.
  exact (proj1 (decode_block_counted K _ toks Hpos Hdec) H8).
Qed.

Lemma malformed_record_fails_parse_witness :
  DataFormat_v1.parser_io demo_K "scan.dat" "raw" refused_v1_file
  = (Raise ValueError, ["b"; "b"; "b"; "b"; ""; ""])
  /\ DataFormat_v2.parser_io demo_K "scan.dat" "raw" refused_v2_file
     = (Raise ValueError, ["b"; "b"; "b"; "b"; ""; ""]).
Proof.
  assert (Hdefect :
     (exists good bad more,
         grouped_tokens 2
           (next_tokens 2
              ["65537 2 zz 4 5 6 7 8"; "9 10 11 12 13 14 15 0";
               "b"; "b"; "b"; "b"; ""; ""])
         = good ++ bad :: more
         /\ (forall t, In t good -> exists lh, split_dword demo_K t = Ok lh)
         /\ split_dword demo_K bad = Raise ValueError)
     \/ ((forall t,
             In t (grouped_tokens 2
                     (next_tokens 2
                        ["65537 2 zz 4 5 6 7 8"; "9 10 11 12 13 14 15 0";
                         "b"; "b"; "b"; "b"; ""; ""])) ->
             exists lh, split_dword demo_K t = Ok lh)
         /\ (List.length
               (next_tokens 2
                  ["65537 2 zz 4 5 6 7 8"; "9 10 11 12 13 14 15 0";
                   "b"; "b"; "b"; "b"; ""; ""]) / 2)%nat <> 8%nat
         /\ ValueError = ValueError)).
  { left. exists ["65537"; "2"], "zz",
      ["4"; "5"; "6"; "7"; "8"; "9"; "10"; "11"; "12"; "13"; "14"; "15"; "0"].
    split; [ vm_compute; reflexivity | ].
    split; [ | vm_compute; reflexivity ].
    intros t [ <- | [ <- | [] ] ]; eexists; vm_compute; reflexivity. }
  destruct (malformed_record_fails_parse demo_K demo_g
              (fun _ _ => demo_record ["="; "="] demo_data) [] [] 0 0
              ["f"; "f"]
              ["65537 2 zz 4 5 6 7 8"; "9 10 11 12 13 14 15 0";
               "b"; "b"; "b"; "b"; ""; ""]
              ValueError
              ltac:(vm_compute; discriminate) ltac:(vm_compute; discriminate)
              ltac:(reflexivity) ltac:(reflexivity) ltac:(reflexivity) Hdefect)
    as (H1 & H2 & _).
  split.
  - apply (H1 "scan.dat" "raw" refused_v1_file
             [PStr "scan.dat"; PStr "board 0x70"; PInt 16; PInt 1; PInt 1; PInt 0;
              PInt 2]
             ["="; "="]).
    + vm_compute. reflexivity.
    + reflexivity.
    + intros a b [].
    + reflexivity.
  - apply (H2 "scan.dat" "raw" refused_v2_file
             [PStr "scan.dat"; PStr "0x70"; PInt 16; PInt 1; PInt 1; PInt 10;
              PInt 2]
             (header_dict ("BOARDID:0x70" :: demo_v2_keys))
             ["="]).
    + vm_compute. reflexivity.
    + reflexivity.
    + intros a b [].
    + reflexivity.
Defined.


(** * Further properties of the parsers *)

(** ** Tokens of a data line (lines 104-105 and 254-255) *)

Lemma split_char_not_nil (c : ascii) (s : string) : split_char c s <> [].
Proof.
  induction s as [ | a s IH ]; cbn; [ discriminate | ].
  destruct (Ascii.eqb a c); [ discriminate | ].
  destruct (split_char c s); [ contradiction | discriminate ].
Qed.

Lemma split_char_app (c : ascii) (s1 s2 : string) :
  split_char c (s1 ++ String c s2)%string = split_char c s1 ++ split_char c s2.
Proof.
  induction s1 as [ | a s1 IH ]; cbn [append split_char].
  - rewrite Ascii.eqb_refl. reflexivity.
  - destruct (Ascii.eqb a c); [ rewrite IH; reflexivity | ].
    rewrite IH. pose proof (split_char_not_nil c s1) as N.
    destruct (split_char c s1); [ contradiction | reflexivity ].
Qed.

Lemma split_char_no_separator (c : ascii) (s : string) :
  forall t, In t (split_char c s) -> contains_char c t = false.
Proof.
  induction s as [ | a s IH ]; cbn [split_char]; intros t Ht.
  - destruct Ht as [ <- | [] ]. reflexivity.
  - destruct (Ascii.eqb a c) eqn:E.
    + destruct Ht as [ <- | Ht ]; [ reflexivity | apply IH; exact Ht ].
    + pose proof (split_char_not_nil c s) as N.
      destruct (split_char c s) as [ | h t0 ]; [ contradiction | ].
      destruct Ht as [ <- | Ht ].
      * cbn. rewrite E. apply IH. left. reflexivity.
      * apply IH. right. exact Ht.
Qed.

Lemma split_char_free (c : ascii) (p : string) :
  contains_char c p = false -> split_char c p = [p].
Proof.
  induction p as [ | a p IH ]; cbn [contains_char split_char]; intro H;
    [ reflexivity | ].
  apply orb_false_iff in H. destruct H as [Ha Hp].
  rewrite Ha, (IH Hp). reflexivity.
Qed.

(** [split] undoes [join] on pieces that do not hold the separator. *)
Lemma split_char_join (c : ascii) (pieces : list string) :
  pieces <> [] ->
  Forall (fun p => contains_char c p = false) pieces ->
  split_char c (String.concat (String c "") pieces) = pieces.
Proof.
  induction pieces as [ | p pieces IH ]; intros Hne H; [ contradiction | ].
  inversion H as [ | ? ? Hp Hrest ]; subst.
  destruct pieces as [ | q pieces ].
  - cbn [String.concat]. apply split_char_free. exact Hp.
  - change (String.concat (String c "") (p :: q :: pieces))
      with (p ++ String c (String.concat (String c "") (q :: pieces)))%string.
    rewrite split_char_app, (split_char_free c p Hp), IH;
      [ reflexivity | discriminate | exact Hrest ].
Qed.

(** [join] undoes [split]. *)
Lemma join_split_char (c : ascii) (s : string) :
  String.concat (String c "") (split_char c s) = s.
Proof.
  induction s as [ | a s IH ]; [ reflexivity | ].
  cbn [split_char]. pose proof (split_char_not_nil c s) as N.
  destruct (Ascii.eqb_spec a c) as [ -> | _ ].
  - destruct (split_char c s) as [ | h t ]; [ contradiction | ].
    change (String.concat (String c "") ("" :: h :: t))
      with (String c (String.concat (String c "") (h :: t))).
    rewrite IH. reflexivity.
  - destruct (split_char c s) as [ | h t ]; [ contradiction | ].
    destruct t as [ | h' t ].
    + cbn [String.concat] in IH |- *. rewrite IH. reflexivity.
    + change (String.concat (String c "") (String a h :: h' :: t))
        with (String a (String.concat (String c "") (h :: h' :: t))).
      rewrite IH. reflexivity.
Qed.

(** X1: the tokens of a line are its maximal runs of characters other than
    the space. A line that joins with single spaces pieces that hold no
    space has as tokens its non-empty pieces, in order: the empty line has
    no token, and a run of spaces, which joins empty pieces, counts as one
    separator. Every line is such a join, of the pieces that [split(' ')]
    cuts it into. *)
Theorem tokens_split_on_spaces (pieces : list string) (s : string)
  (Hfree : Forall (fun p => contains_char " "%char p = false) pieces) :
  tokens (String.concat " " pieces) = filter nonempty pieces
  /\ String.concat " " (split_char " "%char s) = s
  /\ Forall (fun p => contains_char " "%char p = false) (split_char " "%char s).
Proof.
  split; [ | split ].
  - unfold tokens. destruct pieces as [ | p pieces ]; [ reflexivity | ].
    rewrite (split_char_join " "%char (p :: pieces)); [ reflexivity | | exact Hfree ].
    discriminate.
  - apply join_split_char.
  - apply Forall_forall. intros p Hp. exact (split_char_no_separator _ s p Hp).
Qed.

Lemma tokens_split_on_spaces_witness :
  tokens "ab  c" = ["ab"; "c"].
Proof.
  apply (tokens_split_on_spaces ["ab"; ""; "c"] "").
  repeat constructor.
Defined.

(** ** Keys and values of the v2 header (lines 210-224) *)

Lemma split_once_first_colon (c : ascii) (k v : string) :
  contains_char c k = false ->
  split_once c (k ++ String c v)%string = [k; v].
Proof.
  induction k as [ | a k IH ]; cbn [append split_once contains_char]; intro H.
  - rewrite Ascii.eqb_refl. reflexivity.
  - apply orb_false_iff in H. destruct H as [Ha Hk].
    rewrite Ha, (IH Hk). reflexivity.
Qed.

Lemma dict_get_fold_last (k dflt v : string) (post : list string) :
  forall d : dict,
    key_absent k post ->
    dict_get (fold_left add_line post (dict_set d k v)) k dflt = v.
Proof.
  intros d H. rewrite dict_get_fold_absent by exact H.
  unfold dict_set. cbn [dict_get]. rewrite String.eqb_refl. reflexivity.
Qed.

Lemma header_dict_last_line (pre post : list string) (l k v dflt : string) :
  strip l = (k ++ String ":"%char v)%string ->
  contains_char ":"%char k = false ->
  key_absent k post ->
  dict_get (header_dict (pre ++ l :: post)) k dflt = v.
Proof.
  intros Hline Hkey Hpost.
  unfold header_dict. rewrite fold_left_app. cbn [fold_left].
  unfold add_line at 2. unfold key_of, value_of.
  rewrite Hline, (split_once_first_colon _ k v Hkey). cbn [hd nth].
  apply dict_get_fold_last. exact Hpost.
Qed.

(** What a header that is read to its end returns: the dictionary of all
    its [KEY:VALUE] lines, and the entry made of the values of six keys. *)
Lemma v2_header_run (K : collab) (raw : string) (kvs : list string)
  (sep : string) (rest fp1 : stream) (entry : list pyval) (tempDict : dict) :
  Forall (fun l => has_colon l = true) kvs ->
  has_colon sep = false ->
  DataFormat_v2.header K raw (kvs ++ sep :: rest) = (Ok (entry, tempDict), fp1) ->
  tempDict = header_dict kvs
  /\ fp1 = rest
  /\ exists o a b c d,
       py_int (dict_get tempDict "CHANNELMIN" "NA") = Ok o
       /\ py_int (dict_get tempDict "NUMBEROFSTEPS" "NA") = Ok a
       /\ py_int (dict_get tempDict "EVENTSPERSTEP" "NA") = Ok b
       /\ py_int (dict_get tempDict "DACPERSTEP" "NA") = Ok c
       /\ py_int (dict_get tempDict "NSAMPLES" "NA") = Ok d
       /\ entry = [PStr raw; PStr (dict_get tempDict "BOARDID" "NA"); PInt o;
                   PInt a; PInt b; PInt c; PInt d].
Proof.
  intros Hk Hsep Hhdr.
  pose proof (header_lines_consumed K kvs sep rest Hk Hsep) as H.
  unfold DataFormat_v2.header in Hhdr. unfold bind in H, Hhdr.
  destruct (read_config_line K (Some false) (kvs ++ sep :: rest)) as [[s | e] fp'];
    [ | discriminate H ].
  rewrite H in Hhdr. unfold lift, ret in Hhdr.
  destruct (py_int (dict_get (header_dict kvs) "CHANNELMIN" "NA")) as [ o | ] eqn:Eo;
    [ | discriminate Hhdr ].
  destruct (py_int (dict_get (header_dict kvs) "NUMBEROFSTEPS" "NA")) as [ a | ] eqn:Ea;
    [ | discriminate Hhdr ].
  destruct (py_int (dict_get (header_dict kvs) "EVENTSPERSTEP" "NA")) as [ b | ] eqn:Eb;
    [ | discriminate Hhdr ].
  destruct (py_int (dict_get (header_dict kvs) "DACPERSTEP" "NA")) as [ c | ] eqn:Ec;
    [ | discriminate Hhdr ].
  destruct (py_int (dict_get (header_dict kvs) "NSAMPLES" "NA")) as [ d | ] eqn:Ed;
    [ | discriminate Hhdr ].
  injection Hhdr as <- <- <-.
  split; [ reflexivity | ]. split; [ reflexivity | ].
  exists o, a, b, c, d. cbn [app]. auto 7.
Qed.

(** X2: what the v2 header keeps for a key is the text after the first
    colon of the last line that has this key: earlier lines with the same
    key are overridden, and further colons belong to the value. This text
    is what the header returns for the key: in its dictionary, as the board
    field of the entry for [BOARDID], and converted by [int] as the field
    of the entry that belongs to an integer key. *)
Theorem v2_header_lookup (K : collab) (raw : string) (pre post : list string)
  (l k v sep : string) (rest fp1 : stream) (entry : list pyval) (tempDict : dict)
  (Hk : Forall (fun x => has_colon x = true) (pre ++ l :: post))
  (Hsep : has_colon sep = false)
  (Hline : strip l = (k ++ String ":"%char v)%string)
  (Hkey : contains_char ":"%char k = false)
  (Hpost : key_absent k post)
  (Hhdr : DataFormat_v2.header K raw ((pre ++ l :: post) ++ sep :: rest)
          = (Ok (entry, tempDict), fp1)) :
  (forall dflt, dict_get tempDict k dflt = v)
  /\ (k = "BOARDID" -> nth_error entry 1 = Some (PStr v))
  /\ (forall pos, In (k, pos) integer_fields ->
                  exists z, py_int v = Ok z /\ nth_error entry pos = Some (PInt z)).
Proof.
  destruct (v2_header_run K raw _ sep rest fp1 entry tempDict Hk Hsep Hhdr)
    as (-> & _ & o & a & b & c & d & Eo & Ea & Eb & Ec & Ed & ->).
  pose proof (fun dflt => header_dict_last_line pre post l k v dflt Hline Hkey Hpost)
    as L.
  split; [ exact L | ]. split.
  - intros ->. cbn [nth_error]. rewrite L. reflexivity.
  - intros pos Hin. unfold integer_fields in Hin. cbn [In] in Hin.
    destruct Hin as [ E | [ E | [ E | [ E | [ E | [] ]]]]];
      injection E as <- <-; cbn [nth_error]; rewrite L in *; eauto.
Qed.

Lemma v2_header_lookup_witness :
  nth_error
    [PStr "scan.dat"; PStr "a:b"; PInt 16; PInt 1; PInt 1; PInt 10; PInt 2] 1
  = Some (PStr "a:b").
Proof.
  apply (v2_header_lookup demo_K "scan.dat" ["BOARDID:first"] demo_v2_keys
           " BOARDID:a:b " "BOARDID" "a:b" "="
           (lines_of (demo_record ["="] demo_data))
           (lines_of (demo_record ["="] demo_data))
           [PStr "scan.dat"; PStr "a:b"; PInt 16; PInt 1; PInt 1; PInt 10; PInt 2]
           (header_dict (["BOARDID:first"] ++ " BOARDID:a:b " :: demo_v2_keys))).
  - repeat constructor.
  - reflexivity.
  - reflexivity.
  - reflexivity.
  - repeat constructor; vm_compute; discriminate.
  - vm_compute. reflexivity.
  - reflexivity.
Defined.

Lemma header_loop_to_eof (kvs : list string) :
  forall (d : dict) (s : string),
    contains_char ":"%char s = true ->
    Forall (fun l => has_colon l = true) kvs ->
    DataFormat_v2.header_loop d s kvs
    = (Ok (fold_left add_line kvs (dict_set d (key_of s) (value_of s))), []).
Proof.
  induction kvs as [ | l kvs IH ]; intros d s Hs Hk.
  - rewrite header_loop_eq, Hs.
    destruct (split_once_colon _ _ Hs) as (k & v & E).
    unfold key_of, value_of. rewrite E. reflexivity.
  - rewrite header_loop_eq, Hs.
    destruct (split_once_colon _ _ Hs) as (k & v & E).
    unfold key_of, value_of. rewrite E. cbn.
    inversion Hk as [ | ? ? Hl Hk' ]; subst.
    rewrite (IH _ (strip l) Hl Hk'). reflexivity.
Qed.

Lemma header_lines_to_eof (K : collab) (kvs : list string) :
  Forall (fun l => has_colon l = true) kvs ->
  bind (read_config_line K (Some false)) (DataFormat_v2.header_loop []) kvs
  = (Ok (header_dict kvs), []).
Proof.
  intro Hk. destruct kvs as [ | l kvs ]; [ reflexivity | ].
  inversion Hk as [ | ? ? Hl Hk' ]; subst.
  unfold read_config_line, bind, readline, ret. cbn.
  rewrite (header_loop_to_eof kvs [] (strip l) Hl Hk'). reflexivity.
Qed.

(** X3: on a v2 file that ends before any line without a colon, the empty
    file among them, the header loop stops at the end of the file with all
    the lines stored, where an endless loop would be the alternative; when
    an integer key is absent from such a file, the parse fails with the
    [ValueError] of [int("NA")]. *)
Theorem v2_header_ends_at_eof (K : collab) (raw output : string)
  (kvs : list string)
  (Hk : Forall (fun l => has_colon l = true) kvs) :
  bind (read_config_line K (Some false)) (DataFormat_v2.header_loop []) kvs
  = (Ok (header_dict kvs), [])
  /\ snd (DataFormat_v2.header K raw kvs) = []
  /\ forall k,
       In k integer_keys -> key_absent k kvs ->
       DataFormat_v2.parser_io K raw output kvs = (Raise ValueError, []).
Proof.
  pose proof (header_lines_to_eof K kvs Hk) as H.
  split; [ exact H | ].
  split.
  { unfold DataFormat_v2.header. unfold bind in H |- *.
    destruct (read_config_line K (Some false) kvs) as [[s | e] fp'];
      [ | discriminate H ].
    rewrite H. unfold lift, ret.
    repeat match goal with
           | |- context [match py_int ?s with _ => _ end] => destruct (py_int s)
           end; reflexivity. }
  intros k Hin Habs.
  unfold DataFormat_v2.parser_io. unfold bind at 1.
  assert (E : DataFormat_v2.header K raw kvs = (Raise ValueError, [])).
  { unfold DataFormat_v2.header. unfold bind in H |- *.
    destruct (read_config_line K (Some false) kvs) as [[s | e] fp'];
      [ | discriminate H ].
    rewrite H. unfold lift, ret.
    assert (NA : py_int "NA" = Raise ValueError) by reflexivity.
    pose proof (dict_get_absent k "NA" kvs Habs) as D.
    unfold integer_keys in Hin. cbn [In] in Hin.
    destruct Hin as [<- | [<- | [<- | [<- | [<- | []]]]]]; rewrite D, NA;
      repeat match goal with
             | |- context [match py_int ?s with _ => _ end] =>
                 let E := fresh "E" in
                 destruct (py_int s) eqn:E;
                 [ | apply py_int_raises in E; subst; reflexivity ]
             end; reflexivity. }
  rewrite E. reflexivity.
Qed.

Lemma v2_header_ends_at_eof_witness :
  bind (read_config_line demo_K (Some false)) (DataFormat_v2.header_loop [])
    ["BOARDID:0x70"; "NSAMPLES:2"]
  = (Ok (header_dict ["BOARDID:0x70"; "NSAMPLES:2"]), [])
  /\ DataFormat_v2.parser_io demo_K "scan.dat" "entry"
       ["BOARDID:0x70"; "NSAMPLES:2"]
     = (Raise ValueError, []).
Proof.
  destruct (v2_header_ends_at_eof demo_K "scan.dat" "entry"
              ["BOARDID:0x70"; "NSAMPLES:2"])
    as (H1 & _ & H3).
  - repeat constructor.
  - split; [ exact H1 | ].
    apply (H3 "CHANNELMIN").
    + simpl. auto.
    + repeat constructor; vm_compute; discriminate.
Defined.


(** ** Groups of tokens (lines 109 and 259) *)

(** X4: the grouping idiom cuts the tokens of a record into consecutive
    groups of exactly [n] tokens, in order and without gaps, as many as fit;
    the tokens left over, fewer than [n], are in no group. *)
Theorem zip_iter_groups (n : nat) (raw : list string) (Hn : (0 < n)%nat) :
  List.length (zip_iter n raw) = (List.length raw / n)%nat
  /\ (forall g, In g (zip_iter n raw) -> List.length g = n)
  /\ List.concat (zip_iter n raw) = firstn (List.length raw / n * n) raw
  /\ zip_iter 0 raw = [].
Proof.
  assert (Hlo : (List.length raw / n * n <= List.length raw)%nat).
  { rewrite Nat.mul_comm. apply Nat.Div0.mul_div_le. }
  assert (Hhi : (List.length raw < S (List.length raw / n) * n)%nat).
  { pose proof (Nat.div_mod_eq (List.length raw) n) as E.
    pose proof (Nat.mod_upper_bound (List.length raw) n) as U. nia. }
  rewrite (zip_iter_spec n (List.length raw / n) raw Hn Hlo Hhi).
  split; [ rewrite length_map, length_seq; reflexivity | ].
  split.
  - intros g Hg. apply in_map_iff in Hg. destruct Hg as (m & <- & Hm).
    apply in_seq in Hm. rewrite length_firstn, length_skipn. nia.
  - split; [ apply concat_groups | ].
    unfold zip_iter. destruct (List.length raw); reflexivity.
Qed.

Lemma zip_iter_groups_witness :
  List.length (zip_iter 2 ["a"; "b"; "c"; "d"; "e"]) = 2%nat
  /\ List.concat (zip_iter 2 ["a"; "b"; "c"; "d"; "e"]) = ["a"; "b"; "c"; "d"].
Proof.
  destruct (zip_iter_groups 2 ["a"; "b"; "c"; "d"; "e"] (Nat.lt_0_succ 1))
    as (H1 & _ & H3 & _).
  split; [ exact H1 | exact H3 ].
Defined.

(** ** Lines that the reader discards *)

Lemma read_record_layout (K : collab) (g : geometry) (lead : Z)
  (r : record_lines) (i j : nat) (data : tensor4) (tail : stream) :
  laid_out g lead r ->
  read_record K lead (front_of g) (back_of g) (nsample g) i j data
    (lines_of r ++ tail)
  = match (blk <-- decode_block K (Z.to_nat (nsample g)) (record_tokens r) ;;
           setitem2 data i j blk) with
    | Ok d => (Ok d, tail)
    | Raise e => (Raise e, rl_back r ++ rl_trail r ++ tail)
    end.
Proof.
  intros (Hlead & Hfront & Hdata & Hback & Htrail).
  unfold read_record, lines_of. rewrite !bind_discard. rewrite <- !app_assoc.
  rewrite (skipn_exact _ (rl_lead r) _ Hlead).
  rewrite (skipn_exact _ (rl_front r) _ Hfront).
  unfold bind at 1. rewrite read_block_spec. unfold next_tokens.
  rewrite (firstn_exact _ (rl_data r) _ Hdata), (skipn_exact _ (rl_data r) _ Hdata).
  fold (record_tokens r).
  destruct (decode_block K (Z.to_nat (nsample g)) (record_tokens r)) as [ blk | e ];
    cbn [rbind]; [ | reflexivity ].
  rewrite bind_lift.
  destruct (setitem2 data i j blk) as [ d | e ]; [ | reflexivity ].
  rewrite !bind_discard. rewrite (skipn_exact _ (rl_back r) _ Hback).
  change (Z.to_nat 2) with 2%nat.
  rewrite (skipn_exact 2 (rl_trail r) tail Htrail). reflexivity.
Qed.

Lemma records_loop_padding (K : collab) (lead : nat -> nat -> Z) (g : geometry)
  (rec_at rec_at' : nat -> nat -> record_lines) (tail tail' : stream)
  (pts : list (nat * nat)) :
  (forall i j, In (i, j) pts ->
               rl_data (rec_at i j) = rl_data (rec_at' i j)
               /\ laid_out g (lead i j) (rec_at i j)
               /\ laid_out g (lead i j) (rec_at' i j)) ->
  forall data : tensor4,
    fst (for_each pts (record_step K lead g) data
           (flat_map (fun p => lines_of (rec_at (fst p) (snd p))) pts ++ tail))
    = fst (for_each pts (record_step K lead g) data
             (flat_map (fun p => lines_of (rec_at' (fst p) (snd p))) pts ++ tail')).
Proof.
  induction pts as [ | [i j] pts IH ]; intros H data; [ reflexivity | ].
  destruct (H i j (or_introl eq_refl)) as (Hd & L & L').
  cbn [for_each flat_map fst snd]. unfold bind, record_step at 1 3.
  cbn [fst snd]. rewrite <- !app_assoc.
  rewrite (read_record_layout K g (lead i j) (rec_at i j) i j data _ L).
  rewrite (read_record_layout K g (lead i j) (rec_at' i j) i j data _ L').
  unfold record_tokens. rewrite Hd.
  destruct (blk <-- decode_block K (Z.to_nat (nsample g))
                      (flat_map (fun l => tokens (strip l)) (rl_data (rec_at' i j))) ;;
            setitem2 data i j blk) as [ d | e ]; [ | reflexivity ].
  apply IH. intros a b Hab. apply H. right. exact Hab.
Qed.

(** X5: the separator lines and the lines of the channel groups that are
    not decoded are counted and never read: two bodies with the same data
    lines, record by record, and the same number of lines around them give
    the same tensor, or the same exception, whatever those other lines and
    the lines after the last record hold. *)
Theorem discarded_lines_ignored (K : collab) (lead : nat -> nat -> Z)
  (g : geometry) (rec_at rec_at' : nat -> nat -> record_lines)
  (tail tail' : stream)
  (Hsame : forall i j,
      (i < Z.to_nat (nstep g))%nat -> (j < Z.to_nat (ntrial g))%nat ->
      rl_data (rec_at i j) = rl_data (rec_at' i j)
      /\ laid_out g (lead i j) (rec_at i j)
      /\ laid_out g (lead i j) (rec_at' i j)) :
  fst (read_body K lead g
         (body_lines (Z.to_nat (nstep g)) (Z.to_nat (ntrial g)) rec_at ++ tail))
  = fst (read_body K lead g
           (body_lines (Z.to_nat (nstep g)) (Z.to_nat (ntrial g)) rec_at' ++ tail')).
Proof.
  rewrite !read_body_points, !bind_lift.
  destruct (np_zeros4 (nstep g) (ntrial g) 16 (nsample g)) as [ zeros | e ];
    [ | reflexivity ].
  apply records_loop_padding. intros i j Hij.
  apply record_points_spec in Hij. apply Hsame; tauto.
Qed.

Lemma discarded_lines_ignored_witness :
  fst (read_body demo_K DataFormat_v1.lead demo_g
         (body_lines 1 1 (fun _ _ => demo_record ["="; "="] demo_data) ++ []))
  = fst (read_body demo_K DataFormat_v1.lead demo_g
           (body_lines 1 1 (fun _ _ => other_padding_record) ++ ["more"])).
Proof.
  apply (discarded_lines_ignored demo_K DataFormat_v1.lead demo_g
           (fun _ _ => demo_record ["="; "="] demo_data)
           (fun _ _ => other_padding_record) [] ["more"]).
  intros i j _ _. repeat split; reflexivity.
Defined.


(** ** What a successful header leaves *)

Lemma readline_eq (fp : stream) : readline fp = (Ok (hd "" fp), skipn 1 fp).
Proof. destruct fp; reflexivity. Qed.

Ltac header_steps H K :=
  repeat first
    [ rewrite readline_eq in H
    | progress cbv beta match in H
    | match type of H with
      | context [match config_check K ?l with _ => _ end] =>
          destruct (config_check K l); try discriminate H
      | context [match py_int ?s with _ => _ end] =>
          destruct (py_int s); try discriminate H
      end ].

Lemma v1_header_ok (K : collab) (raw : string) (fp fp1 : stream)
  (entry : list pyval) :
  DataFormat_v1.header K raw fp = (Ok entry, fp1) ->
  fp1 = skipn 10 fp
  /\ exists s1 o a b c d,
       entry = [PStr raw; PStr s1; PInt o; PInt a; PInt b; PInt c; PInt d].
Proof.
  intro H. unfold DataFormat_v1.header in H. cbn [for_each seq] in H.
  unfold read_config_line, read_and_discard_lines, bind, lift, ret in H.
  change (Z.to_nat 4) with 4%nat in H.
  header_steps H K.
  injection H as <- <-.
  split; [ | repeat eexists ].
  do 10 (destruct fp as [ | ? fp ]; [ reflexivity | ]). reflexivity.
Qed.

Lemma v2_header_ok (K : collab) (raw : string) (fp fp1 : stream)
  (entry : list pyval) (tempDict : dict) :
  DataFormat_v2.header K raw fp = (Ok (entry, tempDict), fp1) ->
  exists o a b c d,
    entry = [PStr raw; PStr (dict_get tempDict "BOARDID" "NA"); PInt o; PInt a;
             PInt b; PInt c; PInt d].
Proof.
  intro H. unfold DataFormat_v2.header in H. unfold bind at 1 in H.
  destruct (read_config_line K (Some false) fp) as [[s | e] fp0];
    [ | discriminate H ].
  unfold bind at 1 in H.
  destruct (DataFormat_v2.header_loop [] s fp0) as [[d0 | e] fp2];
    [ | discriminate H ].
  unfold bind, lift, ret in H.
  header_steps H K.
  injection H as <- <- <-. cbn [app]. repeat eexists.
Qed.


(** ** The entry and the structure tables *)

(** X6: an entry returned by a parser has one field for every key of the
    structure table of its format, nine for v1 and ten for v2, in the order
    of the table, a string where the table says [TEXT] and an integer where
    it says [INTEGER]; its first field is the path that was passed; and both
    tables pass [verify]. *)
Theorem entry_conforms_to_structure (K : collab) (raw output : string)
  (fp : stream) :
  (forall e fp',
      DataFormat_v1.parser_io K raw output fp = (Ok (OutEntry e), fp') ->
      Forall2 field_conforms structure_v1 e /\ nth_error e 0 = Some (PStr raw))
  /\ (forall e fp',
        DataFormat_v2.parser_io K raw output fp = (Ok (OutEntry e), fp') ->
        Forall2 field_conforms structure_v2 e /\ nth_error e 0 = Some (PStr raw))
  /\ DataFormat.verify structure_v1 = true
  /\ DataFormat.verify structure_v2 = true.
Proof.
  split; [ | split; [ | split; reflexivity ] ].
  - intros e fp' H. unfold DataFormat_v1.parser_io in H. unfold bind at 1 in H.
    destruct (DataFormat_v1.header K raw fp) as [[entry | e0] fp1] eqn:Hh;
      [ | discriminate H ].
    destruct (v1_header_ok K raw fp fp1 entry Hh) as (_ & s1 & o & a & b & c & d & ->).
    rewrite bind_lift in H.
    destruct (geometry_of _) as [ g | e0 ]; [ | discriminate H ].
    unfold bind at 1 in H.
    destruct (read_body K DataFormat_v1.lead g fp1) as [[data | e0] fp2];
      [ | discriminate H ].
    destruct (String.eqb output "raw"); [ discriminate H | ].
    rewrite bind_lift in H.
    destruct (analyze K g data) as [ s | e0 ]; [ | discriminate H ].
    destruct (String.eqb output "signal"); [ discriminate H | ].
    injection H as <- _. split; [ | reflexivity ].
    unfold structure_v1, entry_tail. cbn [app].
    repeat constructor.
  - intros e fp' H. unfold DataFormat_v2.parser_io in H. unfold bind at 1 in H.
    destruct (DataFormat_v2.header K raw fp) as [[[entry tempDict] | e0] fp1] eqn:Hh;
      [ | discriminate H ].
    destruct (v2_header_ok K raw fp fp1 entry tempDict Hh)
      as (o & a & b & c & d & ->).
    cbn [fst snd] in H. rewrite bind_lift in H.
    destruct (geometry_of _) as [ g | e0 ]; [ | discriminate H ].
    unfold bind at 1 in H.
    destruct (read_body K DataFormat_v2.lead g fp1) as [[data | e0] fp2];
      [ | discriminate H ].
    destruct (String.eqb output "raw"); [ discriminate H | ].
    rewrite bind_lift in H.
    destruct (analyze K g data) as [ s | e0 ]; [ | discriminate H ].
    destruct (String.eqb output "signal"); [ discriminate H | ].
    injection H as <- _. split; [ | reflexivity ].
    unfold structure_v2, entry_tail. cbn [app].
    repeat constructor.
Qed.

Lemma entry_conforms_to_structure_witness :
  exists e,
    DataFormat_v2.parser_io demo_K "scan.dat" "entry" demo_v2_file = (Ok (OutEntry e), [])
    /\ Forall2 field_conforms structure_v2 e.
Proof.
  eexists. split; [ vm_compute; reflexivity | ].
  eapply (proj1 (proj2 (entry_conforms_to_structure demo_K "scan.dat" "entry"
                          demo_v2_file))).
  vm_compute. reflexivity.
Defined.

(** ** Output modes on one file *)

(** X7: whatever makes the parse fail for [output='raw'] makes it fail in
    the same way for every output mode: the header and the records are read
    before the mode is looked at. *)
Theorem raw_failure_is_every_failure (K : collab) (raw output : string)
  (fp : stream) (e : exn) :
  (fst (DataFormat_v1.parser_io K raw "raw" fp) = Raise e ->
   fst (DataFormat_v1.parser_io K raw output fp) = Raise e)
  /\ (fst (DataFormat_v2.parser_io K raw "raw" fp) = Raise e ->
      fst (DataFormat_v2.parser_io K raw output fp) = Raise e).
Proof.
  split; intro H.
  - unfold DataFormat_v1.parser_io in *. unfold bind at 1 in H. unfold bind at 1.
    destruct (DataFormat_v1.header K raw fp) as [[entry | e0] fp1]; [ | exact H ].
    rewrite bind_lift in *.
    destruct (geometry_of entry) as [ g | e0 ]; [ | exact H ].
    unfold bind at 1 in H. unfold bind at 1.
    destruct (read_body K DataFormat_v1.lead g fp1) as [[data | e0] fp2];
      [ | exact H ].
    discriminate H.
  - unfold DataFormat_v2.parser_io in *. unfold bind at 1 in H. unfold bind at 1.
    destruct (DataFormat_v2.header K raw fp) as [[ed | e0] fp1]; [ | exact H ].
    rewrite bind_lift in *.
    destruct (geometry_of (fst ed)) as [ g | e0 ]; [ | exact H ].
    unfold bind at 1 in H. unfold bind at 1.
    destruct (read_body K DataFormat_v2.lead g fp1) as [[data | e0] fp2];
      [ | exact H ].
    discriminate H.
Qed.

Lemma raw_failure_is_every_failure_witness :
  fst (DataFormat_v1.parser_io demo_K "scan.dat" "signal" short_v1_file)
  = Raise ValueError.
Proof.
  apply (proj1 (raw_failure_is_every_failure demo_K "scan.dat" "signal"
                  short_v1_file ValueError)).
  vm_compute. reflexivity.
Defined.

(** X8: where [output='raw'] returns the tensor [data], the mode
    ['signal'] returns the analysis of that same tensor under the geometry
    of the header, and any other mode returns the header fields followed by
    the two text fields made from that analysis (and the tester id in v2);
    these modes fail exactly when the analysis raises. *)
Theorem modes_share_the_tensor (K : collab) (raw : string) (fp : stream)
  (data : tensor4) :
  (fst (DataFormat_v1.parser_io K raw "raw" fp) = Ok (OutRaw data) ->
   exists entry g fp1,
     DataFormat_v1.header K raw fp = (Ok entry, fp1)
     /\ geometry_of entry = Ok g
     /\ fst (DataFormat_v1.parser_io K raw "signal" fp)
        = (s <-- analyze K g data ;; Ok (OutSignal s))
     /\ forall output, output <> "raw" -> output <> "signal" ->
          fst (DataFormat_v1.parser_io K raw output fp)
          = (s <-- analyze K g data ;; Ok (OutEntry (entry ++ entry_tail K s))))
  /\ (fst (DataFormat_v2.parser_io K raw "raw" fp) = Ok (OutRaw data) ->
      exists entry tempDict g fp1,
        DataFormat_v2.header K raw fp = (Ok (entry, tempDict), fp1)
        /\ geometry_of entry = Ok g
        /\ fst (DataFormat_v2.parser_io K raw "signal" fp)
           = (s <-- analyze K g data ;; Ok (OutSignal s))
        /\ forall output, output <> "raw" -> output <> "signal" ->
             fst (DataFormat_v2.parser_io K raw output fp)
             = (s <-- analyze K g data ;;
                Ok (OutEntry ((entry ++ entry_tail K s)
                              ++ [PStr (dict_get tempDict "TESTERID" "NA")])))).
Proof.
  split; intro H.
  - unfold DataFormat_v1.parser_io in H. unfold bind at 1 in H.
    destruct (DataFormat_v1.header K raw fp) as [[entry | e0] fp1] eqn:Hh;
      [ | discriminate H ].
    rewrite bind_lift in H.
    destruct (geometry_of entry) as [ g | e0 ] eqn:Hg; [ | discriminate H ].
    unfold bind at 1 in H.
    destruct (read_body K DataFormat_v1.lead g fp1) as [[data0 | e0] fp2] eqn:Hb;
      [ | discriminate H ].
    cbn in H. injection H as ->.
    exists entry, g, fp1. split; [ reflexivity | ]. split; [ exact Hg | ].
    split.
    + unfold DataFormat_v1.parser_io. unfold bind at 1. rewrite Hh.
      rewrite bind_lift, Hg. unfold bind at 1. rewrite Hb.
      cbn [String.eqb Ascii.eqb Bool.eqb]. rewrite bind_lift.
      destruct (analyze K g data); reflexivity.
    + intros output Hraw Hsig.
      unfold DataFormat_v1.parser_io. unfold bind at 1. rewrite Hh.
      rewrite bind_lift, Hg. unfold bind at 1. rewrite Hb.
      destruct (String.eqb_spec output "raw") as [ E | _ ]; [ contradiction | ].
      destruct (String.eqb_spec output "signal") as [ E | _ ]; [ contradiction | ].
      rewrite bind_lift. destruct (analyze K g data); reflexivity.
  - unfold DataFormat_v2.parser_io in H. unfold bind at 1 in H.
    destruct (DataFormat_v2.header K raw fp) as [[[entry tempDict] | e0] fp1] eqn:Hh;
      [ | discriminate H ].
    cbn [fst snd] in H. rewrite bind_lift in H.
    destruct (geometry_of entry) as [ g | e0 ] eqn:Hg; [ | discriminate H ].
    unfold bind at 1 in H.
    destruct (read_body K DataFormat_v2.lead g fp1) as [[data0 | e0] fp2] eqn:Hb;
      [ | discriminate H ].
    cbn in H. injection H as ->.
    exists entry, tempDict, g, fp1. split; [ reflexivity | ].
    split; [ exact Hg | ]. split.
    + unfold DataFormat_v2.parser_io. unfold bind at 1. rewrite Hh.
      cbn [fst snd]. rewrite bind_lift, Hg. unfold bind at 1.
      rewrite Hb. cbn [String.eqb Ascii.eqb Bool.eqb]. rewrite bind_lift.
      destruct (analyze K g data); reflexivity.
    + intros output Hraw Hsig.
      unfold DataFormat_v2.parser_io. unfold bind at 1. rewrite Hh.
      cbn [fst snd]. rewrite bind_lift, Hg. unfold bind at 1. rewrite Hb.
      destruct (String.eqb_spec output "raw") as [ E | _ ]; [ contradiction | ].
      destruct (String.eqb_spec output "signal") as [ E | _ ]; [ contradiction | ].
      rewrite bind_lift. destruct (analyze K g data); reflexivity.
Qed.

Lemma modes_share_the_tensor_witness :
  exists data entry g fp1,
    fst (DataFormat_v1.parser_io demo_K "scan.dat" "raw" demo_v1_file)
    = Ok (OutRaw data)
    /\ DataFormat_v1.header demo_K "scan.dat" demo_v1_file = (Ok entry, fp1)
    /\ geometry_of entry = Ok g
    /\ fst (DataFormat_v1.parser_io demo_K "scan.dat" "signal" demo_v1_file)
       = (s <-- analyze demo_K g data ;; Ok (OutSignal s)).
Proof.
  destruct (DataFormat_v1.parser_io demo_K "scan.dat" "raw" demo_v1_file)
    as [[[data | s | e] | e] fp2] eqn:E; try (vm_compute in E; discriminate E).
  exists data.
  destruct (proj1 (modes_share_the_tensor demo_K "scan.dat" demo_v1_file data))
    as (entry & g & fp1 & Hh & Hg & Hs & _).
  - rewrite E. reflexivity.
  - exists entry, g, fp1.
    split; [ reflexivity | ]. split; [ exact Hh | ]. split; [ exact Hg | exact Hs ].
Defined.


(** ** What the raw mode depends on *)

Lemma for_each_ext {A S : Type} (xs : list A) (f g : A -> S -> IO S) :
  (forall x s fp, f x s fp = g x s fp) ->
  forall s fp, for_each xs f s fp = for_each xs g s fp.
Proof.
  intro H. induction xs as [ | x xs IH ]; intros s fp; [ reflexivity | ].
  cbn [for_each]. unfold bind. rewrite H.
  destruct (g x s fp) as [[s1 | e] fp1]; [ apply IH | reflexivity ].
Qed.

Lemma decode_groups_ext (K K' : collab) (gs : list (list string)) :
  split_dword K = split_dword K' -> decode_groups K gs = decode_groups K' gs.
Proof.
  intro Hs. induction gs as [ | g gs IH ]; [ reflexivity | ].
  cbn [decode_groups]. unfold decode_group. rewrite Hs, IH. reflexivity.
Qed.

Lemma read_block_ext (K K' : collab) (ns : Z) (fp : stream) :
  split_dword K = split_dword K' -> read_block K ns fp = read_block K' ns fp.
Proof.
  intro Hs. rewrite !read_block_spec. unfold decode_block.
  rewrite (decode_groups_ext K K' _ Hs). reflexivity.
Qed.

Lemma read_record_ext (K K' : collab) (lead front back ns : Z) (i j : nat)
  (data : tensor4) (fp : stream) :
  split_dword K = split_dword K' ->
  read_record K lead front back ns i j data fp
  = read_record K' lead front back ns i j data fp.
Proof.
  intro Hs. unfold read_record, bind, read_and_discard_lines.
  rewrite (read_block_ext K K' ns _ Hs). reflexivity.
Qed.

Lemma read_body_ext (K K' : collab) (lead : nat -> nat -> Z) (g : geometry)
  (fp : stream) :
  split_dword K = split_dword K' -> read_body K lead g fp = read_body K' lead g fp.
Proof.
  intro Hs. rewrite !read_body_points, !bind_lift.
  destruct (np_zeros4 (nstep g) (ntrial g) 16 (nsample g)); [ | reflexivity ].
  apply for_each_ext. intros p d fp0. unfold record_step.
  apply read_record_ext. exact Hs.
Qed.

(** X9: with [output='raw'] the result depends on the collaborators only
    through the check of a header line and the word splitter: the fits, the
    minimiser, the pulse model and the calibration are not called, so a file
    is read in raw mode even where every fit would raise. *)
Theorem raw_mode_needs_no_fit (K K' : collab) (fs : string -> option stream)
  (raw : string)
  (Hc : config_check K = config_check K')
  (Hs : split_dword K = split_dword K') :
  DataFormat_v1.parser K fs raw "raw" = DataFormat_v1.parser K' fs raw "raw"
  /\ DataFormat_v2.parser K fs raw "raw" = DataFormat_v2.parser K' fs raw "raw".
Proof.
  unfold DataFormat_v1.parser, DataFormat_v2.parser.
  destruct (fs raw) as [ fp | ]; [ | split; reflexivity ].
  split.
  - unfold DataFormat_v1.parser_io, bind.
    assert (Hh : DataFormat_v1.header K raw fp = DataFormat_v1.header K' raw fp).
    { unfold DataFormat_v1.header, read_config_line. rewrite Hc. reflexivity. }
    rewrite Hh.
    destruct (DataFormat_v1.header K' raw fp) as [[entry | e] fp1]; [ | reflexivity ].
    unfold lift. destruct (geometry_of entry) as [ g | e ]; [ | reflexivity ].
    rewrite (read_body_ext K K' _ g fp1 Hs).
    destruct (read_body K' DataFormat_v1.lead g fp1) as [[data | e] fp2];
      reflexivity.
  - unfold DataFormat_v2.parser_io, bind.
    assert (Hh : DataFormat_v2.header K raw fp = DataFormat_v2.header K' raw fp).
    { unfold DataFormat_v2.header, read_config_line. reflexivity. }
    rewrite Hh.
    destruct (DataFormat_v2.header K' raw fp) as [[ed | e] fp1]; [ | reflexivity ].
    unfold lift. destruct (geometry_of (fst ed)) as [ g | e ]; [ | reflexivity ].
    rewrite (read_body_ext K K' _ g fp1 Hs).
    destruct (read_body K' DataFormat_v2.lead g fp1) as [[data | e] fp2];
      reflexivity.
Qed.

Lemma raw_mode_needs_no_fit_witness :
  DataFormat_v1.parser degenerate_K (demo_fs demo_v1_file) "scan.dat" "raw"
  = DataFormat_v1.parser demo_K (demo_fs demo_v1_file) "scan.dat" "raw".
Proof.
  apply (raw_mode_needs_no_fit degenerate_K demo_K (demo_fs demo_v1_file)
           "scan.dat"); reflexivity.
Defined.

(** ** How many lines a parse consumes *)

Lemma read_record_consumes (K : collab) (lead front back ns : Z) (i j : nat)
  (data data' : tensor4) (fp fp' : stream) :
  read_record K lead front back ns i j data fp = (Ok data', fp') ->
  fp' = skipn (Z.to_nat lead + Z.to_nat front + Z.to_nat ns + Z.to_nat back + 2) fp.
Proof.
  intro H. unfold read_record in H. rewrite !bind_discard in H.
  unfold bind at 1 in H. rewrite read_block_spec in H.
  destruct (decode_block K (Z.to_nat ns) _) as [ blk | e ]; [ | discriminate H ].
  rewrite bind_lift in H.
  destruct (setitem2 data i j blk) as [ d | e ]; [ | discriminate H ].
  rewrite !bind_discard in H. unfold ret in H. injection H as _ <-.
  rewrite !skipn_skipn.
  match goal with
  | |- ?l = _ =>
      match l with
      | context [skipn ?n fp] => change l with (skipn 2 (skipn n fp))
      end
  end.
  rewrite skipn_skipn. f_equal. lia.
Qed.

Lemma for_each_consumes {A S : Type} (c : nat) (f : A -> S -> IO S) :
  (forall x s fp s' fp', f x s fp = (Ok s', fp') -> fp' = skipn c fp) ->
  forall xs s fp s' fp',
    for_each xs f s fp = (Ok s', fp') -> fp' = skipn (List.length xs * c) fp.
Proof.
  intros H xs. induction xs as [ | x xs IH ]; intros s fp s' fp' E.
  - cbn in E. injection E as _ <-. reflexivity.
  - cbn [for_each] in E. unfold bind in E.
    destruct (f x s fp) as [[s1 | e] fp1] eqn:E1; [ | discriminate E ].
    apply H in E1. apply IH in E. subst fp1 fp'.
    rewrite skipn_skipn. f_equal. cbn [List.length]. lia.
Qed.

Lemma zeros4_ok_nonneg (a b c d : Z) (data : tensor4) :
  np_zeros4 a b c d = Ok data -> (0 <= a /\ 0 <= b /\ 0 <= c /\ 0 <= d)%Z.
Proof.
  unfold np_zeros4.
  destruct ((a <? 0) || (b <? 0) || (c <? 0) || (d <? 0))%Z eqn:E;
    [ discriminate | ].
  intros _. repeat (apply orb_false_iff in E; destruct E as [E ?]).
  repeat split; apply Z.ltb_ge; assumption.
Qed.

Lemma record_span (g : geometry) :
  (0 <= offset g <= 63)%Z -> (0 <= nsample g)%Z ->
  (Z.to_nat (front_of g) + Z.to_nat (nsample g) + Z.to_nat (back_of g)
   = 4 * Z.to_nat (nsample g))%nat.
Proof.
  intros Ho Hn. unfold front_of, back_of, group_of.
  assert (G : (0 <= offset g / 16 <= 3)%Z).
  { split; [ apply Z.div_pos; lia | ].
    assert (offset g / 16 < 4)%Z by (apply Z.div_lt_upper_bound; lia). lia. }
  nia.
Qed.

(** X10: a v1 parse that succeeds, in any output mode, has read exactly
    [10 + nstep * ntrial * (4 * nsample + 4)] lines when the offset lies in
    0..63: ten for the header and, for every record, the samples of the four
    channel groups between two pairs of separator lines, whichever group is
    decoded. *)
Theorem v1_parse_consumes (K : collab) (raw output : string) (fp fp1 fp' : stream)
  (entry : list pyval) (g : geometry) (r : output_value)
  (Hhdr : DataFormat_v1.header K raw fp = (Ok entry, fp1))
  (Hg : geometry_of entry = Ok g)
  (Hoff : (0 <= offset g <= 63)%Z)
  (Hparse : DataFormat_v1.parser_io K raw output fp = (Ok r, fp')) :
  fp' = skipn (10 + Z.to_nat (nstep g) * Z.to_nat (ntrial g)
                    * (4 * Z.to_nat (nsample g) + 4)) fp.
Proof.
  destruct (v1_header_ok K raw fp fp1 entry Hhdr) as (-> & _).
  unfold DataFormat_v1.parser_io in Hparse. unfold bind at 1 in Hparse.
  rewrite Hhdr, bind_lift, Hg in Hparse. unfold bind at 1 in Hparse.
  destruct (read_body K DataFormat_v1.lead g (skipn 10 fp)) as [[data | e] fp2] eqn:Hb;
    [ | discriminate Hparse ].
  assert (E2 : fp' = fp2).
  { destruct (String.eqb output "raw"); [ injection Hparse as _ <-; reflexivity | ].
    rewrite bind_lift in Hparse.
    destruct (analyze K g data); [ | discriminate Hparse ].
    destruct (String.eqb output "signal"); injection Hparse as _ <-; reflexivity. }
  subst fp'. rewrite read_body_points, bind_lift in Hb.
  destruct (np_zeros4 (nstep g) (ntrial g) 16 (nsample g)) as [ zeros | e ] eqn:Ez;
    [ | discriminate Hb ].
  apply zeros4_ok_nonneg in Ez. destruct Ez as (_ & _ & _ & Hn).
  apply (for_each_consumes
           (2 + Z.to_nat (front_of g) + Z.to_nat (nsample g) + Z.to_nat (back_of g) + 2))
    in Hb.
  - rewrite Hb, skipn_skipn. f_equal. unfold record_points.
    rewrite length_prod, !length_seq.
    pose proof (record_span g Hoff Hn) as Hspan. nia.
  - intros [i j] d fp0 d' fp0' E. unfold record_step in E.
    apply read_record_consumes in E. exact E.
Qed.

Lemma v1_parse_consumes_witness :
  exists r,
    DataFormat_v1.parser_io demo_K "scan.dat" "raw" (demo_v1_file ++ ["left"])
    = (Ok r, skipn (10 + 1 * 1 * (4 * 2 + 4)) (demo_v1_file ++ ["left"])).
Proof.
  destruct (DataFormat_v1.parser_io demo_K "scan.dat" "raw" (demo_v1_file ++ ["left"]))
    as [[r | e] fp'] eqn:E; [ | vm_compute in E; discriminate E ].
  exists r. f_equal.
  apply (v1_parse_consumes demo_K "scan.dat" "raw" (demo_v1_file ++ ["left"])
           (skipn 10 (demo_v1_file ++ ["left"])) fp'
           [PStr "scan.dat"; PStr "board 0x70"; PInt 16; PInt 1; PInt 1; PInt 0;
            PInt 2] demo_g r).
  - vm_compute. reflexivity.
  - reflexivity.
  - vm_compute. split; discriminate.
  - exact E.
Defined.

(** ** Scans without records *)

Lemma list_prod_nil_r {A B : Type} (xs : list A) : list_prod xs (@nil B) = [].
Proof. induction xs as [ | x xs IH ]; [ reflexivity | exact IH ]. Qed.

(** X11: a negative step count, trial count or sample count in the header
    makes the reader raise [ValueError] before it reads a line of the body;
    a step count or a trial count of zero makes it return a tensor without
    any record, again without reading a line. *)
Theorem degenerate_geometry (K : collab) (lead : nat -> nat -> Z) (g : geometry)
  (fp : stream) :
  ((nstep g < 0 \/ ntrial g < 0 \/ nsample g < 0)%Z ->
   read_body K lead g fp = (Raise ValueError, fp))
  /\ ((nstep g = 0 \/ ntrial g = 0)%Z ->
      (0 <= nstep g)%Z -> (0 <= ntrial g)%Z -> (0 <= nsample g)%Z ->
      read_body K lead g fp
      = (Ok (repeat (repeat (np_zeros2 16 (Z.to_nat (nsample g)))
                       (Z.to_nat (ntrial g)))
               (Z.to_nat (nstep g))), fp)
      /\ forall i j c s,
           get4 (repeat (repeat (np_zeros2 16 (Z.to_nat (nsample g)))
                           (Z.to_nat (ntrial g)))
                   (Z.to_nat (nstep g))) i j c s = fzero).
Proof.
  split.
  - intro H. unfold read_body. rewrite bind_lift. unfold np_zeros4.
    assert (E : ((nstep g <? 0) || (ntrial g <? 0) || (16 <? 0) || (nsample g <? 0))%Z
                = true).
    { destruct H as [ H | [ H | H ]]; apply Z.ltb_lt in H; rewrite H;
        rewrite ?orb_true_r; reflexivity. }
    rewrite E. reflexivity.
  - intros H Hs Ht Hn. split.
    + rewrite read_body_points, bind_lift. unfold np_zeros4.
      assert (E : ((nstep g <? 0) || (ntrial g <? 0) || (16 <? 0) || (nsample g <? 0))%Z
                  = false).
      { repeat (apply orb_false_intro); apply Z.ltb_ge; lia. }
      rewrite E. change (Z.to_nat 16) with 16%nat.
      assert (P : record_points (Z.to_nat (nstep g)) (Z.to_nat (ntrial g)) = []).
      { unfold record_points. destruct H as [ -> | -> ];
          [ reflexivity | apply list_prod_nil_r ]. }
      rewrite P. reflexivity.
    + intros i j c s. unfold get4.
      destruct H as [ -> | -> ]; cbn [Z.to_nat repeat].
      * destruct i, j, c, s; reflexivity.
      * assert (R : forall n, nth i (repeat (@nil (list (list float64))) n) [] = []).
        { intro n. revert i. induction n as [ | n IH ]; intros [ | i ]; cbn; auto. }
        rewrite R. destruct j, c, s; reflexivity.
Qed.

Lemma degenerate_geometry_witness :
  read_body demo_K DataFormat_v2.lead
    {| offset := 0; nstep := 3; ntrial := 1; nsample := -2 |} ["="; "1 2"]
  = (Raise ValueError, ["="; "1 2"])
  /\ read_body demo_K DataFormat_v2.lead
       {| offset := 0; nstep := 3; ntrial := 0; nsample := 2 |} ["="; "1 2"]
     = (Ok [[]; []; []], ["="; "1 2"]).
Proof.
  split.
  - apply (proj1 (degenerate_geometry demo_K DataFormat_v2.lead
                    {| offset := 0; nstep := 3; ntrial := 1; nsample := -2 |}
                    ["="; "1 2"])).
    right. right. reflexivity.
  - apply (proj2 (degenerate_geometry demo_K DataFormat_v2.lead
                    {| offset := 0; nstep := 3; ntrial := 0; nsample := 2 |}
                    ["="; "1 2"])).
    + right. reflexivity.
    + discriminate.
    + discriminate.
    + discriminate.
Defined.


(** ** The peak array *)

(** X12: when no point of the fit loop lets an exception out, the loop
    returns an array of 16 rows of [nstep] entries in which [y[j][i]] is the
    peak of the fit at [(i, j)], weighted or retried, and zero where the fit
    was given up; every entry depends on its own point only. *)
Theorem fit_loop_tabulates (K : collab) (mean sigma : tensor3) (nstp nsamp : Z)
  (Hall : forall i j, (i < Z.to_nat nstp)%nat -> (j < 16)%nat ->
                      exists o, ladder K mean sigma nsamp i j = Ok o) :
  exists y,
    fit_loop K mean sigma nstp nsamp = Ok y
    /\ shape2 y 16 (Z.to_nat nstp)
    /\ forall i j, (i < Z.to_nat nstp)%nat -> (j < 16)%nat ->
                   get2 y j i = peak_of K mean sigma nsamp i j fzero.
Proof.
  destruct (points_loop_ok K mean sigma nsamp 16 (Z.to_nat nstp)
              (fit_points nstp) (np_zeros2 16 (Z.to_nat nstp))
              (zeros_shape _ _) (fit_points_NoDup nstp))
    as (y & E & Hy & Gin & _).
  - intros a b Hab. apply fit_points_spec. exact Hab.
  - intros a b Hab. apply fit_points_spec in Hab. apply Hall; tauto.
  - exists y. split; [ rewrite fit_loop_points; exact E | ].
    split; [ exact Hy | ].
    intros i j Hi Hj. rewrite (Gin i j), zeros_entry; [ reflexivity | ].
    apply fit_points_spec. auto.
Qed.

Lemma fit_loop_tabulates_witness :
  exists y,
    fit_loop saturated_K [] [] 2 2 = Ok y
    /\ shape2 y 16 2
    /\ get2 y 15 1 = (float_of_Z 7).
Proof.
  destruct (fit_loop_tabulates saturated_K [] [] 2 2
              (fun i j _ _ => ex_intro _ (Some (float_of_Z 7)) eq_refl))
    as (y & E & Hy & G).
  exists y. split; [ exact E | ]. split; [ exact Hy | ].
  exact (G 1%nat 15%nat (Nat.lt_succ_diag_r 1) (Nat.lt_succ_diag_r 15)).
Defined.

(** X13: the fit loop visits the points step by step and, within a step,
    channel by channel; the first point whose fit lets an exception out ends
    the loop with that exception, and the points after it are not fitted. *)
Theorem fit_loop_first_failure (K : collab) (mean sigma : tensor3)
  (nstp nsamp : Z) (pre post : list (nat * nat)) (i j : nat) (e : exn)
  (Hpts : fit_points nstp = pre ++ (i, j) :: post)
  (Hpre : forall a b, In (a, b) pre ->
                      exists o, ladder K mean sigma nsamp a b = Ok o)
  (He : ladder K mean sigma nsamp i j = Raise e) :
  fit_loop K mean sigma nstp nsamp = Raise e
  /\ forall K',
       (forall a b, In (a, b) (pre ++ [(i, j)]) ->
                    ladder K' mean sigma nsamp a b = ladder K mean sigma nsamp a b) ->
       fit_loop K' mean sigma nstp nsamp = Raise e.
Proof.
  assert (G : forall K0,
             (forall a b, In (a, b) pre ->
                          exists o, ladder K0 mean sigma nsamp a b = Ok o) ->
             ladder K0 mean sigma nsamp i j = Raise e ->
             fit_loop K0 mean sigma nstp nsamp = Raise e).
  { intros K0 Hpre0 He0.
    pose proof (fit_points_NoDup nstp) as Hnd. rewrite Hpts in Hnd.
    rewrite fit_loop_points, Hpts.
    apply (points_loop_abort K0 mean sigma nsamp 16 (Z.to_nat nstp) pre post i j e);
      [ apply zeros_shape | exact (NoDup_app_remove_r _ _ Hnd) | | exact Hpre0
      | exact He0 ].
    intros a b Hab. apply fit_points_spec. rewrite Hpts.
    apply in_or_app. left. exact Hab. }
  split; [ exact (G K Hpre He) | ].
  intros K' Hsame. apply G.
  - intros a b Hab. rewrite Hsame by (apply in_or_app; left; exact Hab).
    apply Hpre. exact Hab.
  - rewrite Hsame by (apply in_or_app; right; left; reflexivity). exact He.
Qed.

Lemma fit_loop_first_failure_witness :
  fit_loop degenerate_K [] [] 1 2 = Raise ValueError.
Proof.
  exact (proj1 (fit_loop_first_failure degenerate_K [] [] 1 2 []
                  (tl (fit_points 1)) 0 0 ValueError eq_refl
                  (fun a b H => match H with end) eq_refl)).
Defined.

(** X14: a weighted fit that fails with something other than a
    [ValueError] is never retried: a [RuntimeError] leaves the array as it
    was, whatever the unweighted fit would have given, and any other
    exception leaves the loop, a [LinAlgError] of the weighted fit too where
    it is not a [ValueError], although the retry would have swallowed it. *)
Theorem weighted_failure_not_retried (K : collab) (mean sigma : tensor3)
  (nsamp : Z) (i j : nat) (y : matrix) (e : exn)
  (Hw : fit_attempt K mean (Some sigma) nsamp i j = Raise e)
  (Hnv : isinstance (linalg_is_value_error K) e CValueError = false) :
  fit_point K mean sigma nsamp i j y
  = (if isinstance (linalg_is_value_error K) e CRuntimeError then Ok y else Raise e)
  /\ (e = LinAlgError -> fit_point K mean sigma nsamp i j y = Raise LinAlgError)
  /\ forall K',
       linalg_is_value_error K' = linalg_is_value_error K ->
       fit_attempt K' mean (Some sigma) nsamp i j = Raise e ->
       fit_point K' mean sigma nsamp i j y = fit_point K mean sigma nsamp i j y.
Proof.
  assert (G : forall K0,
             linalg_is_value_error K0 = linalg_is_value_error K ->
             fit_attempt K0 mean (Some sigma) nsamp i j = Raise e ->
             fit_point K0 mean sigma nsamp i j y
             = (if isinstance (linalg_is_value_error K) e CRuntimeError
                then Ok y else Raise e)).
  { intros K0 Hf Hw0. unfold fit_point. rewrite Hw0, Hf. cbn [rbind]. rewrite Hnv.
    reflexivity. }
  split; [ exact (G K eq_refl Hw) | ]. split.
  - intros ->. rewrite (G K eq_refl Hw). reflexivity.
  - intros K' Hf Hw'. rewrite (G K' Hf Hw'), (G K eq_refl Hw). reflexivity.
Qed.

Lemma weighted_failure_not_retried_witness :
  fit_point (demo_collab (demo_fit (Raise RuntimeError) (Ok ([float_of_Z 7], []))))
    [] [] 2 0 0 [[fzero]]
  = Ok [[fzero]].
Proof.
  apply (proj1 (weighted_failure_not_retried
                  (demo_collab (demo_fit (Raise RuntimeError) (Ok ([float_of_Z 7], []))))
                  [] [] 2 0 0 [[fzero]] RuntimeError eq_refl eq_refl)).
Defined.

(** ** The calibration matrices *)

Lemma np_vstack_ok (m m' : matrix) (row : list float64) :
  np_vstack m row = Ok m' -> m' = m ++ [row] /\ List.length row = 2%nat.
Proof.
  unfold np_vstack. destruct (Nat.eqb_spec (List.length row) 2) as [ E | _ ];
    [ | discriminate ].
  intro H. injection H as <-. auto.
Qed.

Lemma calibrate_loop (K : collab) (x : list Z) (y : matrix) (n : nat) :
  forall (k : nat) (acc res : matrix * matrix),
    rfor (seq k n) (fun i acc => calibrate_row K x (nth i y []) acc) acc = Ok res ->
    exists tp te,
      fst res = fst acc ++ tp /\ snd res = snd acc ++ te
      /\ List.length tp = n /\ List.length te = n
      /\ forall m, (m < n)%nat ->
           exists popt pcov,
             curve_fit K (linear K) (skipn 2 x) (skipn 2 (nth (k + m) y []))
               pval (bmin, bmax) = Ok (popt, pcov)
             /\ List.length popt = 2%nat
             /\ nth m tp [] = popt
             /\ nth m te [] = map fsqrt (np_diag pcov).
Proof.
  induction n as [ | n IH ]; intros k acc res H.
  - cbn in H. injection H as <-. exists [], [].
    rewrite !app_nil_r. repeat split; try reflexivity. intros m Hm. lia.
  - cbn [seq rfor] in H. unfold calibrate_row at 1 in H.
    destruct (curve_fit K (linear K) (skipn 2 x) (skipn 2 (nth k y [])) pval
                (bmin, bmax)) as [ [popt pcov] | e ] eqn:Ec; [ | discriminate H ].
    cbn [rbind fst snd] in H.
    destruct (np_vstack (fst acc) popt) as [ pars | e ] eqn:Ep; [ | discriminate H ].
    cbn [rbind] in H.
    destruct (np_vstack (snd acc) (map fsqrt (np_diag pcov))) as [ errs | e ] eqn:Ee;
      [ | discriminate H ].
    cbn [rbind] in H.
    apply np_vstack_ok in Ep, Ee. destruct Ep as [-> Lp]. destruct Ee as [-> _].
    destruct (IH (S k) _ res H) as (tp & te & Hp & He & Ltp & Lte & Hrows).
    cbn [fst snd] in Hp, He.
    exists (popt :: tp), (map fsqrt (np_diag pcov) :: te).
    rewrite Hp, He, <- !app_assoc. cbn [app List.length].
    repeat split; try reflexivity; try (f_equal; assumption).
    intros [ | m ] Hm.
    + exists popt, pcov. rewrite Nat.add_0_r. repeat split; assumption.
    + destruct (Hrows m ltac:(lia)) as (po & pc & H1 & H2 & H3 & H4).
      exists po, pc. replace (k + S m)%nat with (S k + m)%nat by lia.
      repeat split; assumption.
Qed.

(** X15: a calibration that returns has fitted every channel: [pars] and
    [errs] have one row of two numbers for each row of the peak array, in
    order; row [j] of [pars] is the parameter pair that [curve_fit] returned
    for channel [j], and row [j] of [errs] holds the square roots of the
    diagonal of its covariance matrix. *)
Theorem calibration_rows (K : collab) (x : list Z) (y pars errs : matrix)
  (H : calibrate K x y = Ok (pars, errs)) :
  List.length pars = List.length y
  /\ List.length errs = List.length y
  /\ forall j, (j < List.length y)%nat ->
       exists popt pcov,
         curve_fit K (linear K) (skipn 2 x) (skipn 2 (nth j y [])) pval (bmin, bmax)
         = Ok (popt, pcov)
         /\ List.length popt = 2%nat
         /\ nth j pars [] = popt
         /\ nth j errs [] = map fsqrt (np_diag pcov).
Proof.
  unfold calibrate in H.
  destruct (calibrate_loop K x y (List.length y) 0 ([], []) (pars, errs) H)
    as (tp & te & Hp & He & Ltp & Lte & Hrows).
  cbn [fst snd app] in Hp, He. subst tp te.
  split; [ exact Ltp | ]. split; [ exact Lte | ]. exact Hrows.
Qed.

Lemma calibration_rows_witness :
  exists pars errs,
    calibrate demo_K (np_arange 4)
      [[fzero; fzero; float_of_Z 5; float_of_Z 6];
       [float_of_Z 1; float_of_Z 2; float_of_Z 3; float_of_Z 4]]
    = Ok (pars, errs)
    /\ List.length pars = 2%nat /\ List.length errs = 2%nat.
Proof.
  destruct (calibrate demo_K (np_arange 4)
              [[fzero; fzero; float_of_Z 5; float_of_Z 6];
               [float_of_Z 1; float_of_Z 2; float_of_Z 3; float_of_Z 4]])
    as [ [pars errs] | e ] eqn:E; [ | cbv in E; discriminate E ].
  exists pars, errs. split; [ reflexivity | ].
  destruct (calibration_rows demo_K (np_arange 4)
              [[fzero; fzero; float_of_Z 5; float_of_Z 6];
               [float_of_Z 1; float_of_Z 2; float_of_Z 3; float_of_Z 4]] pars errs E)
    as (Lp & Le & _).
  split; assumption.
Defined.




(** ** The shape of the reduced arrays *)

(** X17: [mean] and [sigma] are indexed by step, then channel, then sample:
    they have one block per step of the tensor, of 16 rows of [nsample]
    entries, however many trials the steps hold. *)
Theorem reduced_arrays_shape (nsamp : nat) (data : tensor4) (i c : nat)
  (Hi : (i < List.length data)%nat) (Hc : (c < 16)%nat) :
  List.length (np_mean_axis1 16 nsamp data) = List.length data
  /\ List.length (np_std_axis1 16 nsamp data) = List.length data
  /\ List.length (nth i (np_mean_axis1 16 nsamp data) []) = 16%nat
  /\ List.length (nth i (np_std_axis1 16 nsamp data) []) = 16%nat
  /\ List.length (nth c (nth i (np_mean_axis1 16 nsamp data) []) []) = nsamp
  /\ List.length (nth c (nth i (np_std_axis1 16 nsamp data) []) []) = nsamp.
Proof.
  assert (G : forall f,
             List.length (reduce_axis1 f 16 nsamp data) = List.length data
             /\ List.length (nth i (reduce_axis1 f 16 nsamp data) []) = 16%nat
             /\ List.length (nth c (nth i (reduce_axis1 f 16 nsamp data) []) [])
                = nsamp).
  { intro f. unfold reduce_axis1.
    set (per_step :=
           fun trials : list (list (list float64)) =>
             map (fun c0 =>
                    map (fun s0 => f (map (fun trial => nth s0 (nth c0 trial []) fzero) trials))
                        (seq 0 nsamp))
                 (seq 0 16)).
    split; [ apply length_map | ].
    rewrite (nth_indep (map per_step data) [] (per_step []))
      by (rewrite length_map; exact Hi).
    rewrite (map_nth per_step). unfold per_step.
    split; [ rewrite length_map, length_seq; reflexivity | ].
    set (per_chan :=
           fun c0 =>
             map (fun s0 => f (map (fun trial => nth s0 (nth c0 trial []) fzero) (nth i data [])))
                 (seq 0 nsamp)).
    rewrite (nth_indep (map per_chan (seq 0 16)) [] (per_chan 0%nat))
      by (rewrite length_map, length_seq; exact Hc).
    rewrite (map_nth per_chan). unfold per_chan.
    rewrite length_map, length_seq. reflexivity. }
  unfold np_mean_axis1, np_std_axis1.
  destruct (G mean_list) as (M1 & M2 & M3). destruct (G std_list) as (S1 & S2 & S3).
  repeat split; assumption.
Qed.

Lemma reduced_arrays_shape_witness :
  List.length (nth 1 (np_mean_axis1 16 3 [[]; []]) []) = 16%nat
  /\ List.length (nth 5 (nth 1 (np_mean_axis1 16 3 [[]; []]) []) []) = 3%nat.
Proof.
  assert (Hi : (1 < List.length (@cons (list (list (list float64))) [] [[]]))%nat)
    by (cbn; lia).
  assert (Hc : (5 < 16)%nat) by lia.
  destruct (reduced_arrays_shape 3 [[]; []] 1 5 Hi Hc) as (_ & _ & H3 & _ & H5 & _).
  split; assumption.
Defined.


(** ** The shapes of the signal bundle *)

Lemma rfor_invariant {A S : Type} (P : S -> Prop) (f : A -> S -> result S)
  (xs : list A) :
  (forall x s s', P s -> f x s = Ok s' -> P s') ->
  forall s s', P s -> rfor xs f s = Ok s' -> P s'.
Proof.
  intro H. induction xs as [ | x xs IH ]; intros s s' Hs E.
  - cbn in E. injection E as <-. exact Hs.
  - cbn [rfor] in E. destruct (f x s) as [ s1 | e ] eqn:E1; [ | discriminate E ].
    cbn [rbind] in E. exact (IH s1 s' (H x s s1 Hs E1) E).
Qed.

Lemma store_shape (y y' : matrix) (rows cols j i : nat) (v : float64) :
  shape2 y rows cols -> store y j i v = Ok y' -> shape2 y' rows cols.
Proof.
  intros (Hlen & Hrows) H. unfold store, setitem2, py_index, setitem in H.
  destruct (nth_error y j) as [ row | ] eqn:Er; [ | discriminate H ].
  cbn [rbind] in H.
  destruct (i <? List.length row)%nat; [ | discriminate H ]. cbn [rbind] in H.
  destruct (j <? List.length y)%nat; [ | discriminate H ].
  injection H as <-. split; [ rewrite length_set_nth; exact Hlen | ].
  apply Forall_set_nth; [ exact Hrows | ].
  rewrite length_set_nth. rewrite Forall_forall in Hrows. apply Hrows.
  eapply nth_error_In. exact Er.
Qed.

Lemma fit_point_shape (K : collab) (mean sigma : tensor3) (nsamp : Z)
  (i j rows cols : nat) (y y' : matrix) :
  shape2 y rows cols ->
  fit_point K mean sigma nsamp i j y = Ok y' -> shape2 y' rows cols.
Proof.
  intros Hy H. rewrite fit_point_ladder in H.
  destruct (ladder K mean sigma nsamp i j) as [ [ v | ] | e ]; cbn [rbind] in H.
  - eapply store_shape; eassumption.
  - injection H as <-. exact Hy.
  - discriminate H.
Qed.

Lemma fit_loop_shape (K : collab) (mean sigma : tensor3) (nstp nsamp : Z)
  (y : matrix) :
  fit_loop K mean sigma nstp nsamp = Ok y -> shape2 y 16 (Z.to_nat nstp).
Proof.
  unfold fit_loop.
  apply (rfor_invariant (fun y => shape2 y 16 (Z.to_nat nstp))); [ | apply zeros_shape ].
  intros i y0 y1 H0.
  apply (rfor_invariant (fun y => shape2 y 16 (Z.to_nat nstp))); [ | exact H0 ].
  intros j y2 y3 H2. apply fit_point_shape. exact H2.
Qed.

Lemma calibrate_row_widths (K : collab) (x : list Z) (row : list float64)
  (acc acc' : matrix * matrix) :
  Forall (fun r => List.length r = 2%nat) (fst acc) ->
  Forall (fun r => List.length r = 2%nat) (snd acc) ->
  calibrate_row K x row acc = Ok acc' ->
  Forall (fun r => List.length r = 2%nat) (fst acc')
  /\ Forall (fun r => List.length r = 2%nat) (snd acc').
Proof.
  intros Hp He H. unfold calibrate_row in H.
  destruct (curve_fit K (linear K) (skipn 2 x) (skipn 2 row) pval (bmin, bmax))
    as [ [popt pcov] | e ]; [ | discriminate H ].
  cbn [rbind fst snd] in H.
  destruct (np_vstack (fst acc) popt) as [ pars | e ] eqn:Ep; [ | discriminate H ].
  cbn [rbind] in H.
  destruct (np_vstack (snd acc) (map fsqrt (np_diag pcov))) as [ errs | e ] eqn:Ee;
    [ | discriminate H ].
  cbn [rbind] in H. injection H as <-.
  apply np_vstack_ok in Ep, Ee. destruct Ep as [-> Lp]. destruct Ee as [-> Le].
  cbn [fst snd]. split; apply Forall_app; split; auto.
Qed.

(** X18: when the analysis returns, for ['signal'] or for the entry, the
    peak array has 16 rows of [nstep] entries, [pars] and [errs] have 16
    rows of two numbers each, and [mean] and [sigma] have one block per step
    of the tensor. *)
Theorem signal_shapes (K : collab) (g : geometry) (data : tensor4) (s : signal)
  (H : analyze K g data = Ok s) :
  shape2 (sig_y s) 16 (Z.to_nat (nstep g))
  /\ shape2 (sig_pars s) 16 2
  /\ shape2 (sig_errs s) 16 2
  /\ List.length (sig_mean s) = List.length data
  /\ List.length (sig_sigma s) = List.length data.
Proof.
  unfold analyze in H.
  destruct (fit_loop K _ _ (nstep g) (nsample g)) as [ y | e ] eqn:Ey;
    [ | discriminate H ].
  cbn [rbind] in H.
  destruct (calibrate K (np_arange (nstep g)) y) as [ [pars errs] | e ] eqn:Ec;
    [ | discriminate H ].
  cbn [rbind fst snd] in H. injection H as <-. cbn.
  pose proof (fit_loop_shape K _ _ _ _ y Ey) as Hy.
  split; [ exact Hy | ].
  unfold calibrate in Ec.
  destruct (calibrate_loop K (np_arange (nstep g)) y (List.length y) 0 ([], [])
              (pars, errs) Ec) as (tp & te & Hp & He & Ltp & Lte & _).
  cbn [fst snd app] in Hp, He. subst tp te.
  assert (W : Forall (fun r => List.length r = 2%nat) (fst (pars, errs))
              /\ Forall (fun r => List.length r = 2%nat) (snd (pars, errs))).
  { revert Ec.
    apply (rfor_invariant
             (fun acc : matrix * matrix =>
                Forall (fun r => List.length r = 2%nat) (fst acc)
                /\ Forall (fun r => List.length r = 2%nat) (snd acc))).
    - intros j acc acc' [Ha Hb] E. eapply calibrate_row_widths; eassumption.
    - split; constructor. }
  destruct W as [Wp We]. cbn [fst snd] in Wp, We.
  destruct Hy as [Ly _].
  split; [ split; [ lia | exact Wp ] | ].
  split; [ split; [ lia | exact We ] | ].
  unfold np_mean_axis1, np_std_axis1, reduce_axis1.
  rewrite !length_map. split; reflexivity.
Qed.

Lemma signal_shapes_witness :
  exists s,
    analyze demo_K demo_g [[[]]] = Ok s
    /\ shape2 (sig_y s) 16 1 /\ shape2 (sig_pars s) 16 2.
Proof.
  destruct (analyze demo_K demo_g [[[]]]) as [ s | e ] eqn:E;
    [ | cbv in E; discriminate E ].
  exists s. split; [ reflexivity | ].
  destruct (signal_shapes demo_K demo_g [[[]]] s E) as (Hy & Hp & _).
  split; assumption.
Defined.
